(** * Dependency checker (app.py): a shallow embedding and its properties

    The script clones a repository, looks for package-manager marker files,
    and asks each detected manager for its outdated packages.  Every function
    of [app.py] (lines 16-217) is embedded below as a Rocq function over

    - Python strings, as [string] (code points 0..255);
    - the values [json.loads] produces, as [pyval]; a float comes with its
      value and with the text [str()] gives for it;
    - Python dictionaries, as insertion-ordered association lists;
    - a [World] record that answers every question the script asks of its
      environment (URL parsing, subprocesses, the file system, file
      contents, the JSON decoder);
    - a directory tree with symbolic links, for the worlds in which the
      file system is known, searched as [pathlib] searches it;
    - a small monad [M] that records the trace of external events and
      distinguishes normal return, a raised exception and [sys.exit].

    Lines 221-223 of the file repeat lines 204-206 after the call of
    [main()], with an indentation no block has; Python rejects the file as
    it stands.  They belong to no function, and the embedding is that of the
    script without them.

    Left out of the model: code points above 255, symbolic links that
    lead back into their own directory or to a place the process may not
    reach, asynchronous interrupts, and failures of [print] or of the
    removal of the temporary directory. *)

From Stdlib Require Import String Ascii List ZArith Lia Bool Arith.
From Stdlib Require Import Numbers.DecimalString.
Import ListNotations.
Open Scope string_scope.

Set Implicit Arguments.

(* ===================================================================== *)
(** * Python string operations *)
(* ===================================================================== *)

Module PyStr.

(** [s.startswith(p)] *)
Fixpoint startswith (p s : string) : bool :=
  match p, s with
  | EmptyString, _ => true
  | String a p', String b s' => Ascii.eqb a b && startswith p' s'
  | String _ _, EmptyString => false
  end.

(** The rest of [s] after the prefix [p], when [s] starts with [p]. *)
Fixpoint strip_prefix (p s : string) : option string :=
  match p, s with
  | EmptyString, _ => Some s
  | String a p', String b s' =>
      if Ascii.eqb a b then strip_prefix p' s' else None
  | String _ _, EmptyString => None
  end.

(** [s.partition(sep)] at the first (leftmost) occurrence of [sep]:
    [Some (before, after)], or [None] when [sep] does not occur. *)
Fixpoint partition (sep s : string) : option (string * string) :=
  match strip_prefix sep s with
  | Some rest => Some (EmptyString, rest)
  | None =>
      match s with
      | EmptyString => None
      | String c s' =>
          match partition sep s' with
          | Some (a, b) => Some (String c a, b)
          | None => None
          end
      end
  end.

(** [sub in s] *)
Definition contains (sub s : string) : bool :=
  match partition sub s with Some _ => true | None => false end.

(** [s.split(sep)] for a non-empty [sep]: cut at every occurrence, scanning
    from the left, occurrences not overlapping.  The fuel bounds the number
    of cuts; [split] gives one more than the length of [s]. *)
Fixpoint split_fuel (n : nat) (sep s : string) : list string :=
  match n with
  | O => [s]
  | S n' =>
      match partition sep s with
      | None => [s]
      | Some (a, b) => a :: split_fuel n' sep b
      end
  end.

Definition split (sep s : string) : list string :=
  split_fuel (S (String.length s)) sep s.

(** [s.lstrip(chars)], [s.rstrip(chars)], [s.strip(chars)], the set of
    characters given by its membership test. *)
Fixpoint lstrip (f : ascii -> bool) (s : string) : string :=
  match s with
  | EmptyString => EmptyString
  | String c s' => if f c then lstrip f s' else s
  end.

Fixpoint rstrip (f : ascii -> bool) (s : string) : string :=
  match s with
  | EmptyString => EmptyString
  | String c s' =>
      match rstrip f s' with
      | EmptyString => if f c then EmptyString else String c EmptyString
      | r => String c r
      end
  end.

Definition strip (f : ascii -> bool) (s : string) : string :=
  rstrip f (lstrip f s).

Definition is_char (c : ascii) : ascii -> bool := Ascii.eqb c.

(** [str.isspace] on the code points below 256: TAB..CR, FS..US, SPACE,
    NEL (0x85) and NBSP (0xA0). *)
Definition isspace (c : ascii) : bool :=
  let n := nat_of_ascii c in
  (Nat.leb 9 n && Nat.leb n 13) || (Nat.leb 28 n && Nat.leb n 32)
  || Nat.eqb n 133 || Nat.eqb n 160.

(** [s.strip()] *)
Definition strip_ws : string -> string := strip isspace.

(** [s[:n]] *)
Fixpoint take (n : nat) (s : string) : string :=
  match n, s with
  | O, _ => EmptyString
  | _, EmptyString => EmptyString
  | S n', String c s' => String c (take n' s')
  end.

Fixpoint repeat_char (c : ascii) (n : nat) : string :=
  match n with O => EmptyString | S n' => String c (repeat_char c n') end.

(** [format(s, '<w')]: pad with spaces on the right up to width [w];
    a longer string is left as it is. *)
Definition ljust (w : nat) (s : string) : string :=
  s ++ repeat_char " "%char (w - String.length s).

Definition upper_char (c : ascii) : string :=
  let n := nat_of_ascii c in
  if (Nat.leb 97 n && Nat.leb n 122)
     || (Nat.leb 224 n && Nat.leb n 254 && negb (Nat.eqb n 247))
  then String (ascii_of_nat (n - 32)) EmptyString
  else if Nat.eqb n 223 then "SS"
  else String c EmptyString.

(** [s.upper()].  The capitals of the code points 181 and 255 lie above
    255: these two are left as they are. *)
Fixpoint upper (s : string) : string :=
  match s with
  | EmptyString => EmptyString
  | String c s' => upper_char c ++ upper s'
  end.

Fixpoint last_char (s : string) : option ascii :=
  match s with
  | EmptyString => None
  | String c EmptyString => Some c
  | String _ s' => last_char s'
  end.

Definition endswith_char (c : ascii) (s : string) : bool :=
  match last_char s with Some d => Ascii.eqb c d | None => false end.

Definition is_empty (s : string) : bool :=
  match s with EmptyString => true | _ => false end.

(** [str(z)] for an integer. *)
Definition of_Z (z : Z) : string := NilZero.string_of_int (Z.to_int z).

(** The one-character strings a Python [for] loop over [s] yields. *)
Fixpoint chars (s : string) : list string :=
  match s with
  | EmptyString => []
  | String c s' => String c EmptyString :: chars s'
  end.

(** Splitting at a single character, by structural recursion. *)
Fixpoint split_char (c : ascii) (s : string) : list string :=
  match s with
  | EmptyString => [EmptyString]
  | String a s' =>
      if Ascii.eqb c a then EmptyString :: split_char c s'
      else match split_char c s' with
           | h :: t => String a h :: t
           | [] => [String a EmptyString]
           end
  end.

(** [bool(x)] for a string. *)
Definition nonempty (x : string) : bool := negb (is_empty x).

End PyStr.

(** [os.path.join(a, b)] and [os.path.basename(p)] of [posixpath]. *)
Module OsPath.

Definition join (a b : string) : string :=
  if PyStr.startswith "/" b then b
  else if PyStr.is_empty a || PyStr.endswith_char "/"%char a then a ++ b
  else a ++ "/" ++ b.

Fixpoint basename (p : string) : string :=
  match p with
  | EmptyString => EmptyString
  | String c p' =>
      if PyStr.contains "/" p then basename p' else p
  end.

End OsPath.

(* ===================================================================== *)
(** * Python values and dictionaries *)
(* ===================================================================== *)

(** A float as [json.loads] gives it: its value, not a number, an
    infinity or the finite number [m * 2^e], and the text that [str()] and
    [format()] print for it (the shortest decimal that reads back as the
    same float, which is not computed here). *)
Inductive float_value : Type :=
| FNan
| FInf (negative : bool)
| FFinite (m e : Z).

Record pyfloat : Type := {
  fvalue : float_value;
  fstr : string
}.

Module PyFloat.

Definition is_nan (x : pyfloat) : bool :=
  match fvalue x with FNan => true | _ => false end.

(** [m1 * 2^e1 = m2 * 2^e2] *)
Definition same_number (m1 e1 m2 e2 : Z) : bool :=
  if Z.leb e2 e1 then Z.eqb (m1 * 2 ^ (e1 - e2)) m2
  else Z.eqb m1 (m2 * 2 ^ (e2 - e1)).

(** [x == y]: by value, and a NaN is equal to nothing. *)
Definition eqb (x y : pyfloat) : bool :=
  match fvalue x, fvalue y with
  | FFinite m1 e1, FFinite m2 e2 => same_number m1 e1 m2 e2
  | FInf a, FInf b => Bool.eqb a b
  | _, _ => false
  end.

(** [x == z] for an integer [z]: the values are compared exactly. *)
Definition eqb_Z (x : pyfloat) (z : Z) : bool :=
  match fvalue x with
  | FFinite m e => same_number m e z 0
  | _ => false
  end.

(** [x is y or x == y], as dictionaries and the comparison of lists see
    two floats: every NaN of the decoder is one and the same object. *)
Definition same (x y : pyfloat) : bool :=
  (is_nan x && is_nan y) || eqb x y.

End PyFloat.

(** Hashable values (dictionary keys) and the values [json.loads] builds.
    A JSON document only has string keys; other keys can enter a dictionary
    through [dict.update] on a list of pairs. *)
Inductive pykey : Type :=
| KNone
| KBool (b : bool)
| KInt (z : Z)
| KStr (s : string)
| KFloat (x : pyfloat).

#[warnings="-register-all"]
Inductive pyval : Type :=
| VNone
| VBool (b : bool)
| VInt (z : Z)
| VStr (s : string)
| VList (l : list pyval)
| VDict (d : list (pykey * pyval))
| VFloat (x : pyfloat).

Definition Z_of_bool (b : bool) : Z := if b then 1%Z else 0%Z.

(** [k1 is k2 or k1 == k2] on keys: [True == 1 == 1.0] and
    [False == 0 == 0.0]. *)
Definition key_eqb (a b : pykey) : bool :=
  match a, b with
  | KNone, KNone => true
  | KBool x, KBool y => Bool.eqb x y
  | KBool x, KInt z | KInt z, KBool x => Z.eqb (Z_of_bool x) z
  | KInt x, KInt y => Z.eqb x y
  | KStr x, KStr y => String.eqb x y
  | KFloat x, KFloat y => PyFloat.same x y
  | KFloat x, KInt z | KInt z, KFloat x => PyFloat.eqb_Z x z
  | KFloat x, KBool b | KBool b, KFloat x => PyFloat.eqb_Z x (Z_of_bool b)
  | _, _ => false
  end.

Definition val_of_key (k : pykey) : pyval :=
  match k with
  | KNone => VNone
  | KBool b => VBool b
  | KInt z => VInt z
  | KStr s => VStr s
  | KFloat x => VFloat x
  end.

(** [hash(v)] succeeds: lists and dictionaries are unhashable. *)
Definition key_of_val (v : pyval) : option pykey :=
  match v with
  | VNone => Some KNone
  | VBool b => Some (KBool b)
  | VInt z => Some (KInt z)
  | VStr s => Some (KStr s)
  | VFloat x => Some (KFloat x)
  | VList _ | VDict _ => None
  end.

(** The number a key stands for, when it is one: [True], [1] and [1.0]
    are one key. *)
Definition key_number (k : pykey) : option (Z * Z) :=
  match k with
  | KBool b => Some (Z_of_bool b, 0%Z)
  | KInt z => Some (z, 0%Z)
  | KFloat x =>
      match fvalue x with
      | FFinite m e => Some (m, e)
      | _ => None
      end
  | _ => None
  end.

(** Insertion-ordered dictionaries with keys compared by [eqb]. *)
Module PyDict.
Section Dict.
Variables K V : Type.
Variable eqb : K -> K -> bool.

Definition t := list (K * V).

(** [d.get(k)] *)
Fixpoint get (d : t) (k : K) : option V :=
  match d with
  | [] => None
  | (k', v) :: d' => if eqb k' k then Some v else get d' k
  end.

(** [d[k] = v]: an existing key keeps its place (and its key object), a
    new key goes to the end. *)
Fixpoint set (d : t) (k : K) (v : V) : t :=
  match d with
  | [] => [(k, v)]
  | (k', v') :: d' =>
      if eqb k' k then (k', v) :: d' else (k', v') :: set d' k v
  end.

(** [d.update(e)] for a dictionary [e], and [dict(pairs)]-style building. *)
Definition update (d e : t) : t :=
  fold_left (fun acc kv => set acc (fst kv) (snd kv)) e d.

Definition keys (d : t) : list K := map fst d.

(** No key occurs twice: what every Python dictionary satisfies. *)
Fixpoint unique (d : t) : Prop :=
  match d with
  | [] => True
  | (k, _) :: d' => get d' k = None /\ unique d'
  end.

End Dict.
End PyDict.

Abbreviation sdict V := (PyDict.t string V).
Abbreviation sget := (PyDict.get String.eqb).
Abbreviation sset := (PyDict.set String.eqb).
Abbreviation kget := (PyDict.get key_eqb).
Abbreviation kset := (PyDict.set key_eqb).
Abbreviation kupdate := (PyDict.update key_eqb).

(** [a is b] where it differs from [a == b]: on two NaN. *)
Definition both_nan (a b : pyval) : bool :=
  match a, b with
  | VFloat x, VFloat y => PyFloat.is_nan x && PyFloat.is_nan y
  | _, _ => false
  end.

(** [a == b] on values.  Lists and dictionaries compare their elements by
    identity first.  Dictionaries are equal when they have the same number
    of entries and every entry of the first is matched in the second. *)
Fixpoint py_eq (a b : pyval) : bool :=
  match a, b with
  | VNone, VNone => true
  | VBool x, VBool y => Bool.eqb x y
  | VBool x, VInt z | VInt z, VBool x => Z.eqb (Z_of_bool x) z
  | VInt x, VInt y => Z.eqb x y
  | VStr x, VStr y => String.eqb x y
  | VFloat x, VFloat y => PyFloat.eqb x y
  | VFloat x, VInt z | VInt z, VFloat x => PyFloat.eqb_Z x z
  | VFloat x, VBool b | VBool b, VFloat x => PyFloat.eqb_Z x (Z_of_bool b)
  | VList l, VList m =>
      (fix go (l m : list pyval) : bool :=
         match l, m with
         | [], [] => true
         | x :: l', y :: m' => (both_nan x y || py_eq x y) && go l' m'
         | _, _ => false
         end) l m
  | VDict d, VDict e =>
      Nat.eqb (List.length d) (List.length e)
      && (fix all (d : list (pykey * pyval)) : bool :=
            match d with
            | [] => true
            | (k, v) :: d' =>
                match kget e k with
                | Some v' => both_nan v v' || py_eq v v'
                | None => false
                end && all d'
            end) d
  | _, _ => false
  end.

(** The class name in "'NoneType' object is not iterable" and the like. *)
Definition type_name (v : pyval) : string :=
  match v with
  | VNone => "NoneType"
  | VBool _ => "bool"
  | VInt _ => "int"
  | VStr _ => "str"
  | VList _ => "list"
  | VDict _ => "dict"
  | VFloat _ => "float"
  end.

(* ===================================================================== *)
(** * Exceptions, events and the monad of the script *)
(* ===================================================================== *)

(** The exceptions of the script are all subclasses of [Exception]:
    [subprocess.CalledProcessError] with its fields, and any other one with
    its class name and its [str()]. *)
Inductive exn : Type :=
| CalledProcessError (returncode : Z) (cmd : list string)
                     (output stderr : string)
| PyException (cls msg : string).

(** What the script does to the outside, in order. *)
Inductive event : Type :=
| EPrint (line : string)                        (* print(line) *)
| EWhich (prog : string)                        (* shutil.which(prog) *)
| ERun (argv : list string) (cwd : option string) (* subprocess.run(argv, cwd=..) *)
| EExists (path : string)                       (* os.path.exists(path) *)
| ERglob (dir pattern : string)                 (* Path(dir).rglob(pattern) *)
| EOpen (path : string)                         (* open(path, 'r') *)
| EMkdtemp                                      (* TemporaryDirectory() *)
| ECleanup (dir : string).                      (* ... and its removal *)

(** How a call ends: it returns, raises, or calls [sys.exit(code)]
    ([SystemExit] is not an [Exception] and no handler of the script
    catches it). *)
Inductive outcome (A : Type) : Type :=
| Return (a : A)
| Raise (e : exn)
| Exit (code : Z).

Arguments Return {A} a.
Arguments Raise {A} e.
Arguments Exit {A} code.

Definition M (A : Type) : Type := (list event * outcome A)%type.

Definition ret {A} (a : A) : M A := ([], Return a).

Definition bind {A B} (m : M A) (f : A -> M B) : M B :=
  match m with
  | (t, Return a) => let (t', o) := f a in ((t ++ t')%list, o)
  | (t, Raise e) => (t, Raise e)
  | (t, Exit c) => (t, Exit c)
  end.

Definition emit (ev : event) : M unit := ([ev], Return tt).
Definition raise {A} (e : exn) : M A := ([], Raise e).
Definition sys_exit {A} (code : Z) : M A := ([], Exit code).
Definition print (line : string) : M unit := emit (EPrint line).

(** [try: m  except Exception as e: h e] *)
Definition try_except {A} (m : M A) (h : exn -> M A) : M A :=
  match m with
  | (t, Raise e) => let (t', o) := h e in ((t ++ t')%list, o)
  | other => other
  end.

(** [with ...: m], the exit action running however [m] ends. *)
Definition finally {A} (m : M A) (cleanup : event) : M A :=
  let (t, o) := m in ((t ++ [cleanup])%list, o).

Definition trace {A} (m : M A) : list event := fst m.
Definition result {A} (m : M A) : outcome A := snd m.

(** Lift a library call that returns or raises. *)
Definition lift {A} (r : A + exn) : M A :=
  match r with inl a => ret a | inr e => raise e end.

Declare Scope py_scope.
Delimit Scope py_scope with py.
Notation "x <- m ;; k" := (bind m (fun x => k))
  (at level 100, m at next level, right associativity) : py_scope.
Notation "m ;; k" := (bind m (fun _ => k))
  (at level 100, right associativity) : py_scope.
Open Scope py_scope.

(** [for x in xs: body x] *)
Fixpoint for_each {A} (xs : list A) (body : A -> M unit) : M unit :=
  match xs with
  | [] => ret tt
  | x :: xs' => body x ;; for_each xs' body
  end.

(** A finished subprocess, or the exception [subprocess.run] raised before
    there was one (the executable is missing, for instance). *)
Inductive proc : Type :=
| Completed (returncode : Z) (stdout stderr : string)
| Failed (e : exn).

(** An open text file: the lines its iteration yields and, if reading
    breaks off (a decoding or I/O error), the exception raised after them. *)
Record file : Type := {
  lines : list string;
  read_error : option exn
}.

(** The environment of one run.  Each field stands for a library call the
    script makes; its answer depends on the arguments only. *)
Record World : Type := {
  urlparse_path : string -> string + exn;   (* urlparse(url).path *)
  which : string -> bool;                   (* shutil.which(p) is not None *)
  run_process : list string -> option string -> proc;
  path_exists : string -> bool;             (* os.path.exists *)
  rglob : string -> string -> list string + exn;
                                 (* [str(p) for p in Path(d).rglob(pat)] *)
  open_file : string -> file + exn;         (* open(path, 'r') *)
  json_loads : string -> pyval + exn;       (* json.loads *)
  mkdtemp : string + exn;                   (* TemporaryDirectory().name *)
  signal_repr : Z -> option string;         (* repr(signal.Signals(n)) *)
  recursion_headroom : nat;
    (* how many directories below its start Path.rglob can go before the
       recursion limit of the interpreter stops it *)
  path_error : string -> option exn;
    (* the OSError of os.stat for a path the system does not take, whatever
       the files are (a path that is too long); not the error of a file
       that is not there *)
  list_error : string -> option exn
    (* the OSError of os.scandir for a directory that is there but cannot
       be listed (no permission, a path that is too long) *)
}.

(* ===================================================================== *)
(** * Library calls on values *)
(* ===================================================================== *)

Definition nl : string := String (ascii_of_nat 10) EmptyString.

Module PyRepr.

Definition hex_digit (n : nat) : ascii :=
  if Nat.ltb n 10 then ascii_of_nat (48 + n) else ascii_of_nat (87 + n).

Definition printable (c : ascii) : bool :=
  let n := nat_of_ascii c in
  (Nat.leb 32 n && Nat.leb n 126)
  || (Nat.leb 161 n && negb (Nat.eqb n 173)).

Definition escape_char (quote : ascii) (c : ascii) : string :=
  let n := nat_of_ascii c in
  if Ascii.eqb c "\"%char then "\\"
  else if Ascii.eqb c quote then String "\"%char (String c EmptyString)
  else if Nat.eqb n 10 then "\n"
  else if Nat.eqb n 13 then "\r"
  else if Nat.eqb n 9 then "\t"
  else if printable c then String c EmptyString
  else String "\"%char (String "x"%char
         (String (hex_digit (n / 16)) (String (hex_digit (n mod 16))
            EmptyString))).

Fixpoint escape (quote : ascii) (s : string) : string :=
  match s with
  | EmptyString => EmptyString
  | String c s' => escape_char quote c ++ escape quote s'
  end.

Definition apostrophe : ascii := ascii_of_nat 39.
Definition dquote : ascii := ascii_of_nat 34.

(** [repr(s)]: single quotes, unless [s] has a single quote and no
    double quote. *)
Definition of_str (s : string) : string :=
  let q :=
    if PyStr.contains (String apostrophe EmptyString) s
       && negb (PyStr.contains (String dquote EmptyString) s)
    then dquote else apostrophe in
  String q (escape q s ++ String q EmptyString).

(** [repr(l)] for a list of strings. *)
Definition of_list (l : list string) : string :=
  "[" ++ String.concat ", " (map of_str l) ++ "]".

End PyRepr.

(** [str(e)]; for [CalledProcessError] as [subprocess.py] builds it, from
    the command and the return code. *)
Definition exn_str (w : World) (e : exn) : string :=
  match e with
  | PyException _ msg => msg
  | CalledProcessError rc cmd _ _ =>
      if Z.ltb rc 0 then
        match signal_repr w (- rc) with
        | Some sig =>
            "Command '" ++ PyRepr.of_list cmd ++ "' died with " ++ sig ++ "."
        | None =>
            "Command '" ++ PyRepr.of_list cmd ++ "' died with unknown signal "
            ++ PyStr.of_Z (- rc) ++ "."
        end
      else
        "Command '" ++ PyRepr.of_list cmd ++ "' returned non-zero exit status "
        ++ PyStr.of_Z rc ++ "."
  end.

Definition is_CalledProcessError (e : exn) : bool :=
  match e with CalledProcessError _ _ _ _ => true | PyException _ _ => false end.

(** [try: m  except subprocess.CalledProcessError as e: h e] *)
Definition try_except_cpe {A} (m : M A) (h : exn -> M A) : M A :=
  try_except m (fun e => if is_CalledProcessError e then h e else raise e).

Record CompletedProcess : Type := {
  returncode : Z;
  stdout : string;
  stderr : string
}.

(** [subprocess.run(argv, cwd=cwd, check=check, capture_output=True)] *)
Definition subprocess_run (w : World) (argv : list string)
    (cwd : option string) (check : bool) : M CompletedProcess :=
  emit (ERun argv cwd) ;;
  match run_process w argv cwd with
  | Failed e => raise e
  | Completed rc out err =>
      if check && negb (Z.eqb rc 0)
      then raise (CalledProcessError rc argv out err)
      else ret {| returncode := rc; stdout := out; stderr := err |}
  end.

Definition TypeError {A} (msg : string) : M A :=
  raise (PyException "TypeError" msg).
Definition ValueError {A} (msg : string) : M A :=
  raise (PyException "ValueError" msg).
Definition AttributeError {A} (v : pyval) (attr : string) : M A :=
  raise (PyException "AttributeError"
           ("'" ++ type_name v ++ "' object has no attribute '" ++ attr ++ "'")).

(** [l[i]] on a list. *)
Definition py_index {A} (l : list A) (i : nat) : M A :=
  match nth_error l i with
  | Some a => ret a
  | None => raise (PyException "IndexError" "list index out of range")
  end.

(** [a, b = l] *)
Definition unpack2_result {A} (l : list A) : (A * A) + exn :=
  match l with
  | [a; b] => inl (a, b)
  | _ :: _ :: _ :: _ =>
      inr (PyException "ValueError" "too many values to unpack (expected 2)")
  | _ =>
      inr (PyException "ValueError"
             ("not enough values to unpack (expected 2, got "
              ++ PyStr.of_Z (Z.of_nat (List.length l)) ++ ")"))
  end.

(** [v.get(k, default)]: only dictionaries have [get]. *)
Definition py_get (v : pyval) (k : string) (default : pyval) : M pyval :=
  match v with
  | VDict d =>
      ret (match kget d (KStr k) with Some x => x | None => default end)
  | _ => AttributeError v "get"
  end.

(** [v.items()] *)
Definition py_items (v : pyval) : M (list (pykey * pyval)) :=
  match v with
  | VDict d => ret d
  | _ => AttributeError v "items"
  end.

(** [iter(v)]: the elements a [for] loop over [v] visits. *)
Definition py_iter (v : pyval) : M (list pyval) :=
  match v with
  | VList l => ret l
  | VDict d => ret (map (fun kv => val_of_key (fst kv)) d)
  | VStr s => ret (map VStr (PyStr.chars s))
  | _ => TypeError ("'" ++ type_name v ++ "' object is not iterable")
  end.

(** [v[k]] for a string [k]. *)
Definition py_getitem (v : pyval) (k : string) : M pyval :=
  match v with
  | VDict d =>
      match kget d (KStr k) with
      | Some x => ret x
      | None => raise (PyException "KeyError" (PyRepr.of_str k))
      end
  | VList _ => TypeError "list indices must be integers or slices, not str"
  | VStr _ => TypeError "string indices must be integers, not 'str'"
  | _ => TypeError ("'" ++ type_name v ++ "' object is not subscriptable")
  end.

(** [v[:n]] *)
Definition py_slice_to (n : nat) (v : pyval) : M pyval :=
  match v with
  | VStr s => ret (VStr (PyStr.take n s))
  | VList l => ret (VList (firstn n l))
  | VDict _ => TypeError "unhashable type: 'slice'"
  | _ => TypeError ("'" ++ type_name v ++ "' object is not subscriptable")
  end.

(** The replacement field [{:<w}] of [str.format] applied to [v]. *)
Definition py_format_left (width : nat) (v : pyval) : M string :=
  match v with
  | VStr s => ret (PyStr.ljust width s)
  | VInt z => ret (PyStr.ljust width (PyStr.of_Z z))
  | VBool b => ret (PyStr.ljust width (PyStr.of_Z (Z_of_bool b)))
  | VFloat x => ret (PyStr.ljust width (fstr x))
  | _ => TypeError ("unsupported format string passed to "
                    ++ type_name v ++ ".__format__")
  end.

(** One element of the iterable given to [dict.update]: it must itself have
    exactly two elements, the first one hashable. *)
Definition update_pair (i : nat) (item : pyval) : M (pykey * pyval) :=
  let bad_length n :=
    ValueError ("dictionary update sequence element #"
                ++ PyStr.of_Z (Z.of_nat i) ++ " has length "
                ++ PyStr.of_Z (Z.of_nat n) ++ "; 2 is required") in
  match item with
  | VNone | VBool _ | VInt _ | VFloat _ =>
      TypeError ("cannot convert dictionary update sequence element #"
                 ++ PyStr.of_Z (Z.of_nat i) ++ " to a sequence")
  | _ =>
      elems <- py_iter item ;;
      match elems with
      | [k; v] =>
          match key_of_val k with
          | Some key => ret (key, v)
          | None => TypeError ("unhashable type: '" ++ type_name k ++ "'")
          end
      | _ => bad_length (List.length elems)
      end
  end.

Fixpoint update_pairs (d : PyDict.t pykey pyval) (i : nat)
    (items : list pyval) : M (PyDict.t pykey pyval) :=
  match items with
  | [] => ret d
  | item :: rest =>
      kv <- update_pair i item ;;
      update_pairs (kset d (fst kv) (snd kv)) (S i) rest
  end.

(** [d.update(v)]: a dictionary is merged in; any other value is iterated
    as a sequence of pairs. *)
Definition py_update (d : PyDict.t pykey pyval) (v : pyval)
    : M (PyDict.t pykey pyval) :=
  match v with
  | VDict e => ret (kupdate d e)
  | _ => items <- py_iter v ;; update_pairs d 0 items
  end.

(** [f.read()] *)
Definition read_all (f : file) : M string :=
  match read_error f with
  | Some e => raise e
  | None => ret (String.concat "" (lines f))
  end.

(* ===================================================================== *)
(** * The functions of app.py *)
(* ===================================================================== *)

(** The decorations of the messages, as their UTF-8 bytes. *)
Definition magnifier : string := "🔍".
Definition warning_sign : string := "⚠️".
Definition package_sign : string := "📦".
Definition cross_mark : string := "❌".

(** [is_git_available] (lines 16-18) *)
Definition is_git_available (w : World) : M bool :=
  emit (EWhich "git") ;;
  ret (which w "git").

(** [validate_github_url] (lines 20-32) *)
Definition validate_github_url (w : World) (url : string)
    : M (string * string) :=
  try_except
    (path <- lift (urlparse_path w url) ;;
     let path_parts :=
       PyStr.split "/" (PyStr.strip (PyStr.is_char "/"%char) path) in
     (if Nat.ltb (List.length path_parts) 2
      then ValueError "Invalid GitHub repository URL format"
      else ret tt) ;;
     owner <- py_index path_parts 0 ;;
     repo <- py_index path_parts 1 ;;
     ret (owner, repo))
    (fun e =>
       print ("Error parsing GitHub URL: " ++ exn_str w e) ;;
       sys_exit 1).

Definition git_clone_argv (repo_url temp_dir : string) : list string :=
  ["git"; "clone"; "--depth"; "1"; repo_url; temp_dir].

(** [clone_repo] (lines 34-47) *)
Definition clone_repo (w : World) (repo_url temp_dir : string) : M unit :=
  available <- is_git_available w ;;
  (if negb available then
     print "Error: Git is not installed or not found in system PATH." ;;
     print "Please install Git from https://git-scm.com/downloads and ensure it's added to your system PATH." ;;
     sys_exit 1
   else ret tt) ;;
  print (nl ++ magnifier ++ " Analyzing repository: " ++ repo_url) ;;
  try_except_cpe
    (subprocess_run w (git_clone_argv repo_url temp_dir) None true ;;
     ret tt)
    (fun e =>
       print ("Error cloning repository: " ++ exn_str w e) ;;
       sys_exit 1).

(** The marker table of [detect_package_managers] (lines 51-62), in the
    order the dictionary literal lists it. *)
Definition package_files : list (string * string) :=
  [ ("package.json", "npm");
    ("requirements.txt", "pip");
    ("Pipfile", "pipenv");
    ("composer.json", "composer");
    ("pom.xml", "maven");
    ("build.gradle", "gradle");
    ("Gemfile", "bundler");
    ("go.mod", "go");
    ("Cargo.toml", "cargo");
    ("*.csproj", "dotnet") ].

(** [s.replace(a, b)] for one-character [a] and [b]. *)
Fixpoint replace_char (a b : ascii) (s : string) : string :=
  match s with
  | EmptyString => EmptyString
  | String c s' =>
      String (if Ascii.eqb c a then b else c) (replace_char a b s')
  end.

(** The body of the loop of [detect_package_managers] (lines 67-75):
    [found_managers] after one table entry. *)
Definition detect_entry (w : World) (temp_dir : string)
    (found_managers : sdict string) (entry : string * string)
    : M (sdict string) :=
  let (file_pattern, manager) := entry in
  if PyStr.contains "*" file_pattern then
    let pattern := replace_char "*"%char "*"%char file_pattern in
    emit (ERglob temp_dir pattern) ;;
    matches <- lift (rglob w temp_dir pattern) ;;
    match matches with
    | first :: _ => ret (sset found_managers manager first)
    | [] => ret found_managers
    end
  else
    let file_path := OsPath.join temp_dir file_pattern in
    emit (EExists file_path) ;;
    if path_exists w file_path
    then ret (sset found_managers manager file_path)
    else ret found_managers.

(** A [for] loop that updates a local variable. *)
Fixpoint for_fold {A S} (xs : list A) (s : S) (body : S -> A -> M S) : M S :=
  match xs with
  | [] => ret s
  | x :: xs' => s' <- body s x ;; for_fold xs' s' body
  end.

(** [detect_package_managers] (lines 49-77) *)
Definition detect_package_managers (w : World) (temp_dir : string)
    : M (sdict string) :=
  for_fold package_files [] (detect_entry w temp_dir).

(** The [try] block of [parse_npm_dependencies] (lines 82-87). *)
Definition load_npm_dependencies (w : World) (package_json_path : string)
    : M (PyDict.t pykey pyval) :=
  emit (EOpen package_json_path) ;;
  f <- lift (open_file w package_json_path) ;;
  text <- read_all f ;;
  data <- lift (json_loads w text) ;;
  dependencies <- py_get data "dependencies" (VDict []) ;;
  deps <- py_update [] dependencies ;;
  devDependencies <- py_get data "devDependencies" (VDict []) ;;
  deps <- py_update deps devDependencies ;;
  ret deps.

(** [parse_npm_dependencies] (lines 79-90) *)
Definition parse_npm_dependencies (w : World) (package_json_path : string)
    : M (PyDict.t pykey pyval) :=
  try_except
    (load_npm_dependencies w package_json_path)
    (fun e =>
       print ("Error parsing package.json: " ++ exn_str w e) ;;
       ret []).

(** One turn of the loop of [parse_python_requirements] (lines 98-108):
    the new [deps], or the exception that leaves [deps] as it was. *)
Definition parse_requirement_line (deps : sdict string) (raw : string)
    : sdict string + exn :=
  let line := PyStr.strip_ws raw in
  if negb (PyStr.is_empty line) && negb (PyStr.startswith "#" line) then
    if PyStr.contains "==" line then
      match unpack2_result (PyStr.split "==" line) with
      | inl (name, version) => inl (sset deps name version)
      | inr e => inr e
      end
    else if PyStr.contains ">=" line then
      match unpack2_result (PyStr.split ">=" line) with
      | inl (name, version) => inl (sset deps name version)
      | inr e => inr e
      end
    else inl (sset deps line "Not specified")
  else inl deps.

(** The loop: [deps] when it stopped, and the exception that stopped it
    ([deps] is assigned before the [try] and survives it). *)
Fixpoint parse_requirement_lines (deps : sdict string) (ls : list string)
    : sdict string * option exn :=
  match ls with
  | [] => (deps, None)
  | raw :: ls' =>
      match parse_requirement_line deps raw with
      | inl deps' => parse_requirement_lines deps' ls'
      | inr e => (deps, Some e)
      end
  end.

(** [parse_python_requirements] (lines 92-111) *)
Definition parse_python_requirements (w : World) (requirements_path : string)
    : M (sdict string) :=
  let report e := print ("Error parsing requirements.txt: " ++ exn_str w e) in
  emit (EOpen requirements_path) ;;
  match open_file w requirements_path with
  | inr e => report e ;; ret []
  | inl f =>
      match parse_requirement_lines [] (lines f) with
      | (deps, Some e) => report e ;; ret deps
      | (deps, None) =>
          match read_error f with
          | Some e => report e ;; ret deps
          | None => ret deps
          end
      end
  end.

(** [print_package_header] (lines 161-167) *)
Definition print_package_header : M unit :=
  let header :=
    PyStr.ljust 40 "Package Name" ++ " " ++ PyStr.ljust 20 "Current Version"
    ++ " " ++ PyStr.ljust 20 "Latest Version" ++ " " ++ PyStr.ljust 20 "Status" in
  print (nl ++ header) ;;
  print (PyStr.repeat_char "-"%char 100).

(** The three local computations of [print_package_info] (lines 171-179). *)
Definition package_status (current latest : pyval) : string :=
  if negb (py_eq current latest) then "Update Available" else "Up to date".

Definition display_version (v : pyval) : pyval :=
  if negb (py_eq v (VStr "N/A")) then v else VStr "-".

(** [print_package_info] (lines 169-184) *)
Definition print_package_info (name current latest : pyval) : M unit :=
  let status := package_status current latest in
  let current_ver := display_version current in
  let latest_ver := display_version latest in
  name39 <- py_slice_to 39 name ;;
  c1 <- py_format_left 40 name39 ;;
  c2 <- py_format_left 20 current_ver ;;
  c3 <- py_format_left 20 latest_ver ;;
  c4 <- py_format_left 20 (VStr status) ;;
  print (c1 ++ " " ++ c2 ++ " " ++ c3 ++ " " ++ c4).

(** The three handlers of [check_outdated_packages] (lines 120-152). *)
Definition check_npm (w : World) (temp_dir : string) : M unit :=
  result <- subprocess_run w ["npm"; "outdated"; "--json"] (Some temp_dir) false ;;
  if negb (PyStr.is_empty (PyStr.strip_ws (stdout result))) then
    packages <- lift (json_loads w (stdout result)) ;;
    items <- py_items packages ;;
    for_each items (fun item =>
      let (pkg, info) := item : pykey * pyval in
      current <- py_get info "current" (VStr "N/A") ;;
      latest <- py_get info "latest" (VStr "N/A") ;;
      print_package_info (val_of_key pkg) current latest)
  else ret tt.

Definition check_pip (w : World) (file_path : string) : M unit :=
  subprocess_run w ["pip"; "install"; "-r"; file_path] None false ;;
  result <- subprocess_run w ["pip"; "list"; "--outdated"; "--format=json"] None false ;;
  if negb (PyStr.is_empty (PyStr.strip_ws (stdout result))) then
    packages <- lift (json_loads w (stdout result)) ;;
    pkgs <- py_iter packages ;;
    for_each pkgs (fun pkg =>
      name <- py_getitem pkg "name" ;;
      current <- py_getitem pkg "version" ;;
      latest <- py_getitem pkg "latest_version" ;;
      print_package_info name current latest)
  else ret tt.

Definition check_composer (w : World) (temp_dir : string) : M unit :=
  result <- subprocess_run w ["composer"; "outdated"; "--direct"; "--format=json"]
              (Some temp_dir) false ;;
  if negb (PyStr.is_empty (PyStr.strip_ws (stdout result))) then
    data <- lift (json_loads w (stdout result)) ;;
    installed <- py_get data "installed" (VList []) ;;
    pkgs <- py_iter installed ;;
    for_each pkgs (fun pkg =>
      name <- py_get pkg "name" (VStr "") ;;
      current <- py_get pkg "version" (VStr "") ;;
      latest <- py_get pkg "latest" (VStr "") ;;
      print_package_info name current latest)
  else ret tt.

Definition section_header (manager : string) : string :=
  nl ++ "=== " ++ PyStr.upper manager ++ " Dependencies ===".

(** The [try] block of the loop of [check_outdated_packages]
    (lines 117-152). *)
Definition check_body (w : World) (temp_dir : string)
    (entry : string * string) : M unit :=
  let (manager, file_path) := entry in
  print (section_header manager) ;;
  print_package_header ;;
  if String.eqb manager "npm" then check_npm w temp_dir
  else if String.eqb manager "pip" then check_pip w file_path
  else if String.eqb manager "composer" then check_composer w temp_dir
  else ret tt.

(** What its two handlers print (lines 156-159). *)
Definition check_error_message (w : World) (manager : string) (e : exn)
    : string :=
  if is_CalledProcessError e then
    nl ++ "Error checking " ++ manager ++ " packages: " ++ exn_str w e
  else
    nl ++ "Unexpected error checking " ++ manager ++ " packages: "
    ++ exn_str w e.

(** One turn of the loop of [check_outdated_packages] (lines 116-159). *)
Definition check_manager (w : World) (temp_dir : string)
    (entry : string * string) : M unit :=
  try_except
    (check_body w temp_dir entry)
    (fun e => print (check_error_message w (fst entry) e)).

(** [check_outdated_packages] (lines 113-159) *)
Definition check_outdated_packages (w : World) (temp_dir : string)
    (package_managers : sdict string) : M unit :=
  for_each package_managers (check_manager w temp_dir).

Definition no_dependency_files_message : string :=
  nl ++ warning_sign ++ " No recognized dependency files found in the repository.".

(** The body of the [try] of [main] (lines 198-213). *)
Definition analyze (w : World) (repo_url temp_dir : string) : M unit :=
  clone_repo w repo_url temp_dir ;;
  package_managers <- detect_package_managers w temp_dir ;;
  (match package_managers with
   | [] => print no_dependency_files_message ;; sys_exit 0
   | _ :: _ => ret tt
   end) ;;
  print (nl ++ package_sign ++ " Found the following package managers:") ;;
  for_each package_managers (fun entry =>
    let (manager, file_path) := entry : string * string in
    print ("  - " ++ PyStr.upper manager ++ ": " ++ OsPath.basename file_path)) ;;
  check_outdated_packages w temp_dir package_managers.

(** The [try] statement of [main] (lines 197-217). *)
Definition analyze_or_exit (w : World) (repo_url temp_dir : string) : M unit :=
  try_except
    (analyze w repo_url temp_dir)
    (fun e =>
       print (nl ++ cross_mark ++ " Error analyzing repository: " ++ exn_str w e) ;;
       sys_exit 1).

(** [main] (lines 186-217), [argv] being [sys.argv]. *)
Definition main (w : World) (argv : list string) : M unit :=
  (if negb (Nat.eqb (List.length argv) 2) then
     print "Usage: python check_outdated.py <GitHub-repo-url>" ;;
     print "Example: python check_outdated.py https://github.com/username/repo" ;;
     sys_exit 1
   else ret tt) ;;
  repo_url <- py_index argv 1 ;;
  _ <- validate_github_url w repo_url ;;
  emit EMkdtemp ;;
  temp_dir <- lift (mkdtemp w) ;;
  finally (analyze_or_exit w repo_url temp_dir) (ECleanup temp_dir).

(** The exit status of the process: that of [sys.exit], 0 at the normal end
    of the script, 1 when an exception reaches the top. *)
Definition exit_code {A} (o : outcome A) : Z :=
  match o with
  | Return _ => 0%Z
  | Raise _ => 1%Z
  | Exit c => c
  end.

(* ===================================================================== *)
(** * A directory tree as the file system of a world *)
(* ===================================================================== *)

(** The non-empty segments of a path. *)
Definition nonempty_segments (path : string) : list string :=
  filter PyStr.nonempty (PyStr.split "/" path).

(** A path as [pathlib] keeps it: [Path(s)] drops the empty segments and
    the segments [.], and reduces the leading slashes to one, or to two when
    there are exactly two. *)
Module Pathlib.

Record t : Type := {
  anchor : string;
  names : list string
}.

Fixpoint leading_slashes (s : string) : nat :=
  match s with
  | String c s' => if Ascii.eqb c "/"%char then S (leading_slashes s') else 0
  | EmptyString => 0
  end.

Definition anchor_of (s : string) : string :=
  match leading_slashes s with
  | 0 => ""
  | 2 => "//"
  | _ => "/"
  end.

Definition is_name (x : string) : bool :=
  PyStr.nonempty x && negb (String.eqb x ".").

(** [Path(s)] *)
Definition of_str (s : string) : t :=
  {| anchor := anchor_of s; names := filter is_name (PyStr.split "/" s) |}.

(** [str(p)] *)
Definition str (p : t) : string :=
  match anchor p, names p with
  | EmptyString, [] => "."
  | a, ns => a ++ String.concat "/" ns
  end.

(** The path of an entry [name] of the directory [p]. *)
Definition child (p : t) (name : string) : t :=
  {| anchor := anchor p; names := (names p ++ [name])%list |}.

End Pathlib.

(** The entries [os.path.exists] and [Path.rglob] see.  A node is a
    directory with its entries in the order the system lists them, a
    symbolic link with what it leads to, a symbolic link that leads nowhere,
    or anything else (a regular file).  Names are compared byte for byte;
    the names [.] and [..] are not entries. *)
#[warnings="-register-all"]
Inductive fsnode : Type :=
| FsFile
| FsDir (entries : list (string * fsnode))
| FsLink (target : fsnode)
| FsBroken.

Definition RecursionError : exn :=
  PyException "RecursionError" "maximum recursion depth exceeded".

(** [except PermissionError] catches it. *)
Definition is_PermissionError (e : exn) : bool :=
  match e with
  | PyException cls _ => String.eqb cls "PermissionError"
  | CalledProcessError _ _ _ _ => false
  end.

Module Fs.

Definition entries := list (string * fsnode).

Fixpoint lookup (es : entries) (name : string) : option fsnode :=
  match es with
  | [] => None
  | (n, t) :: es' => if String.eqb n name then Some t else lookup es' name
  end.

(** What a node is once its links are followed; nothing for a link that
    leads nowhere. *)
Fixpoint follow (t : fsnode) : option fsnode :=
  match t with
  | FsLink t' => follow t'
  | FsBroken => None
  | _ => Some t
  end.

(** [os.path.exists] on an entry: it follows links. *)
Definition resolves (t : fsnode) : bool :=
  match follow t with Some _ => true | None => false end.

(** The entry the components lead to from [t], links on the way being
    followed. *)
Fixpoint walk (t : fsnode) (comps : list string) : option fsnode :=
  match comps with
  | [] => Some t
  | c :: cs =>
      match follow t with
      | Some (FsDir es) =>
          match lookup es c with
          | Some t' => walk t' cs
          | None => None
          end
      | _ => None
      end
  end.

Definition components : string -> list string := nonempty_segments.

(** The entry a path names, in the tree [t] mounted at [root]. *)
Definition resolve (root : string) (t : fsnode) (path : string)
    : option fsnode :=
  match PyStr.strip_prefix root path with
  | Some rest =>
      if PyStr.is_empty root || PyStr.endswith_char "/"%char root
         || PyStr.is_empty rest || PyStr.startswith "/" rest
      then walk t (components rest)
      else None
  | None => None
  end.

Definition exists_at (root : string) (t : fsnode) (path : string) : bool :=
  match resolve root t path with
  | Some node => resolves node
  | None => false
  end.

(** An entry of that name is there and leads somewhere. *)
Definition present (es : entries) (name : string) : bool :=
  match lookup es name with
  | Some node => resolves node
  | None => false
  end.

(** [fnmatch] for patterns made of literal characters, [?] and [*]. *)
Fixpoint glob_match (pattern name : string) : bool :=
  match pattern with
  | EmptyString => PyStr.is_empty name
  | String p pattern' =>
      if Ascii.eqb p "*"%char then
        (fix star (n : string) : bool :=
           glob_match pattern' n
           || match n with
              | EmptyString => false
              | String _ n' => star n'
              end) name
      else
        match name with
        | EmptyString => false
        | String c name' =>
            (Ascii.eqb p "?"%char || Ascii.eqb p c)
            && glob_match pattern' name'
        end
  end.

(** What [Path(dir).rglob(pattern)] yields on the directory [t] at [dir]:
    the entries of the directory whose name matches, whatever they are, then
    what its sub-directories yield, each in turn.  A symbolic link is
    matched by its name and never entered; a directory that cannot be
    listed yields nothing. *)
Fixpoint rglob_node (unlisted : string -> bool) (pattern : string)
    (dir : Pathlib.t) (t : fsnode) : list string :=
  match t with
  | FsDir es =>
      if unlisted (Pathlib.str dir) then []
      else
        (map (fun e => Pathlib.str (Pathlib.child dir (fst e)))
             (filter (fun e => glob_match pattern (fst e)) es)
         ++ (fix below (es : entries) : list string :=
               match es with
               | [] => []
               | (n, t') :: es' =>
                   rglob_node unlisted pattern (Pathlib.child dir n) t'
                   ++ below es'
               end) es)%list
  | _ => []
  end.

(** What stops the search, if anything: the first directory, in the order
    of the search, that lies more than [headroom] levels down (the search
    descends by recursion, one level of directories at a time), or whose
    listing fails with another error than [PermissionError], which the
    search passes over. *)
Fixpoint blocked (headroom : nat) (unlistable : string -> option exn)
    (dir : Pathlib.t) (level : nat) (t : fsnode) : option exn :=
  match t with
  | FsDir es =>
      if Nat.ltb headroom level then Some RecursionError
      else
        match unlistable (Pathlib.str dir) with
        | Some e => if is_PermissionError e then None else Some e
        | None =>
            (fix below (es : entries) : option exn :=
               match es with
               | [] => None
               | (n, t') :: es' =>
                   match blocked headroom unlistable (Pathlib.child dir n)
                           (S level) t' with
                   | Some e => Some e
                   | None => below es'
                   end
               end) es
        end
  | _ => None
  end.

Definition fails {A} (answer : option A) : bool :=
  match answer with Some _ => true | None => false end.

(** [list(p.rglob(pattern))] for the path [p] of the node [t]: nothing
    unless [t] is a directory, or a link to one. *)
Definition search (headroom : nat) (unlistable : string -> option exn)
    (pattern : string) (p : Pathlib.t) (t : fsnode) : list string + exn :=
  match follow t with
  | Some (FsDir es) =>
      match blocked headroom unlistable p 0 (FsDir es) with
      | Some e => inr e
      | None =>
          inl (rglob_node (fun q => fails (unlistable q)) pattern p (FsDir es))
      end
  | _ => inl []
  end.

(** [list(Path(dir).rglob(pattern))] in the tree [t] mounted at [root]. *)
Definition rglob_at (headroom : nat) (refused unlistable : string -> option exn)
    (root : string) (t : fsnode) (dir pattern : string)
    : list string + exn :=
  match refused (Pathlib.str (Pathlib.of_str dir)) with
  | Some e => inr e
  | None =>
      match resolve root t dir with
      | Some node =>
          search headroom unlistable pattern (Pathlib.of_str dir) node
      | None => inl []
      end
  end.



End Fs.

(** The world [w] with the tree [t] at [root] for a file system: a path
    exists when the system takes it and it leads to an entry of the tree. *)
Definition on_tree (w : World) (root : string) (t : fsnode) : World :=
  {| urlparse_path := urlparse_path w;
     which := which w;
     run_process := run_process w;
     path_exists := fun path =>
       match path_error w path with
       | Some _ => false
       | None => Fs.exists_at root t path
       end;
     rglob := Fs.rglob_at (recursion_headroom w) (path_error w) (list_error w)
                root t;
     open_file := open_file w;
     json_loads := json_loads w;
     mkdtemp := mkdtemp w;
     signal_repr := signal_repr w;
     recursion_headroom := recursion_headroom w;
     path_error := path_error w;
     list_error := list_error w |}.

(** What the specification says about detection, on a tree: the path that
    makes a marker count as present, and the map of the managers present, in
    the order of the table. *)
Definition marker_path (w : World) (root : string) (es : Fs.entries)
    (marker : string) : option string :=
  if PyStr.contains "*" marker then
    hd_error (Fs.rglob_node (fun q => Fs.fails (list_error w q)) marker
                (Pathlib.of_str root) (FsDir es))
  else
    match path_error w (OsPath.join root marker) with
    | Some _ => None
    | None =>
        if Fs.present es marker then Some (OsPath.join root marker) else None
    end.

(** The entry a table row contributes to the map, and the assignment the
    loop makes for it, [present] telling the path of a marker. *)
Definition marker_entries (present : string -> option string)
    (row : string * string) : sdict string :=
  match present (fst row) with
  | Some p => [(snd row, p)]
  | None => []
  end.

Definition record_marker (present : string -> option string)
    (found : sdict string) (row : string * string) : sdict string :=
  match present (fst row) with
  | Some p => sset found (snd row) p
  | None => found
  end.

(** The probe the loop makes for a table row. *)
Definition probe (temp_dir : string) (row : string * string) : event :=
  if PyStr.contains "*" (fst row)
  then ERglob temp_dir (fst row)
  else EExists (OsPath.join temp_dir (fst row)).

Definition manager_map (w : World) (root : string) (es : Fs.entries)
    : sdict string :=
  flat_map (marker_entries (marker_path w root es)) package_files.

(** The rows of the table with a literal marker: all but the last. *)
Definition literal_rows : list (string * string) := removelast package_files.

(** The events of detection: one probe per table entry. *)
Definition detection_probes (temp_dir : string) : list event :=
  map (probe temp_dir) package_files.

Definition printed (t : list event) : list string :=
  flat_map (fun ev => match ev with EPrint l => [l] | _ => [] end) t.

(** The group of a manifest ([data.get(name, {})]) when it is absent or an
    object. *)
Definition dependency_group (d : PyDict.t pykey pyval) (name : string)
    : option (PyDict.t pykey pyval) :=
  match kget d (KStr name) with
  | None => Some []
  | Some (VDict g) => Some g
  | Some _ => None
  end.

(** [urlparse(url).path] of [urllib.parse], for a URL of code points
    below 128 whose network location does not have both brackets.  Leading
    spaces and control characters, and tabs and newlines anywhere, are
    dropped; the scheme and the network location are cut off, then the
    fragment and the query, then the parameters of the last segment.  A
    network location with one bracket and not the other is refused. *)
Module Urllib.

Definition is_alpha (c : ascii) : bool :=
  let n := nat_of_ascii c in
  (Nat.leb 65 n && Nat.leb n 90) || (Nat.leb 97 n && Nat.leb n 122).

Definition is_scheme_char (c : ascii) : bool :=
  let n := nat_of_ascii c in
  is_alpha c || (Nat.leb 48 n && Nat.leb n 57)
  || Nat.eqb n 43 || Nat.eqb n 45 || Nat.eqb n 46.

Fixpoint all_chars (f : ascii -> bool) (s : string) : bool :=
  match s with
  | EmptyString => true
  | String c s' => f c && all_chars f s'
  end.

Definition c0_or_space (c : ascii) : bool := Nat.leb (nat_of_ascii c) 32.

Definition tab_or_newline (c : ascii) : bool :=
  let n := nat_of_ascii c in Nat.eqb n 9 || Nat.eqb n 10 || Nat.eqb n 13.

Fixpoint remove (f : ascii -> bool) (s : string) : string :=
  match s with
  | EmptyString => EmptyString
  | String c s' => if f c then remove f s' else String c (remove f s')
  end.

Definition lower_char (c : ascii) : ascii :=
  let n := nat_of_ascii c in
  if Nat.leb 65 n && Nat.leb n 90 then ascii_of_nat (n + 32) else c.

Fixpoint lower (s : string) : string :=
  match s with
  | EmptyString => EmptyString
  | String c s' => String (lower_char c) (lower s')
  end.

(** The scheme, in lower case, and what follows its colon. *)
Definition split_scheme (url : string) : string * string :=
  match PyStr.partition ":" url with
  | Some (String c pre, rest) =>
      if is_alpha c && all_chars is_scheme_char pre
      then (lower (String c pre), rest)
      else (EmptyString, url)
  | _ => (EmptyString, url)
  end.

Definition drop_scheme (url : string) : string := snd (split_scheme url).

Definition before (sep s : string) : string :=
  match PyStr.partition sep s with
  | Some (a, _) => a
  | None => s
  end.

Definition ends_netloc (c : ascii) : bool :=
  Ascii.eqb c "/"%char || Ascii.eqb c "?"%char || Ascii.eqb c "#"%char.

(** The text up to the first character that satisfies [f], and the rest. *)
Fixpoint break (f : ascii -> bool) (s : string) : string * string :=
  match s with
  | EmptyString => (EmptyString, EmptyString)
  | String c s' =>
      if f c then (EmptyString, s)
      else let (a, b) := break f s' in (String c a, b)
  end.

Definition uses_params : list string :=
  [ ""; "ftp"; "hdl"; "prospero"; "http"; "imap"; "https"; "shttp"; "rtsp";
    "rtspu"; "sip"; "sips"; "mms"; "sftp"; "tel" ].

(** The path without the parameters of its last segment. *)
Definition drop_params (path : string) : string :=
  let last := OsPath.basename path in
  PyStr.take (String.length path - String.length last) path
  ++ before ";" last.

Definition path (url : string) : string + exn :=
  let url := remove tab_or_newline (PyStr.lstrip c0_or_space url) in
  let (scheme, url) := split_scheme url in
  let located :=
    match PyStr.strip_prefix "//" url with
    | Some rest =>
        let (netloc, rest') := break ends_netloc rest in
        if xorb (PyStr.contains "[" netloc) (PyStr.contains "]" netloc)
        then inr (PyException "ValueError" "Invalid IPv6 URL")
        else inl rest'
    | None => inl url
    end in
  match located with
  | inr e => inr e
  | inl rest =>
      let p := before "?" (before "#" rest) in
      inl (if existsb (String.eqb scheme) uses_params then drop_params p
           else p)
  end.

End Urllib.

(** The limit of Linux on the length of a path. *)
Definition name_too_long (path : string) : option exn :=
  if Nat.leb 4096 (String.length path)
  then Some (PyException "OSError"
               ("[Errno 36] File name too long: " ++ PyRepr.of_str path))
  else None.

(** A world for the examples: git is installed, every subprocess ends with
    status 0 and prints nothing, the file system is empty, no file can be
    opened and no text is valid JSON.  The recursion limit is the 1000 of
    the interpreter, which lets the search of [detect_package_managers],
    called from [main], go 990 directories down. *)
Definition quiet_world : World :=
  {| urlparse_path := Urllib.path;
     which := fun _ => true;
     run_process := fun _ _ => Completed 0 "" "";
     path_exists := fun _ => false;
     rglob := fun _ _ => inl [];
     open_file := fun _ =>
       inr (PyException "FileNotFoundError" "[Errno 2] No such file or directory");
     json_loads := fun _ =>
       inr (PyException "JSONDecodeError" "Expecting value: line 1 column 1 (char 0)");
     mkdtemp := inl "/tmp/tmpq1w2e3r4";
     signal_repr := fun _ => None;
     recursion_headroom := 990;
     path_error := name_too_long;
     list_error := name_too_long |}.

Definition with_process (w : World)
    (run : list string -> option string -> proc) : World :=
  {| urlparse_path := urlparse_path w;
     which := which w;
     run_process := run;
     path_exists := path_exists w;
     rglob := rglob w;
     open_file := open_file w;
     json_loads := json_loads w;
     mkdtemp := mkdtemp w;
     signal_repr := signal_repr w;
     recursion_headroom := recursion_headroom w;
     path_error := path_error w;
     list_error := list_error w |}.

Definition with_files (w : World) (open : string -> file + exn)
    (loads : string -> pyval + exn) : World :=
  {| urlparse_path := urlparse_path w;
     which := which w;
     run_process := run_process w;
     path_exists := path_exists w;
     rglob := rglob w;
     open_file := open;
     json_loads := loads;
     mkdtemp := mkdtemp w;
     signal_repr := signal_repr w;
     recursion_headroom := recursion_headroom w;
     path_error := path_error w;
     list_error := list_error w |}.

(** A call that never leaves through [sys.exit], and one that always
    returns. *)
Definition never_exits {A} (m : M A) : Prop :=
  forall c, result m <> Exit c.

Definition returns {A} (m : M A) : Prop :=
  exists a, result m = Return a.

(** The manifest of the specification, as text and as [json.loads] reads
    it, in a world where it is the file [/repo/package.json]. *)
Definition quoted (s : string) : string :=
  String PyRepr.dquote (s ++ String PyRepr.dquote EmptyString).

Definition collision_manifest_text : string :=
  "{" ++ quoted "dependencies" ++ ":{" ++ quoted "a" ++ ":" ++ quoted "1.0"
  ++ "}," ++ quoted "devDependencies" ++ ":{" ++ quoted "a" ++ ":"
  ++ quoted "2.0" ++ "}}".

Definition collision_manifest : pyval :=
  VDict [ (KStr "dependencies", VDict [(KStr "a", VStr "1.0")]);
          (KStr "devDependencies", VDict [(KStr "a", VStr "2.0")]) ].

Definition no_such_file {A} : A + exn :=
  inr (PyException "FileNotFoundError" "[Errno 2] No such file or directory").

Definition npm_world : World :=
  with_files quiet_world
    (fun path =>
       if String.eqb path "/repo/package.json"
       then inl {| lines := [collision_manifest_text]; read_error := None |}
       else no_such_file)
    (fun text =>
       if String.eqb text collision_manifest_text then inl collision_manifest
       else json_loads quiet_world text).

(** A requirements file with a line that has [>=] twice, between two
    ordinary lines. *)
Definition marker_requirements : list string :=
  [ "flask==2.0" ++ nl;
    "pkg>=1.0; python_version>='3.6'" ++ nl;
    "requests==2.31.0" ++ nl ].

Definition requirements_world (content : file) : World :=
  with_files quiet_world
    (fun path =>
       if String.eqb path "/repo/requirements.txt" then inl content
       else no_such_file)
    (json_loads quiet_world).


(** Trees for the examples: the two manifests of the specification, a
    directory that is called [package.json], and a manifest and a project
    file that lie one level down. *)
Definition two_manifests : Fs.entries :=
  [ ("README.md", FsFile); ("package.json", FsFile);
    ("requirements.txt", FsFile) ].

Definition directory_marker : Fs.entries :=
  [ ("package.json", FsDir [("index.js", FsFile)]) ].

Definition nested_only : Fs.entries :=
  [ ("web", FsDir [("package.json", FsFile)]);
    ("src", FsDir [("App", FsDir [("App.csproj", FsFile)])]) ].

(** What the search of a world finds, when it ends. *)
Definition rglob_matches (w : World) (dir pattern : string) : list string :=
  match rglob w dir pattern with
  | inl matches => matches
  | inr _ => []
  end.

(** What a world answers for a marker: the path recorded for it, if any. *)
Definition world_marker_path (w : World) (temp_dir marker : string)
    : option string :=
  if PyStr.contains "*" marker then
    hd_error (rglob_matches w temp_dir marker)
  else if path_exists w (OsPath.join temp_dir marker)
       then Some (OsPath.join temp_dir marker)
       else None.

Definition world_manager_map (w : World) (temp_dir : string) : sdict string :=
  flat_map (marker_entries (world_marker_path w temp_dir)) package_files.

Definition analyzing_message (repo_url : string) : string :=
  nl ++ magnifier ++ " Analyzing repository: " ++ repo_url.

(** Worlds for the examples of the checker and of the clone: [npm] is not
    installed and [pip] reports one outdated package; the clone fails with
    status 128 and a message on its standard error. *)
Definition pip_outdated_text : string :=
  "[{" ++ quoted "name" ++ ": " ++ quoted "flask" ++ ", " ++ quoted "version"
  ++ ": " ++ quoted "2.0" ++ ", " ++ quoted "latest_version" ++ ": "
  ++ quoted "3.0" ++ "}]".

Definition pip_outdated : pyval :=
  VList [VDict [ (KStr "name", VStr "flask"); (KStr "version", VStr "2.0");
                 (KStr "latest_version", VStr "3.0") ]].

Definition no_npm_world : World :=
  with_files
    (with_process quiet_world
       (fun argv _ =>
          match argv with
          | "npm" :: _ =>
              Failed (PyException "FileNotFoundError"
                        "[Errno 2] No such file or directory: 'npm'")
          | ["pip"; "list"; _; _] => Completed 0 pip_outdated_text ""
          | _ => Completed 0 "" ""
          end))
    (open_file quiet_world)
    (fun text =>
       if String.eqb text pip_outdated_text then inl pip_outdated
       else json_loads quiet_world text).

Definition clone_stderr : string :=
  "fatal: repository 'https://github.com/owner/missing/' not found".

Definition failing_clone_world : World :=
  with_process quiet_world
    (fun argv _ =>
       match argv with
       | "git" :: _ => Completed 128 "" clone_stderr
       | _ => Completed 0 "" ""
       end).

(* ===================================================================== *)
(** * The table, its rows, and well-formed answers of the managers *)
(* ===================================================================== *)

(** The two lines of [print_package_header]. *)
Definition table_header : string :=
  PyStr.ljust 40 "Package Name" ++ " " ++ PyStr.ljust 20 "Current Version"
  ++ " " ++ PyStr.ljust 20 "Latest Version" ++ " " ++ PyStr.ljust 20 "Status".

Definition table_rule : string := PyStr.repeat_char "-"%char 100.

(** What every check starts with (lines 117-118). *)
Definition header_events (manager : string) : list event :=
  [EPrint (section_header manager); EPrint (nl ++ table_header);
   EPrint table_rule].

(** The row of [print_package_info] for three strings. *)
Definition shown_version (v : string) : string :=
  if String.eqb v "N/A" then "-" else v.

Definition package_row (name current latest : string) : string :=
  PyStr.ljust 40 (PyStr.take 39 name) ++ " "
  ++ PyStr.ljust 20 (shown_version current) ++ " "
  ++ PyStr.ljust 20 (shown_version latest) ++ " "
  ++ PyStr.ljust 20 (if String.eqb current latest
                     then "Up to date" else "Update Available").

Definition row_event (r : string * string * string) : event :=
  let '(name, current, latest) := r in
  EPrint (package_row name current latest).



(** The values a [for] loop or [dict.update] cannot iterate. *)
Definition not_iterable (v : pyval) : bool :=
  match v with
  | VNone | VBool _ | VInt _ | VFloat _ => true
  | _ => false
  end.

(** [d.get(k, default)] when it is a string. *)
Definition string_field (d : PyDict.t pykey pyval) (k default : string)
    : option string :=
  match kget d (KStr k) with
  | None => Some default
  | Some (VStr s) => Some s
  | Some _ => None
  end.

(** [d[k]] when the key is there and its value is a string. *)
Definition string_item (d : PyDict.t pykey pyval) (k : string)
    : option string :=
  match kget d (KStr k) with
  | Some (VStr s) => Some s
  | _ => None
  end.

(** An entry of the answer of [npm outdated --json]: the package name with
    an object whose [current] and [latest], when present, are strings. *)
Definition npm_entry (item : pykey * pyval)
    : option (string * string * string) :=
  match item with
  | (KStr name, VDict d) =>
      match string_field d "current" "N/A", string_field d "latest" "N/A" with
      | Some current, Some latest => Some (name, current, latest)
      | _, _ => None
      end
  | _ => None
  end.

(** An element of [installed] in the answer of [composer outdated]. *)
Definition composer_entry (pkg : pyval) : option (string * string * string) :=
  match pkg with
  | VDict d =>
      match string_field d "name" "", string_field d "version" "",
            string_field d "latest" "" with
      | Some name, Some current, Some latest => Some (name, current, latest)
      | _, _, _ => None
      end
  | _ => None
  end.

(** [data.get('installed', [])] when it is absent or a list. *)
Definition installed_list (d : PyDict.t pykey pyval) : option (list pyval) :=
  match kget d (KStr "installed") with
  | None => Some []
  | Some (VList l) => Some l
  | Some _ => None
  end.

(** An element of the answer of [pip list --outdated --format=json] with
    its three keys, and the first of the three keys an object lacks. *)
Definition pip_entry (pkg : pyval) : option (string * string * string) :=
  match pkg with
  | VDict d =>
      match string_item d "name", string_item d "version",
            string_item d "latest_version" with
      | Some name, Some current, Some latest => Some (name, current, latest)
      | _, _, _ => None
      end
  | _ => None
  end.

Definition pip_missing_key (d : PyDict.t pykey pyval) : option string :=
  match kget d (KStr "name") with
  | None => Some "name"
  | Some _ =>
      match kget d (KStr "version") with
      | None => Some "version"
      | Some _ =>
          match kget d (KStr "latest_version") with
          | None => Some "latest_version"
          | Some _ => None
          end
      end
  end.

(** A line of a requirements file that counts: not blank, not a comment. *)
Definition significant (raw : string) : bool :=
  let line := PyStr.strip_ws raw in
  negb (PyStr.is_empty line) && negb (PyStr.startswith "#" line).

(** The line of the listing of [main] for a detected manager (line 210). *)
Definition listing_event (entry : string * string) : event :=
  EPrint ("  - " ++ PyStr.upper (fst entry) ++ ": "
          ++ OsPath.basename (snd entry)).

Definition found_message : string :=
  nl ++ package_sign ++ " Found the following package managers:".

Definition clone_events (repo_url temp_dir : string) : list event :=
  [EWhich "git"; EPrint (analyzing_message repo_url);
   ERun (git_clone_argv repo_url temp_dir) None].

(** The events [main] may produce between the creation of the temporary
    directory and its removal: prints, the lookup of [git], the probes of
    detection, and five commands: the clone, and those of the three
    handlers, [npm] and [composer] in the clone, the two of [pip] where the
    program itself runs. *)
Definition inside_event (repo_url temp_dir : string) (ev : event) : bool :=
  match ev with
  | EPrint _ => true
  | EWhich prog => String.eqb prog "git"
  | EExists _ | ERglob _ _ => true
  | ERun ["git"; "clone"; "--depth"; "1"; url; dir] None =>
      String.eqb url repo_url && String.eqb dir temp_dir
  | ERun ["npm"; "outdated"; "--json"] (Some cwd) => String.eqb cwd temp_dir
  | ERun ["pip"; "install"; "-r"; _] None => true
  | ERun ["pip"; "list"; "--outdated"; "--format=json"] None => true
  | ERun ["composer"; "outdated"; "--direct"; "--format=json"] (Some cwd) =>
      String.eqb cwd temp_dir
  | ERun _ _ => false
  | EOpen _ | EMkdtemp | ECleanup _ => false
  end.

(** More worlds for the examples. *)
Definition with_git (w : World) (present : bool) : World :=
  {| urlparse_path := urlparse_path w;
     which := fun prog => if String.eqb prog "git" then present else which w prog;
     run_process := run_process w;
     path_exists := path_exists w;
     rglob := rglob w;
     open_file := open_file w;
     json_loads := json_loads w;
     mkdtemp := mkdtemp w;
     signal_repr := signal_repr w;
     recursion_headroom := recursion_headroom w;
     path_error := path_error w;
     list_error := list_error w |}.

Definition with_mkdtemp (w : World) (made : string + exn) : World :=
  {| urlparse_path := urlparse_path w;
     which := which w;
     run_process := run_process w;
     path_exists := path_exists w;
     rglob := rglob w;
     open_file := open_file w;
     json_loads := json_loads w;
     mkdtemp := made;
     signal_repr := signal_repr w;
     recursion_headroom := recursion_headroom w;
     path_error := path_error w;
     list_error := list_error w |}.

Definition with_urlparse (w : World) (parse : string -> string + exn) : World :=
  {| urlparse_path := parse;
     which := which w;
     run_process := run_process w;
     path_exists := path_exists w;
     rglob := rglob w;
     open_file := open_file w;
     json_loads := json_loads w;
     mkdtemp := mkdtemp w;
     signal_repr := signal_repr w;
     recursion_headroom := recursion_headroom w;
     path_error := path_error w;
     list_error := list_error w |}.

Definition permission_denied : exn :=
  PyException "PermissionError" "[Errno 13] Permission denied: 'git'".

Definition broken_git_world : World :=
  with_process quiet_world
    (fun argv _ =>
       match argv with
       | "git" :: _ => Failed permission_denied
       | _ => Completed 0 "" ""
       end).

Definition no_space_left : exn :=
  PyException "OSError" "[Errno 28] No space left on device".

(** [npm outdated] answering with one outdated package and status 1, as it
    does when something is outdated. *)
Definition lodash_text : string :=
  "{" ++ quoted "lodash" ++ ":{" ++ quoted "current" ++ ":"
  ++ quoted "4.17.15" ++ "," ++ quoted "latest" ++ ":" ++ quoted "4.17.21"
  ++ "}," ++ quoted "left-pad" ++ ":{" ++ quoted "latest" ++ ":"
  ++ quoted "1.3.0" ++ "}}".

Definition lodash_answer : list (pykey * pyval) :=
  [ (KStr "lodash", VDict [ (KStr "current", VStr "4.17.15");
                            (KStr "latest", VStr "4.17.21") ]);
    (KStr "left-pad", VDict [ (KStr "latest", VStr "1.3.0") ]) ].

Definition lodash_world : World :=
  with_files
    (with_process quiet_world
       (fun argv _ =>
          match argv with
          | "npm" :: _ => Completed 1 lodash_text ""
          | _ => Completed 0 "" ""
          end))
    (open_file quiet_world)
    (fun text =>
       if String.eqb text lodash_text then inl (VDict lodash_answer)
       else json_loads quiet_world text).

(** [npm] printing an error text where JSON is expected. *)
Definition npm_garbage_world : World :=
  with_process quiet_world
    (fun argv _ =>
       match argv with
       | "npm" :: _ => Completed 1 "npm ERR! code ENOLOCK" ""
       | _ => Completed 0 "" ""
       end).

(** [pip list] answering with a complete entry, then one without
    [latest_version], then another complete one; [pip install] failed. *)
Definition pip_gap_text : string :=
  "[{" ++ quoted "name" ++ ": " ++ quoted "flask" ++ ", " ++ quoted "version"
  ++ ": " ++ quoted "2.0" ++ ", " ++ quoted "latest_version" ++ ": "
  ++ quoted "3.0" ++ "}, {" ++ quoted "name" ++ ": " ++ quoted "six" ++ ", "
  ++ quoted "version" ++ ": " ++ quoted "1.15" ++ "}, {" ++ quoted "name"
  ++ ": " ++ quoted "idna" ++ ", " ++ quoted "version" ++ ": " ++ quoted "2.8"
  ++ ", " ++ quoted "latest_version" ++ ": " ++ quoted "3.7" ++ "}]".

Definition pip_complete (name current latest : string) : pyval :=
  VDict [ (KStr "name", VStr name); (KStr "version", VStr current);
          (KStr "latest_version", VStr latest) ].

Definition pip_gap_entry : PyDict.t pykey pyval :=
  [ (KStr "name", VStr "six"); (KStr "version", VStr "1.15") ].

Definition pip_gap_world : World :=
  with_files
    (with_process quiet_world
       (fun argv _ =>
          match argv with
          | ["pip"; "install"; _; _] => Completed 1 "" "ERROR: No matching distribution"
          | ["pip"; "list"; _; _] => Completed 0 pip_gap_text ""
          | _ => Completed 0 "" ""
          end))
    (open_file quiet_world)
    (fun text =>
       if String.eqb text pip_gap_text
       then inl (VList [ pip_complete "flask" "2.0" "3.0"; VDict pip_gap_entry;
                         pip_complete "idna" "2.8" "3.7" ])
       else json_loads quiet_world text).

(** [composer outdated] answering with an object that has no [installed],
    and with one whose single element has a name only. *)
Definition composer_text : string :=
  "{" ++ quoted "installed" ++ ":[{" ++ quoted "name" ++ ":"
  ++ quoted "monolog/monolog" ++ "}]}".

Definition composer_world : World :=
  with_files
    (with_process quiet_world
       (fun argv _ =>
          match argv with
          | "composer" :: _ => Completed 0 composer_text ""
          | _ => Completed 0 "" ""
          end))
    (open_file quiet_world)
    (fun text =>
       if String.eqb text composer_text
       then inl (VDict [ (KStr "installed",
                          VList [VDict [(KStr "name", VStr "monolog/monolog")]]) ])
       else json_loads quiet_world text).

(** A manifest whose [dependencies] is [null]. *)
Definition null_group_text : string :=
  "{" ++ quoted "dependencies" ++ ":null," ++ quoted "devDependencies" ++ ":{"
  ++ quoted "a" ++ ":" ++ quoted "2.0" ++ "}}".

Definition null_group_manifest : PyDict.t pykey pyval :=
  [ (KStr "dependencies", VNone);
    (KStr "devDependencies", VDict [(KStr "a", VStr "2.0")]) ].

Definition null_group_world : World :=
  with_files quiet_world
    (fun path =>
       if String.eqb path "/repo/package.json"
       then inl {| lines := [null_group_text]; read_error := None |}
       else no_such_file)
    (fun text =>
       if String.eqb text null_group_text then inl (VDict null_group_manifest)
       else json_loads quiet_world text).

(** A clone with a [pom.xml] only: a manager that is detected and has no
    handler. *)
Definition maven_world : World :=
  on_tree quiet_world "/tmp/tmpq1w2e3r4" (FsDir [("pom.xml", FsFile)]).

(** The entry a line of a requirements file stands for, when it has its
    operator once at most: the text before and after [==], or else before
    and after [>=], or else the whole line with "Not specified". *)
Definition requirement_entry (raw : string) : option (string * string) :=
  let line := PyStr.strip_ws raw in
  let cut op :=
    match PyStr.partition op line with
    | Some (name, version) =>
        if PyStr.contains op version then None else Some (name, version)
    | None => None
    end in
  if PyStr.contains "==" line then cut "=="
  else if PyStr.contains ">=" line then cut ">="
  else Some (line, "Not specified").

(** A requirements file with a comment, a blank line, an indented line and
    a package that comes twice. *)
Definition tidy_requirements : list string :=
  [ "# pinned" ++ nl;
    "flask==2.0" ++ nl;
    nl;
    "requests>=2.31.0" ++ nl;
    "  flask==3.0  " ++ nl;
    "six" ++ nl ].

(** The events that are prints. *)
Definition is_print (ev : event) : bool :=
  match ev with EPrint _ => true | _ => false end.


(** What stops the recursive search of detection on the tree [es] at
    [root], if anything does. *)
Definition search_stopped (w : World) (root : string) (es : Fs.entries)
    : option exn :=
  match path_error w (Pathlib.str (Pathlib.of_str root)) with
  | Some e => Some e
  | None =>
      Fs.blocked (recursion_headroom w) (list_error w) (Pathlib.of_str root) 0
        (FsDir es)
  end.

(** A world in which some directories may not be listed. *)
Definition with_locked (w : World) (locked : list string) : World :=
  {| urlparse_path := urlparse_path w;
     which := which w;
     run_process := run_process w;
     path_exists := path_exists w;
     rglob := rglob w;
     open_file := open_file w;
     json_loads := json_loads w;
     mkdtemp := mkdtemp w;
     signal_repr := signal_repr w;
     recursion_headroom := recursion_headroom w;
     path_error := path_error w;
     list_error := fun path =>
       if existsb (String.eqb path) locked
       then Some (PyException "PermissionError"
                    ("[Errno 13] Permission denied: " ++ PyRepr.of_str path))
       else list_error w path |}.

(** [n] directories called [name], one in the other, around [inner]. *)
Fixpoint nest (n : nat) (name : string) (inner : Fs.entries) : Fs.entries :=
  match n with
  | O => inner
  | S n' => [(name, FsDir (nest n' name inner))]
  end.

(** More trees for the examples: a manifest beside a chain of a thousand
    directories; a symbolic link called [package.json] whose target is
    missing; one that leads to a file kept elsewhere. *)
Definition deep_marker : Fs.entries :=
  [ ("package.json", FsFile); ("d", FsDir (nest 999 "d" [])) ].

Definition broken_marker : Fs.entries := [ ("package.json", FsBroken) ].

Definition linked_marker : Fs.entries := [ ("package.json", FsLink FsFile) ].




(** A float of an answer: 1.5 is 3 * 2^-1. *)
Definition one_and_a_half : pyfloat :=
  {| fvalue := FFinite 3 (-1); fstr := "1.5" |}.

(* ===================================================================== *)
(** * Facts about the string operations *)
(* ===================================================================== *)

Module PyStrFacts.
Import PyStr.

Lemma strip_prefix_app p s : strip_prefix p (p ++ s) = Some s.
Proof.
  induction p as [|a p IH]; simpl; [reflexivity|].
  rewrite Ascii.eqb_refl; exact IH.
Qed.

Lemma strip_prefix_eq p s rest : strip_prefix p s = Some rest -> s = p ++ rest.
Proof.
  revert s; induction p as [|a p IH]; intros s; simpl.
  - intros H; inversion H; reflexivity.
  - destruct s as [|b s]; [discriminate|].
    destruct (Ascii.eqb_spec a b); [|discriminate].
    intros H; subst; f_equal; auto.
Qed.

(** [partition] cuts at an occurrence of the separator. *)
Lemma partition_eq sep s a b :
  partition sep s = Some (a, b) -> s = a ++ sep ++ b.
Proof.
  revert a b; induction s as [|c s IH]; intros a b; simpl.
  - destruct (strip_prefix sep "") eqn:E; [|discriminate].
    intros H; inversion H; subst. apply strip_prefix_eq in E. exact E.
  - destruct (strip_prefix sep (String c s)) eqn:E.
    + intros H; inversion H; subst. apply strip_prefix_eq in E. exact E.
    + destruct (partition sep s) as [[a' b']|]; [|discriminate].
      intros H; inversion H; subst. simpl. f_equal. apply IH; reflexivity.
Qed.

Lemma append_length a b :
  String.length (a ++ b) = String.length a + String.length b.
Proof. induction a; simpl; auto. Qed.

Lemma partition_shorter sep s a b :
  sep <> EmptyString -> partition sep s = Some (a, b) ->
  String.length b < String.length s.
Proof.
  intros Hsep H. apply partition_eq in H. subst s.
  rewrite !append_length. destruct sep; [congruence|simpl; lia].
Qed.

Lemma split_fuel_enough sep : sep <> EmptyString ->
  forall n m s, String.length s < n -> String.length s < m ->
                split_fuel n sep s = split_fuel m sep s.
Proof.
  intros Hsep; induction n as [|n IH]; intros m s Hn Hm; [lia|].
  destruct m as [|m]; [lia|]. simpl.
  destruct (partition sep s) as [[a b]|] eqn:E; [|reflexivity].
  pose proof (@partition_shorter sep s a b Hsep E). f_equal. apply IH; lia.
Qed.

(** The equation of [split]: cut at the first occurrence, go on with the
    rest. *)
Lemma split_unfold sep s : sep <> EmptyString ->
  split sep s = match partition sep s with
                | None => [s]
                | Some (a, b) => a :: split sep b
                end.
Proof.
  intros Hsep. unfold split at 1. simpl.
  destruct (partition sep s) as [[a b]|] eqn:E; [|reflexivity].
  f_equal. pose proof (@partition_shorter sep s a b Hsep E).
  apply split_fuel_enough; auto; lia.
Qed.

Lemma split_single c s : split (String c EmptyString) s = split_char c s.
Proof.
  induction s as [|a s IH].
  - reflexivity.
  - rewrite split_unfold by discriminate. simpl.
    destruct (Ascii.eqb c a) eqn:E; simpl.
    + rewrite IH; reflexivity.
    + rewrite <- IH. rewrite (@split_unfold (String c "") s) by discriminate.
      destruct (partition (String c "") s) as [[x y]|]; reflexivity.
Qed.

Lemma split_char_nonnil c s : split_char c s <> [].
Proof.
  destruct s as [|a s]; simpl; [discriminate|].
  destruct (Ascii.eqb c a); [discriminate|].
  destruct (split_char c s); discriminate.
Qed.

Lemma append_nil_r s : s ++ "" = s.
Proof. induction s; simpl; congruence. Qed.

Lemma append_assoc a b c : (a ++ b) ++ c = a ++ (b ++ c).
Proof. induction a; simpl; congruence. Qed.

Lemma split_char_app c x y :
  split_char c (x ++ String c y) = (split_char c x ++ split_char c y)%list.
Proof.
  induction x as [|a x IH]; simpl.
  - rewrite Ascii.eqb_refl; reflexivity.
  - rewrite IH. destruct (Ascii.eqb c a); [reflexivity|].
    pose proof (split_char_nonnil c x) as Hx.
    destruct (split_char c x); [congruence|reflexivity].
Qed.

Lemma split_char_repeat c k :
  filter nonempty (split_char c (repeat_char c k)) = [].
Proof.
  induction k as [|k IH]; simpl; [reflexivity|].
  rewrite Ascii.eqb_refl; simpl; exact IH.
Qed.

(** Leading and trailing separators add empty segments only. *)
Lemma segments_lead c k x :
  filter nonempty (split_char c (repeat_char c k ++ x))
  = filter nonempty (split_char c x).
Proof.
  induction k as [|k IH]; simpl; [reflexivity|].
  rewrite Ascii.eqb_refl; simpl; exact IH.
Qed.

Lemma segments_trail c k x :
  filter nonempty (split_char c (x ++ repeat_char c k))
  = filter nonempty (split_char c x).
Proof.
  destruct k as [|k]; simpl.
  - rewrite append_nil_r; reflexivity.
  - rewrite split_char_app, filter_app, split_char_repeat, app_nil_r.
    reflexivity.
Qed.

Lemma lstrip_decomp c s :
  exists k, s = repeat_char c k ++ lstrip (is_char c) s.
Proof.
  induction s as [|a s [k IH]]; simpl.
  - exists 0; reflexivity.
  - unfold is_char at 1. destruct (Ascii.eqb_spec c a).
    + subst a. exists (S k). simpl. f_equal. exact IH.
    + exists 0; reflexivity.
Qed.

Lemma rstrip_decomp c s :
  exists k, s = rstrip (is_char c) s ++ repeat_char c k.
Proof.
  induction s as [|a s [k IH]]; simpl.
  - exists 0; reflexivity.
  - destruct (rstrip (is_char c) s) as [|b r] eqn:E.
    + unfold is_char. destruct (Ascii.eqb_spec c a).
      * subst a. exists (S k). simpl in *. f_equal. exact IH.
      * exists k. simpl in *. f_equal. exact IH.
    + exists k. simpl. f_equal. exact IH.
Qed.

Lemma segments_strip c s :
  filter nonempty (split_char c (strip (is_char c) s))
  = filter nonempty (split_char c s).
Proof.
  unfold strip.
  destruct (lstrip_decomp c s) as [k Hk].
  destruct (rstrip_decomp c (lstrip (is_char c) s)) as [j Hj].
  rewrite Hk at 2. rewrite segments_lead.
  rewrite Hj at 2. rewrite segments_trail. reflexivity.
Qed.

(** What [strip] leaves begins and ends with a character it keeps. *)
Lemma lstrip_head f s a r : lstrip f s = String a r -> f a = false.
Proof.
  induction s as [|b s IH]; simpl; [discriminate|].
  destruct (f b) eqn:E; [exact IH|].
  intros H; inversion H; subst; exact E.
Qed.

Lemma rstrip_head f s a r :
  rstrip f s = String a r -> exists s', s = String a s'.
Proof.
  destruct s as [|b s]; simpl; [discriminate|].
  destruct (rstrip f s).
  - destruct (f b); [discriminate|]. intros H; inversion H; subst; eauto.
  - intros H; inversion H; subst; eauto.
Qed.

Lemma rstrip_last f s a r :
  rstrip f s = String a r ->
  exists b, last_char (rstrip f s) = Some b /\ f b = false.
Proof.
  revert a r; induction s as [|c s IH]; simpl; intros a r; [discriminate|].
  destruct (rstrip f s) as [|a' r'] eqn:E.
  - destruct (f c) eqn:Ec; [discriminate|].
    intros _. exists c; split; [reflexivity|exact Ec].
  - intros _. destruct (IH a' r' eq_refl) as [b [Hb Hf]].
    exists b; split; [|exact Hf]. simpl in *. exact Hb.
Qed.

Lemma strip_ends f s a r :
  strip f s = String a r ->
  f a = false /\ exists b, last_char (strip f s) = Some b /\ f b = false.
Proof.
  unfold strip; intros H. split.
  - destruct (@rstrip_head _ _ _ _ H) as [s' Hs']. eapply lstrip_head; eauto.
  - eapply rstrip_last; eauto.
Qed.

Lemma split_char_head c a s :
  Ascii.eqb c a = false ->
  exists h t, split_char c (String a s) = String a h :: t.
Proof.
  intros E; simpl; rewrite E.
  destruct (split_char c s); eauto.
Qed.

Lemma split_char_last c s b :
  last_char s = Some b -> Ascii.eqb c b = false ->
  nonempty (List.last (split_char c s) "") = true.
Proof.
  induction s as [|a s IH]; [discriminate|].
  intros Hl Hb. destruct s as [|a' s'].
  - simpl in Hl. inversion Hl; subst a. simpl. rewrite Hb. reflexivity.
  - assert (Hl' : last_char (String a' s') = Some b) by exact Hl.
    specialize (IH Hl' Hb).
    pose proof (split_char_nonnil c (String a' s')) as Hn.
    change (split_char c (String a (String a' s')))
      with (if Ascii.eqb c a then "" :: split_char c (String a' s')
            else match split_char c (String a' s') with
                 | h :: t => String a h :: t
                 | [] => [String a ""]
                 end).
    destruct (split_char c (String a' s')) as [|h t]; [congruence|].
    destruct (Ascii.eqb c a).
    + exact IH.
    + destruct t as [|h' t']; [reflexivity|exact IH].
Qed.

Lemma filter_last_nonnil {A} (f : A -> bool) (l : list A) d :
  l <> [] -> f (List.last l d) = true -> filter f l <> [].
Proof.
  induction l as [|x l IH]; [congruence|]. intros _ H.
  destruct l as [|y l'].
  - simpl in *. rewrite H. discriminate.
  - simpl in H. simpl filter at 1. destruct (f x); [discriminate|].
    apply IH; [discriminate|exact H].
Qed.

(** Two or more pieces of a stripped string: the first is non-empty and
    a later one is too. *)
Lemma split_strip_two c s :
  2 <= List.length (split_char c (strip (is_char c) s)) ->
  exists h t, split_char c (strip (is_char c) s) = h :: t
              /\ nonempty h = true /\ filter nonempty t <> [].
Proof.
  intros Hlen.
  destruct (strip (is_char c) s) as [|a r] eqn:E; [simpl in Hlen; lia|].
  destruct (@strip_ends _ _ _ _ E) as [Ha [b [Hb Hfb]]].
  unfold is_char in Ha, Hfb.
  destruct (@split_char_head c a r Ha) as [h [t Hs]].
  rewrite E in Hb.
  pose proof (@split_char_last c (String a r) b Hb Hfb) as Hlast.
  rewrite Hs in *. exists (String a h), t. repeat split.
  destruct t as [|x t']; [simpl in Hlen; lia|].
  apply filter_last_nonnil with (d := ""); [discriminate|exact Hlast].
Qed.

End PyStrFacts.

(* ===================================================================== *)
(** * Checks of the model against the library *)
(* ===================================================================== *)

Example split_twice : PyStr.split "==" "a==1==2" = ["a"; "1"; "2"].
Proof. reflexivity. Qed.

Example split_overlap : PyStr.split "==" "a===1" = ["a"; "=1"].
Proof. reflexivity. Qed.

Example strip_split_path :
  PyStr.split "/" (PyStr.strip (PyStr.is_char "/"%char) "/owner//repo")
  = ["owner"; ""; "repo"].
Proof. reflexivity. Qed.

Example strip_ws_ex : PyStr.strip_ws "  a == 1
" = "a == 1".
Proof. reflexivity. Qed.

Example join_ex : OsPath.join "/tmp/x" "package.json" = "/tmp/x/package.json"
  /\ OsPath.join "/tmp/x/" "go.mod" = "/tmp/x/go.mod"
  /\ OsPath.join "" "go.mod" = "go.mod"
  /\ OsPath.basename "/tmp/x/package.json" = "package.json"
  /\ PyStr.upper "npm" = "NPM"
  /\ PyStr.ljust 5 "ab" = "ab   "
  /\ PyStr.of_Z 128 = "128".
Proof. repeat split; reflexivity. Qed.

Example repr_cmd :
  PyRepr.of_list ["git"; "clone"; "https://x/y'z"; "/tmp/a b"]
  = "['git', 'clone', " ++ String PyRepr.dquote "https://x/y'z"
    ++ String PyRepr.dquote ", '/tmp/a b']".
Proof. reflexivity. Qed.

Example glob_csproj :
  Fs.glob_match "*.csproj" "App.csproj" = true
  /\ Fs.glob_match "*.csproj" ".csproj" = true
  /\ Fs.glob_match "*.csproj" "App.csproj.bak" = false
  /\ Fs.glob_match "*.csproj" "csproj" = false.
Proof. repeat split; reflexivity. Qed.

(** The search: the entries of a directory come before those of its
    sub-directories; a link is matched by its name, wherever it leads, and
    is not entered; the paths are printed as [pathlib] prints them. *)
Example rglob_order :
  Fs.rglob_at 990 name_too_long name_too_long "/t"
    (FsDir [("src", FsDir [("A.csproj", FsFile)]); ("B.csproj", FsFile)])
    "/t" "*.csproj"
  = inl ["/t/B.csproj"; "/t/src/A.csproj"]
  /\ Fs.rglob_at 990 name_too_long name_too_long "./t/"
       (FsDir [("lib", FsLink (FsDir [("A.csproj", FsFile)]));
               ("B.csproj", FsBroken)])
       "./t/" "*.csproj"
     = inl ["t/B.csproj"]
  /\ Fs.rglob_at 990 name_too_long name_too_long "."
       (FsDir [("B.csproj", FsFile)]) "." "*.csproj"
     = inl ["B.csproj"].
Proof. repeat split; reflexivity. Qed.

Example pathlib_str :
  Pathlib.str (Pathlib.of_str "./det_rel") = "det_rel"
  /\ Pathlib.str (Pathlib.of_str "a//b/./c/") = "a/b/c"
  /\ Pathlib.str (Pathlib.of_str "//a/../b") = "//a/../b"
  /\ Pathlib.str (Pathlib.of_str "///a") = "/a"
  /\ Pathlib.str (Pathlib.of_str "") = "."
  /\ Pathlib.str (Pathlib.child (Pathlib.of_str ".") "App.csproj")
     = "App.csproj".
Proof. repeat split; reflexivity. Qed.

(** [os.path.exists] follows links. *)
Example exists_through_links :
  Fs.exists_at "/t" (FsDir [("a", FsBroken); ("b", FsLink FsFile);
                            ("c", FsLink (FsDir [("d", FsFile)]))])
    "/t/a" = false
  /\ Fs.exists_at "/t" (FsDir [("a", FsBroken); ("b", FsLink FsFile)]) "/t/b"
     = true
  /\ Fs.exists_at "/t" (FsDir [("c", FsLink (FsDir [("d", FsFile)]))]) "/t/c/d"
     = true.
Proof. repeat split; reflexivity. Qed.

Example urlparse_paths :
  Urllib.path "https://github.com/owner//repo" = inl "/owner//repo"
  /\ Urllib.path "https://github.com/owner/repo.git?x=1#f"
     = inl "/owner/repo.git"
  /\ Urllib.path "https://github.com" = inl ""
  /\ Urllib.path "owner/repo" = inl "owner/repo"
  /\ Urllib.path "https://github.com//owner/repo" = inl "//owner/repo"
  /\ Urllib.path "  HTTPS://github.com/owner/repo;v=1" = inl "/owner/repo"
  /\ Urllib.path "https://[github.com/owner/repo"
     = inr (PyException "ValueError" "Invalid IPv6 URL").
Proof. repeat split; reflexivity. Qed.

(* ===================================================================== *)
(** * Facts about the monad *)
(* ===================================================================== *)

Lemma bind_ret_l {A B} (a : A) (f : A -> M B) : bind (ret a) f = f a.
Proof. unfold bind, ret. destruct (f a); reflexivity. Qed.

Lemma bind_return {A B} (m : M A) (f : A -> M B) t a :
  m = (t, Return a) ->
  bind m f = ((t ++ trace (f a))%list, result (f a)).
Proof. intros ->. unfold bind. destruct (f a); reflexivity. Qed.

Lemma bind_emit {B} ev (k : M B) :
  bind (emit ev) (fun _ => k) = (ev :: trace k, result k).
Proof. unfold bind, emit. destruct k; reflexivity. Qed.

Lemma bind_print {B} l (k : M B) :
  bind (print l) (fun _ => k) = (EPrint l :: trace k, result k).
Proof. apply bind_emit. Qed.

Lemma surjective_M {A} (m : M A) : m = (trace m, result m).
Proof. destruct m; reflexivity. Qed.

Lemma never_exits_bind {A B} (m : M A) (f : A -> M B) :
  never_exits m -> (forall a, never_exits (f a)) -> never_exits (bind m f).
Proof.
  intros Hm Hf c. destruct m as [t [a|e|c']]; simpl.
  - specialize (Hf a c). destruct (f a); exact Hf.
  - discriminate.
  - exfalso. exact (Hm c' eq_refl).
Qed.

Lemma never_exits_ret {A} (a : A) : never_exits (ret a).
Proof. intros c; discriminate. Qed.

Lemma never_exits_raise {A} e : never_exits (@raise A e).
Proof. intros c; discriminate. Qed.

Lemma never_exits_emit ev : never_exits (emit ev).
Proof. intros c; discriminate. Qed.

Lemma never_exits_lift {A} (r : A + exn) : never_exits (lift r).
Proof. destruct r; intros c; discriminate. Qed.

Lemma never_exits_for_each {A} (xs : list A) (body : A -> M unit) :
  (forall x, never_exits (body x)) -> never_exits (for_each xs body).
Proof.
  intros Hb. induction xs as [|x xs IH]; simpl.
  - apply never_exits_ret.
  - apply never_exits_bind; auto.
Qed.

Lemma never_exits_try {A} (m : M A) (h : exn -> M A) :
  never_exits m -> (forall e, never_exits (h e)) ->
  never_exits (try_except m h).
Proof.
  intros Hm Hh c. destruct m as [t [a|e|c']]; simpl.
  - discriminate.
  - specialize (Hh e c). destruct (h e); exact Hh.
  - intros _. exact (Hm c' eq_refl).
Qed.

Create HintDb noexit.

#[local] Hint Resolve never_exits_bind never_exits_ret never_exits_raise
  never_exits_emit never_exits_lift never_exits_for_each never_exits_try
  : noexit.

(* ===================================================================== *)
(** * The URL parser *)
(* ===================================================================== *)

Section UrlParser.
Import PyStr PyStrFacts.

Variable w : World.

Lemma segments_of_parts path :
  nonempty_segments path
  = filter nonempty (split "/" (strip (is_char "/"%char) path)).
Proof.
  unfold nonempty_segments. rewrite !split_single.
  symmetry. apply segments_strip.
Qed.

Lemma validate_github_url_returns url path owner repo rest :
  urlparse_path w url = inl path ->
  split "/" (strip (is_char "/"%char) path) = owner :: repo :: rest ->
  validate_github_url w url = ([], Return (owner, repo)).
Proof.
  intros Hp Hs. unfold validate_github_url. rewrite Hp. simpl lift.
  rewrite bind_ret_l, Hs. reflexivity.
Qed.

Lemma validate_github_url_fatal url path :
  urlparse_path w url = inl path ->
  List.length (split "/" (strip (is_char "/"%char) path)) < 2 ->
  validate_github_url w url
  = ([EPrint "Error parsing GitHub URL: Invalid GitHub repository URL format"],
     Exit 1).
Proof.
  intros Hp Hlen. unfold validate_github_url. rewrite Hp. simpl lift.
  rewrite bind_ret_l.
  destruct (split "/" (strip (is_char "/"%char) path)) as [|a [|b l]];
    simpl in Hlen; try lia; reflexivity.
Qed.

Lemma main_stops_at_url prog url t c :
  validate_github_url w url = (t, Exit c) ->
  main w [prog; url] = (t, Exit c).
Proof.
  intros H. unfold main. simpl. rewrite H. reflexivity.
Qed.

End UrlParser.

(** C1 (as the code has it).  Let [parts] be the pieces of the URL path,
    stripped of its leading and trailing slashes and split at every slash.
    With two pieces or more the parser returns the first two, prints nothing
    and does not exit; the owner is never empty and is the first non-empty
    segment of the path; a non-empty repo is the second non-empty segment.
    A path with two non-empty segments or more always has two pieces.  A path
    with fewer than two non-empty segments is fatal: the parser prints the
    error and exits with status 1, and [main] stops there, before any
    temporary directory, [git] lookup or clone. *)
Theorem validate_github_url_pieces (w : World) (url path : string) :
  urlparse_path w url = inl path ->
  let parts := PyStr.split "/" (PyStr.strip (PyStr.is_char "/"%char) path) in
  (2 <= List.length parts ->
   exists owner repo rest,
     parts = owner :: repo :: rest
     /\ validate_github_url w url = ([], Return (owner, repo))
     /\ owner <> ""
     /\ hd_error (nonempty_segments path) = Some owner
     /\ (repo <> "" ->
         exists more, nonempty_segments path = owner :: repo :: more))
  /\ (2 <= List.length (nonempty_segments path) -> 2 <= List.length parts)
  /\ (List.length (nonempty_segments path) < 2 ->
      validate_github_url w url
      = ([EPrint "Error parsing GitHub URL: Invalid GitHub repository URL format"],
         Exit 1)
      /\ forall prog,
         main w [prog; url]
         = ([EPrint "Error parsing GitHub URL: Invalid GitHub repository URL format"],
            Exit 1)).
Proof.
  intros Hp parts.
  assert (Hseg : nonempty_segments path = filter PyStr.nonempty parts)
    by apply segments_of_parts.
  assert (Htwo : 2 <= List.length parts ->
                 exists h t, parts = h :: t /\ PyStr.nonempty h = true
                             /\ filter PyStr.nonempty t <> []).
  { intros Hlen. subst parts. rewrite PyStrFacts.split_single in *.
    apply PyStrFacts.split_strip_two; exact Hlen. }
  split; [|split].
  - intros Hlen. destruct (Htwo Hlen) as [owner [t [Hparts [Ho Ht]]]].
    destruct t as [|repo rest]; [simpl in Ht; congruence|].
    exists owner, repo, rest. split; [exact Hparts|].
    split; [eapply validate_github_url_returns; eauto|].
    split; [destruct owner; [discriminate|discriminate]|].
    rewrite Hseg, Hparts. simpl. rewrite Ho. split; [reflexivity|].
    intros Hr. destruct repo as [|c r]; [congruence|]. simpl. eauto.
  - intros Hlen. rewrite Hseg in Hlen.
    pose proof (filter_length_le PyStr.nonempty parts). lia.
  - intros Hlen.
    assert (Hparts : List.length parts < 2).
    { destruct (Nat.lt_ge_cases (List.length parts) 2) as [H|H]; [exact H|].
      destruct (Htwo H) as [h [t [Hparts [Hh Ht]]]].
      rewrite Hseg, Hparts in Hlen. simpl in Hlen. rewrite Hh in Hlen.
      simpl in Hlen. destruct (filter PyStr.nonempty t); [congruence|].
      simpl in Hlen. lia. }
    pose proof (validate_github_url_fatal w url Hp Hparts) as Hv.
    split; [exact Hv|]. intros prog. apply main_stops_at_url. exact Hv.
Qed.

(** The theorem at [https://github.com/owner/repo]. *)
Lemma validate_github_url_pieces_witness :
  validate_github_url quiet_world "https://github.com/owner/repo"
  = ([], Return ("owner", "repo")).
Proof.
  destruct (@validate_github_url_pieces quiet_world
              "https://github.com/owner/repo" "/owner/repo" eq_refl)
    as [H _].
  destruct (H ltac:(vm_compute; lia)) as [owner [repo [rest [Hparts [Hv _]]]]].
  vm_compute in Hparts. inversion Hparts; subst. exact Hv.
Defined.

(** C1 as stated fails at [https://github.com/owner//repo]: the path has
    the two non-empty segments [owner] and [repo], and the parser returns
    the pair of [owner] and the empty string. *)
Lemma validate_github_url_empty_repo :
  urlparse_path quiet_world "https://github.com/owner//repo"
  = inl "/owner//repo"
  /\ nonempty_segments "/owner//repo" = ["owner"; "repo"]
  /\ validate_github_url quiet_world "https://github.com/owner//repo"
     = ([], Return ("owner", "")).
Proof. repeat split; reflexivity. Qed.

(* ===================================================================== *)
(** * The report printer *)
(* ===================================================================== *)

Lemma take_length n s : String.length (PyStr.take n s) <= n.
Proof.
  revert s; induction n as [|n IH]; intros [|c s]; simpl; try lia.
  specialize (IH s); lia.
Qed.

Lemma take_all n s : String.length s <= n -> PyStr.take n s = s.
Proof.
  revert s; induction n as [|n IH]; intros [|c s]; simpl; intros H;
    try reflexivity; try lia.
  f_equal; apply IH; lia.
Qed.

Lemma take_prefix n s : exists rest, s = PyStr.take n s ++ rest.
Proof.
  revert s; induction n as [|n IH]; intros s.
  - exists s. destruct s; reflexivity.
  - destruct s as [|c s]; [exists ""; reflexivity|].
    destruct (IH s) as [rest Hr]. exists rest. simpl. f_equal. exact Hr.
Qed.

(** C6.  For strings [name], [current] and [latest], [print_package_info]
    prints one line and returns: the name cut to its first 39 characters,
    then the two versions, each replaced by "-" when it is "N/A", then the
    status, in columns of 40, 20, 20 and 20 characters.  The status is
    "Up to date" exactly when [current] and [latest] are the same string,
    and "Update Available" otherwise; it is computed from the two versions
    as given, not from the name nor from what is displayed. *)
Theorem print_package_info_row (name current latest : string) :
  let status :=
    if String.eqb current latest then "Up to date" else "Update Available" in
  let shown v := if String.eqb v "N/A" then "-" else v in
  print_package_info (VStr name) (VStr current) (VStr latest)
  = ([EPrint (PyStr.ljust 40 (PyStr.take 39 name) ++ " "
              ++ PyStr.ljust 20 (shown current) ++ " "
              ++ PyStr.ljust 20 (shown latest) ++ " "
              ++ PyStr.ljust 20 status)],
     Return tt)
  /\ package_status (VStr current) (VStr latest) = status
  /\ (status = "Up to date" <-> current = latest)
  /\ (status = "Update Available" <-> current <> latest)
  /\ String.length (PyStr.take 39 name) <= 39
  /\ (String.length name <= 39 -> PyStr.take 39 name = name)
  /\ (exists rest, name = PyStr.take 39 name ++ rest).
Proof.
  intros status shown. subst status shown.
  split; [|split; [|split; [|split; [|split; [|split]]]]].
  - unfold print_package_info, package_status, display_version. cbn [py_eq].
    destruct (String.eqb current latest), (String.eqb current "N/A"),
      (String.eqb latest "N/A"); reflexivity.
  - unfold package_status. cbn [py_eq].
    destruct (String.eqb current latest); reflexivity.
  - destruct (String.eqb_spec current latest); split; intros; congruence.
  - destruct (String.eqb_spec current latest); split; intros; congruence.
  - apply take_length.
  - apply take_all.
  - apply take_prefix.
Qed.

(** The two rows of the specification, and a row whose two versions are
    displayed alike and still differ. *)
Example print_package_info_rows :
  printed (trace (print_package_info (VStr "lodash") (VStr "1.0.0") (VStr "1.0.0")))
  = ["lodash                                   1.0.0                1.0.0                Up to date          "]
  /\ printed (trace (print_package_info (VStr "lodash") (VStr "1.0.0") (VStr "2.0.0")))
  = ["lodash                                   1.0.0                2.0.0                Update Available    "]
  /\ printed (trace (print_package_info (VStr "lodash") (VStr "N/A") (VStr "-")))
  = ["lodash                                   -                    -                    Update Available    "]
  /\ printed (trace (print_package_info
                       (VStr "a-package-name-of-more-than-thirty-nine-characters")
                       (VStr "1.10") (VStr "1.9")))
  = ["a-package-name-of-more-than-thirty-nine  1.10                 1.9                  Update Available    "].
Proof. repeat split; reflexivity. Qed.

(* ===================================================================== *)
(** * Facts about dictionaries *)
(* ===================================================================== *)

Module PyDictFacts.
Section Lookup.
Variables K V : Type.
Variable eqb : K -> K -> bool.
Hypothesis eqb_sym : forall a b, eqb a b = eqb b a.
Hypothesis eqb_trans :
  forall a b c, eqb a b = true -> eqb b c = true -> eqb a c = true.

Local Abbreviation get := (PyDict.get eqb (V:=V)).
Local Abbreviation set := (PyDict.set eqb (V:=V)).
Local Abbreviation update := (PyDict.update eqb (V:=V)).

Lemma eqb_compat a b c : eqb a b = true -> eqb a c = eqb b c.
Proof.
  intros H. destruct (eqb b c) eqn:E.
  - eapply eqb_trans; eauto.
  - destruct (eqb a c) eqn:E'; [|reflexivity].
    rewrite <- E. symmetry. eapply eqb_trans; [|exact E'].
    rewrite eqb_sym; exact H.
Qed.

Lemma get_compat d a b : eqb a b = true -> get d a = get d b.
Proof.
  intros H. induction d as [|[k v] d IH]; simpl; [reflexivity|].
  rewrite IH. replace (eqb k a) with (eqb k b); [reflexivity|].
  rewrite (eqb_sym k b), (eqb_sym k a). symmetry. apply eqb_compat; exact H.
Qed.

(** Reading after writing. *)
Lemma get_set d k v k' :
  get (set d k v) k' = if eqb k k' then Some v else get d k'.
Proof.
  induction d as [|[k0 v0] d IH]; simpl; [reflexivity|].
  destruct (eqb k0 k) eqn:E; simpl.
  - rewrite (@eqb_compat k0 k k' E). destruct (eqb k k'); reflexivity.
  - rewrite IH. destruct (eqb k0 k') eqn:E'; [|reflexivity].
    destruct (eqb k k') eqn:E''; [|reflexivity].
    exfalso. rewrite eqb_sym in E''.
    rewrite (eqb_trans E' E'') in E. discriminate.
Qed.

(** Reading after [update]: the entries of the second dictionary win. *)
Lemma get_update d e k :
  PyDict.unique eqb e ->
  get (update d e) k
  = match get e k with Some v => Some v | None => get d k end.
Proof.
  revert d; induction e as [|[k0 v0] e IH]; intros d Hu; simpl;
    [reflexivity|].
  destruct Hu as [Hk0 Hu]. unfold PyDict.update in *. simpl.
  rewrite (IH _ Hu), get_set.
  destruct (eqb k0 k) eqn:E; [|reflexivity].
  rewrite <- (@get_compat e k0 k E), Hk0. reflexivity.
Qed.

End Lookup.
End PyDictFacts.

(** Equality of floats and integers is equality of the numbers. *)
Lemma same_number_spec m1 e1 m2 e2 k :
  (k <= e1)%Z -> (k <= e2)%Z ->
  PyFloat.same_number m1 e1 m2 e2 = true
  <-> (m1 * 2 ^ (e1 - k) = m2 * 2 ^ (e2 - k))%Z.
Proof.
  intros H1 H2. unfold PyFloat.same_number.
  assert (Hpos : forall n, (0 <= n)%Z -> (0 < 2 ^ n)%Z)
    by (intros n Hn; apply Z.pow_pos_nonneg; lia).
  destruct (Z.leb_spec e2 e1) as [Hle|Hlt]; rewrite Z.eqb_eq.
  - replace (e1 - k)%Z with ((e1 - e2) + (e2 - k))%Z by lia.
    rewrite Z.pow_add_r by lia. rewrite Z.mul_assoc.
    pose proof (Hpos (e2 - k)%Z ltac:(lia)) as Hp. split; [congruence|].
    intros H. apply Z.mul_reg_r in H; [exact H|lia].
  - replace (e2 - k)%Z with ((e2 - e1) + (e1 - k))%Z by lia.
    rewrite Z.pow_add_r by lia. rewrite Z.mul_assoc.
    pose proof (Hpos (e1 - k)%Z ltac:(lia)) as Hp. split; [congruence|].
    intros H. apply Z.mul_reg_r in H; [exact H|lia].
Qed.

Lemma same_number_sym m1 e1 m2 e2 :
  PyFloat.same_number m1 e1 m2 e2 = PyFloat.same_number m2 e2 m1 e1.
Proof.
  apply eq_true_iff_eq.
  rewrite (@same_number_spec m1 e1 m2 e2 (Z.min e1 e2)) by lia.
  rewrite (@same_number_spec m2 e2 m1 e1 (Z.min e1 e2)) by lia.
  split; congruence.
Qed.

Lemma same_number_trans m1 e1 m2 e2 m3 e3 :
  PyFloat.same_number m1 e1 m2 e2 = true ->
  PyFloat.same_number m2 e2 m3 e3 = true ->
  PyFloat.same_number m1 e1 m3 e3 = true.
Proof.
  pose (k := Z.min e1 (Z.min e2 e3)).
  rewrite (@same_number_spec m1 e1 m2 e2 k) by (unfold k; lia).
  rewrite (@same_number_spec m2 e2 m3 e3 k) by (unfold k; lia).
  rewrite (@same_number_spec m1 e1 m3 e3 k) by (unfold k; lia).
  congruence.
Qed.

Lemma same_number_int z z' : PyFloat.same_number z 0 z' 0 = Z.eqb z z'.
Proof. unfold PyFloat.same_number. simpl. rewrite Z.mul_1_r. reflexivity. Qed.

Lemma key_eqb_numbers a b m1 e1 m2 e2 :
  key_number a = Some (m1, e1) -> key_number b = Some (m2, e2) ->
  key_eqb a b = PyFloat.same_number m1 e1 m2 e2.
Proof.
  destruct a as [|x|x|x|[vx tx]], b as [|y|y|y|[vy ty]]; simpl;
    try discriminate;
    try (destruct vx; try discriminate); try (destruct vy; try discriminate);
    intros Ha Hb; inversion Ha; inversion Hb; subst;
    unfold PyFloat.same, PyFloat.eqb, PyFloat.eqb_Z, PyFloat.is_nan; simpl;
    rewrite ?same_number_int;
    first [ reflexivity
          | apply Z.eqb_sym
          | apply same_number_sym
          | destruct x, y; reflexivity ].
Qed.

Lemma key_eqb_number_only a b :
  key_eqb a b = true -> key_number a = None -> key_number b = None.
Proof.
  destruct a as [|x|x|x|[vx tx]], b as [|y|y|y|[vy ty]]; simpl;
    try discriminate; try reflexivity;
    unfold PyFloat.same, PyFloat.eqb, PyFloat.eqb_Z, PyFloat.is_nan; simpl;
    destruct vx; try discriminate; destruct vy; simpl; try discriminate;
    reflexivity.
Qed.

Lemma key_eqb_sym a b : key_eqb a b = key_eqb b a.
Proof.
  destruct a as [|x|x|x|[vx tx]], b as [|y|y|y|[vy ty]]; simpl;
    try reflexivity.
  - destruct x, y; reflexivity.
  - apply Z.eqb_sym.
  - apply String.eqb_sym.
  - unfold PyFloat.same, PyFloat.eqb, PyFloat.is_nan. simpl.
    destruct vx as [|nx|mx ex], vy as [|ny|my ey]; simpl; try reflexivity.
    + destruct nx, ny; reflexivity.
    + apply same_number_sym.
Qed.

Lemma key_eqb_trans a b c :
  key_eqb a b = true -> key_eqb b c = true -> key_eqb a c = true.
Proof.
  intros Hab Hbc.
  destruct (key_number a) as [[m1 e1]|] eqn:Ha.
  - destruct (key_number b) as [[m2 e2]|] eqn:Hb.
    + destruct (key_number c) as [[m3 e3]|] eqn:Hc.
      * rewrite (key_eqb_numbers _ _ Ha Hb) in Hab.
        rewrite (key_eqb_numbers _ _ Hb Hc) in Hbc.
        rewrite (key_eqb_numbers _ _ Ha Hc).
        exact (same_number_trans _ _ _ _ _ _ Hab Hbc).
      * rewrite key_eqb_sym in Hbc.
        rewrite (key_eqb_number_only _ _ Hbc Hc) in Hb. discriminate.
    + rewrite key_eqb_sym in Hab.
      rewrite (key_eqb_number_only _ _ Hab Hb) in Ha. discriminate.
  - pose proof (key_eqb_number_only _ _ Hab Ha) as Hb.
    pose proof (key_eqb_number_only _ _ Hbc Hb) as Hc.
    destruct a as [|x|x|x|[vx tx]], b as [|y|y|y|[vy ty]],
      c as [|z|z|z|[vz tz]];
      simpl in *; try discriminate; try reflexivity.
    + rewrite String.eqb_eq in *. congruence.
    + unfold PyFloat.same, PyFloat.eqb, PyFloat.is_nan in *. simpl in *.
      destruct vx as [|nx|mx ex], vy as [|ny|my ey], vz as [|nz|mz ez];
        simpl in *; try discriminate; try reflexivity.
      destruct nx, ny, nz; simpl in *; congruence.
Qed.

Lemma kget_kupdate (d e : PyDict.t pykey pyval) (k : pykey) :
  PyDict.unique key_eqb e ->
  kget (kupdate d e) k
  = match kget e k with Some v => Some v | None => kget d k end.
Proof. apply PyDictFacts.get_update; [apply key_eqb_sym|apply key_eqb_trans]. Qed.

(* ===================================================================== *)
(** * The dependency parsers *)
(* ===================================================================== *)

Lemma py_get_group d name g :
  dependency_group d name = Some g ->
  py_get (VDict d) name (VDict []) = ret (VDict g).
Proof.
  unfold dependency_group, py_get.
  destruct (kget d (KStr name)) as [[| | | | |g'|]|]; intros H;
    inversion H; reflexivity.
Qed.

(** C3.  When the file holds a JSON object whose [dependencies] and
    [devDependencies] are objects (a missing one counts as empty),
    [parse_npm_dependencies] opens the file, prints nothing and returns the
    first group updated with the second: looking a name up in the result
    gives its value in [devDependencies] if it has one, and its value in
    [dependencies] otherwise. *)
Theorem parse_npm_dependencies_merge (w : World) (path : string) (f : file)
    (d deps dev : PyDict.t pykey pyval) :
  open_file w path = inl f ->
  read_error f = None ->
  json_loads w (String.concat "" (lines f)) = inl (VDict d) ->
  dependency_group d "dependencies" = Some deps ->
  dependency_group d "devDependencies" = Some dev ->
  PyDict.unique key_eqb deps ->
  PyDict.unique key_eqb dev ->
  parse_npm_dependencies w path
  = ([EOpen path], Return (kupdate (kupdate [] deps) dev))
  /\ forall k,
       kget (kupdate (kupdate [] deps) dev) k
       = match kget dev k with
         | Some v => Some v
         | None => kget deps k
         end.
Proof.
  intros Hopen Hread Hjson Hdeps Hdev Hu1 Hu2. split.
  - unfold parse_npm_dependencies, load_npm_dependencies.
    rewrite Hopen. simpl lift. rewrite bind_emit, !bind_ret_l.
    unfold read_all. rewrite Hread, !bind_ret_l, Hjson. simpl lift.
    rewrite bind_ret_l.
    rewrite (py_get_group _ _ Hdeps), bind_ret_l. simpl py_update.
    rewrite bind_ret_l.
    rewrite (py_get_group _ _ Hdev), bind_ret_l. simpl py_update.
    rewrite bind_ret_l. reflexivity.
  - intros k. rewrite (@kget_kupdate _ dev k Hu2), (@kget_kupdate _ deps k Hu1).
    simpl. destruct (kget dev k), (kget deps k); reflexivity.
Qed.

(** The theorem at the manifest of the specification: the version of [a]
    is the one of [devDependencies]. *)
Lemma parse_npm_dependencies_merge_witness :
  parse_npm_dependencies npm_world "/repo/package.json"
  = ([EOpen "/repo/package.json"], Return [(KStr "a", VStr "2.0")]).
Proof.
  exact (proj1 (@parse_npm_dependencies_merge npm_world "/repo/package.json"
                  {| lines := [collision_manifest_text]; read_error := None |}
                  _ [(KStr "a", VStr "1.0")] [(KStr "a", VStr "2.0")]
                  eq_refl eq_refl eq_refl eq_refl eq_refl
                  (conj eq_refl I) (conj eq_refl I))).
Defined.

(** ** One requirement line *)

Lemma split_nonnil sep s : PyStr.split sep s <> [].
Proof.
  unfold PyStr.split. simpl.
  destruct (PyStr.partition sep s) as [[a b]|]; discriminate.
Qed.

Lemma split_once sep line name version :
  sep <> "" ->
  PyStr.partition sep line = Some (name, version) ->
  PyStr.contains sep version = false ->
  PyStr.split sep line = [name; version].
Proof.
  intros Hsep Hp Hc.
  rewrite PyStrFacts.split_unfold by exact Hsep. rewrite Hp.
  rewrite PyStrFacts.split_unfold by exact Hsep.
  unfold PyStr.contains in Hc.
  destruct (PyStr.partition sep version) as [[a b]|]; [discriminate|].
  reflexivity.
Qed.

Lemma split_again sep line name version :
  sep <> "" ->
  PyStr.partition sep line = Some (name, version) ->
  PyStr.contains sep version = true ->
  exists a b c rest, PyStr.split sep line = a :: b :: c :: rest.
Proof.
  intros Hsep Hp Hc.
  rewrite PyStrFacts.split_unfold by exact Hsep. rewrite Hp.
  rewrite PyStrFacts.split_unfold by exact Hsep.
  unfold PyStr.contains in Hc.
  destruct (PyStr.partition sep version) as [[a b]|]; [|discriminate].
  pose proof (split_nonnil sep b) as Hn.
  destruct (PyStr.split sep b) as [|c rest]; [congruence|].
  exists name, a, c, rest. reflexivity.
Qed.

(** What a line adds to [deps].  A blank line or a comment adds nothing.
    Otherwise the operator is [==] if the line has it, else [>=] if the line
    has it; the line is cut at the first occurrence of the operator, and
    when the operator does not occur again the entry is the text before it
    with the text after it; when it does occur again the line raises.  A
    line with neither operator is entered whole, with "Not specified". *)
Lemma parse_requirement_line_cases (deps : sdict string) (raw : string) :
  let line := PyStr.strip_ws raw in
  (PyStr.is_empty line = true \/ PyStr.startswith "#" line = true ->
   parse_requirement_line deps raw = inl deps)
  /\ (PyStr.is_empty line = false -> PyStr.startswith "#" line = false ->
      forall op,
        (op = "==" \/ (op = ">=" /\ PyStr.contains "==" line = false)) ->
        forall name version,
          PyStr.partition op line = Some (name, version) ->
          (PyStr.contains op version = false ->
           parse_requirement_line deps raw = inl (sset deps name version))
          /\ (PyStr.contains op version = true ->
              parse_requirement_line deps raw
              = inr (PyException "ValueError"
                       "too many values to unpack (expected 2)")))
  /\ (PyStr.is_empty line = false -> PyStr.startswith "#" line = false ->
      PyStr.contains "==" line = false -> PyStr.contains ">=" line = false ->
      parse_requirement_line deps raw = inl (sset deps line "Not specified")).
Proof.
  intros line. unfold parse_requirement_line. fold line.
  split; [|split].
  - intros [H|H]; rewrite H; [reflexivity|].
    destruct (PyStr.is_empty line); reflexivity.
  - intros He Hs op Hop name version Hp. rewrite He, Hs. cbn [negb andb].
    assert (Hin : PyStr.contains op line = true)
      by (unfold PyStr.contains; rewrite Hp; reflexivity).
    assert (Hsep : op <> "") by (destruct Hop as [->|[-> _]]; discriminate).
    split; intros Hv.
    + destruct Hop as [->|[-> Hno]].
      * rewrite Hin. rewrite (@split_once "==" line name version Hsep Hp Hv).
        reflexivity.
      * rewrite Hno, Hin.
        rewrite (@split_once ">=" line name version Hsep Hp Hv). reflexivity.
    + destruct (@split_again op line name version Hsep Hp Hv)
        as [a [b [c [rest Hsplit]]]].
      destruct Hop as [->|[-> Hno]].
      * rewrite Hin, Hsplit. reflexivity.
      * rewrite Hno, Hin, Hsplit. reflexivity.
  - intros He Hs H1 H2. rewrite He, Hs, H1, H2. reflexivity.
Qed.

(** ** Calls that cannot leave through [sys.exit] *)

Ltac no_exit :=
  repeat match goal with
    | |- never_exits (bind _ _) => apply never_exits_bind; [|intros]
    | |- never_exits (for_each _ _) => apply never_exits_for_each; intros
    | |- never_exits (try_except _ _) => apply never_exits_try; [|intros]
    | |- never_exits (match ?x with _ => _ end) => destruct x
    | |- never_exits _ =>
        solve [auto with noexit | intros ?; discriminate]
    end.

Lemma never_exits_print l : never_exits (print l).
Proof. intros c; discriminate. Qed.

Lemma never_exits_read_all f : never_exits (read_all f).
Proof. unfold read_all. no_exit. Qed.

Lemma never_exits_py_get v k default : never_exits (py_get v k default).
Proof. unfold py_get, AttributeError. no_exit. Qed.

Lemma never_exits_py_items v : never_exits (py_items v).
Proof. unfold py_items, AttributeError. no_exit. Qed.

Lemma never_exits_py_iter v : never_exits (py_iter v).
Proof. unfold py_iter, TypeError. no_exit. Qed.

Lemma never_exits_py_getitem v k : never_exits (py_getitem v k).
Proof. unfold py_getitem, TypeError. no_exit. Qed.

Lemma never_exits_py_slice_to n v : never_exits (py_slice_to n v).
Proof. unfold py_slice_to, TypeError. no_exit. Qed.

Lemma never_exits_py_format_left n v : never_exits (py_format_left n v).
Proof. unfold py_format_left, TypeError. no_exit. Qed.

#[local] Hint Resolve never_exits_print never_exits_read_all
  never_exits_py_get never_exits_py_items never_exits_py_iter
  never_exits_py_getitem never_exits_py_slice_to never_exits_py_format_left
  : noexit.

Lemma never_exits_update_pair i item : never_exits (update_pair i item).
Proof. unfold update_pair, TypeError, ValueError. no_exit. Qed.

#[local] Hint Resolve never_exits_update_pair : noexit.

Lemma never_exits_update_pairs items : forall d i,
  never_exits (update_pairs d i items).
Proof.
  induction items as [|item items IH]; intros d i; simpl; no_exit.
Qed.

#[local] Hint Resolve never_exits_update_pairs : noexit.

Lemma never_exits_py_update d v : never_exits (py_update d v).
Proof. unfold py_update. no_exit. Qed.

Lemma never_exits_subprocess_run w argv cwd check :
  never_exits (subprocess_run w argv cwd check).
Proof. unfold subprocess_run. no_exit. Qed.

Lemma never_exits_print_package_info name current latest :
  never_exits (print_package_info name current latest).
Proof. unfold print_package_info. no_exit. Qed.

Lemma never_exits_print_package_header : never_exits print_package_header.
Proof. unfold print_package_header. no_exit. Qed.

#[local] Hint Resolve never_exits_py_update never_exits_subprocess_run
  never_exits_print_package_info never_exits_print_package_header : noexit.

Lemma never_exits_load_npm_dependencies w path :
  never_exits (load_npm_dependencies w path).
Proof. unfold load_npm_dependencies. no_exit. Qed.

(** C5 (as the code has it).  Neither parser lets an exception through:
    both always return a mapping.  [parse_npm_dependencies] returns what its
    [try] block built, or, when that block raised, prints the error and
    returns the empty mapping.  [parse_python_requirements] returns the empty
    mapping, after printing the error, when the file cannot be opened;
    otherwise it returns the entries of the lines it handled before reading
    or parsing stopped, after printing the error if there was one. *)
Theorem parsers_catch_and_return (w : World) (path : string) :
  match load_npm_dependencies w path with
  | (t, Return deps) => parse_npm_dependencies w path = (t, Return deps)
  | (t, Raise e) =>
      parse_npm_dependencies w path
      = ((t ++ [EPrint ("Error parsing package.json: " ++ exn_str w e)])%list,
         Return [])
  | (_, Exit _) => False
  end
  /\ match open_file w path with
     | inr e =>
         parse_python_requirements w path
         = ([EOpen path;
             EPrint ("Error parsing requirements.txt: " ++ exn_str w e)],
            Return [])
     | inl f =>
         let (deps, stopped) := parse_requirement_lines [] (lines f) in
         match match stopped with Some e => Some e | None => read_error f end
         with
         | Some e =>
             parse_python_requirements w path
             = ([EOpen path;
                 EPrint ("Error parsing requirements.txt: " ++ exn_str w e)],
                Return deps)
         | None => parse_python_requirements w path = ([EOpen path], Return deps)
         end
     end
  /\ returns (parse_npm_dependencies w path)
  /\ returns (parse_python_requirements w path).
Proof.
  assert (Hnpm :
    match load_npm_dependencies w path with
    | (t, Return deps) => parse_npm_dependencies w path = (t, Return deps)
    | (t, Raise e) =>
        parse_npm_dependencies w path
        = ((t ++ [EPrint ("Error parsing package.json: " ++ exn_str w e)])%list,
           Return [])
    | (_, Exit _) => False
    end).
  { unfold parse_npm_dependencies.
    pose proof (@never_exits_load_npm_dependencies w path) as Hne.
    destruct (load_npm_dependencies w path) as [t [deps|e|c]];
      [reflexivity|reflexivity|exact (Hne c eq_refl)]. }
  assert (Hreq :
    match open_file w path with
    | inr e =>
        parse_python_requirements w path
        = ([EOpen path;
            EPrint ("Error parsing requirements.txt: " ++ exn_str w e)],
           Return [])
    | inl f =>
        let (deps, stopped) := parse_requirement_lines [] (lines f) in
        match match stopped with Some e => Some e | None => read_error f end
        with
        | Some e =>
            parse_python_requirements w path
            = ([EOpen path;
                EPrint ("Error parsing requirements.txt: " ++ exn_str w e)],
               Return deps)
        | None => parse_python_requirements w path = ([EOpen path], Return deps)
        end
    end).
  { unfold parse_python_requirements.
    destruct (open_file w path) as [f|e]; [|reflexivity].
    destruct (parse_requirement_lines [] (lines f)) as [deps [e|]];
      [reflexivity|].
    destruct (read_error f); reflexivity. }
  split; [exact Hnpm|]. split; [exact Hreq|]. split.
  - destruct (load_npm_dependencies w path) as [t [deps|e|c]];
      [| |contradiction]; rewrite Hnpm; eexists; reflexivity.
  - destruct (open_file w path) as [f|e]; [|rewrite Hreq; eexists; reflexivity].
    destruct (parse_requirement_lines [] (lines f)) as [deps stopped].
    destruct (match stopped with Some e => Some e | None => read_error f end);
      rewrite Hreq; eexists; reflexivity.
Qed.

(** C5 as stated fails for [parse_python_requirements] when reading breaks
    off after the first line: the error is caught and printed, and the
    mapping returned holds the entry of that line. *)
Lemma parse_python_requirements_keeps_entries :
  let content :=
    {| lines := ["flask==2.0" ++ nl];
       read_error :=
         Some (PyException "UnicodeDecodeError"
                 "'utf-8' codec can't decode byte 0xff in position 8200: invalid start byte") |} in
  parse_python_requirements (requirements_world content) "/repo/requirements.txt"
  = ([EOpen "/repo/requirements.txt";
      EPrint "Error parsing requirements.txt: 'utf-8' codec can't decode byte 0xff in position 8200: invalid start byte"],
     Return [("flask", "2.0")]).
Proof. reflexivity. Qed.

(** C4 at a requirements file whose second line has [>=] twice: the call
    of [split] gives three pieces, unpacking them into two names raises,
    the handler prints the error and the function returns what it had, so
    that neither this line nor any later one gets an entry. *)
Lemma parse_python_requirements_repeated_operator :
  PyStr.split ">=" "pkg>=1.0; python_version>='3.6'"
  = ["pkg"; "1.0; python_version"; "'3.6'"]
  /\ parse_python_requirements
       (requirements_world {| lines := marker_requirements; read_error := None |})
       "/repo/requirements.txt"
     = ([EOpen "/repo/requirements.txt";
         EPrint "Error parsing requirements.txt: too many values to unpack (expected 2)"],
        Return [("flask", "2.0")]).
Proof. split; reflexivity. Qed.

(* ===================================================================== *)
(** * The manager detector *)
(* ===================================================================== *)

Lemma for_fold_steps {A S} (xs : list A) (body : S -> A -> M S)
    (ev : A -> event) (step : S -> A -> S) :
  (forall s x, In x xs -> body s x = ([ev x], Return (step s x))) ->
  forall s, for_fold xs s body = (map ev xs, Return (fold_left step xs s)).
Proof.
  induction xs as [|x xs IH]; intros Hb s; simpl; [reflexivity|].
  rewrite (Hb s x (or_introl eq_refl)). simpl.
  rewrite IH by (intros; apply Hb; right; assumption). reflexivity.
Qed.

(** A loop whose turns return, the last one apart. *)
Lemma for_fold_last {A S} (xs : list A) (x : A) (body : S -> A -> M S)
    (ev : A -> event) (step : S -> A -> S) :
  (forall s y, In y xs -> body s y = ([ev y], Return (step s y))) ->
  forall s,
    for_fold (xs ++ [x]) s body
    = ((map ev xs ++ trace (body (fold_left step xs s) x))%list,
       result (body (fold_left step xs s) x)).
Proof.
  induction xs as [|y xs IH]; intros Hb s.
  - simpl. destruct (body s x) as [t [a|e|c]]; simpl; rewrite ?app_nil_r;
      reflexivity.
  - simpl. rewrite (Hb s y (or_introl eq_refl)). simpl.
    rewrite IH by (intros; apply Hb; right; assumption). reflexivity.
Qed.

Lemma package_files_rows :
  package_files = (literal_rows ++ [("*.csproj", "dotnet")])%list.
Proof. reflexivity. Qed.

Lemma literal_rows_literal marker mgr :
  In (marker, mgr) literal_rows
  <-> In (marker, mgr) package_files /\ PyStr.contains "*" marker = false.
Proof.
  unfold literal_rows, package_files. simpl. split.
  - intros H.
    repeat (destruct H as [H|H]; [inversion H; subst; split; [tauto|reflexivity]|]).
    contradiction.
  - intros [H Hlit].
    repeat (destruct H as [H|H]; [inversion H; subst; try tauto; discriminate|]).
    contradiction.
Qed.

Section StringDict.
Variable V : Type.
Implicit Types (d e : sdict V) (k : string) (v : V).

Lemma sset_new d k v : sget d k = None -> sset d k v = (d ++ [(k, v)])%list.
Proof.
  induction d as [|[k0 v0] d IH]; simpl; [reflexivity|].
  destruct (String.eqb k0 k); [discriminate|].
  intros H; rewrite IH by assumption; reflexivity.
Qed.

Lemma sget_app d e k :
  sget (d ++ e)%list k
  = match sget d k with Some v => Some v | None => sget e k end.
Proof.
  induction d as [|[k0 v0] d IH]; simpl; [reflexivity|].
  destruct (String.eqb k0 k); [reflexivity|exact IH].
Qed.

End StringDict.

Section MarkerTable.
Variable present : string -> option string.

(** With distinct managers in the table, every assignment of the loop adds
    a new key at the end. *)
Lemma fold_markers tbl :
  NoDup (map snd tbl) ->
  forall acc, (forall e, In e tbl -> sget acc (snd e) = None) ->
  fold_left (record_marker present) tbl acc
  = (acc ++ flat_map (marker_entries present) tbl)%list.
Proof.
  induction tbl as [|e tbl IH]; intros Hnd acc Hacc; simpl.
  - rewrite app_nil_r; reflexivity.
  - inversion Hnd as [|? ? Hnotin Hnd']; subst.
    unfold record_marker at 2, marker_entries at 1.
    destruct (present (fst e)) as [p|].
    + rewrite sset_new by (apply Hacc; left; reflexivity).
      rewrite IH; [rewrite <- app_assoc; reflexivity|exact Hnd'|].
      intros e' He'. rewrite sget_app, (Hacc e' (or_intror He')). simpl.
      destruct (String.eqb_spec (snd e) (snd e')) as [Heq|]; [|reflexivity].
      exfalso. apply Hnotin. rewrite Heq. apply in_map. exact He'.
    + simpl. apply IH; [exact Hnd'|].
      intros e' He'. apply Hacc. right. exact He'.
Qed.

Lemma keys_flat_map tbl k :
  In k (PyDict.keys (flat_map (marker_entries present) tbl)) ->
  In k (map snd tbl).
Proof.
  unfold PyDict.keys. induction tbl as [|e tbl IH]; simpl; [tauto|].
  rewrite map_app, in_app_iff. intros [H|H]; [|right; auto].
  unfold marker_entries in H. destruct (present (fst e)); simpl in H; [|tauto].
  destruct H as [H|[]]. left. exact H.
Qed.

Lemma keys_flat_map_nodup tbl :
  NoDup (map snd tbl) ->
  NoDup (PyDict.keys (flat_map (marker_entries present) tbl)).
Proof.
  induction tbl as [|e tbl IH]; intros Hnd; simpl; [constructor|].
  inversion Hnd as [|? ? Hnotin Hnd']; subst.
  unfold PyDict.keys in *. rewrite map_app. unfold marker_entries at 1.
  destruct (present (fst e)); simpl; [|auto].
  constructor; [|auto]. intros H. apply Hnotin.
  apply keys_flat_map. exact H.
Qed.

(** A manager is in the map, with a path, exactly when its marker is
    present with that path. *)
Lemma sget_flat_map tbl mgr path :
  NoDup (map snd tbl) ->
  sget (flat_map (marker_entries present) tbl) mgr = Some path
  <-> exists marker, In (marker, mgr) tbl /\ present marker = Some path.
Proof.
  induction tbl as [|[marker0 mgr0] tbl IH]; intros Hnd; simpl.
  - split; [discriminate|intros [? [[] _]]].
  - inversion Hnd as [|? ? Hnotin Hnd']; subst. simpl in Hnotin.
    rewrite sget_app. unfold marker_entries at 1. cbn [fst snd].
    destruct (present marker0) as [p|] eqn:Hp; simpl.
    + destruct (String.eqb_spec mgr0 mgr) as [->|Hne].
      * split.
        -- intros H; inversion H; subst. exists marker0. auto.
        -- intros [marker [[Heq|Hin] Hm]].
           ++ inversion Heq; subst. congruence.
           ++ exfalso. apply Hnotin.
              change mgr with (snd (marker, mgr)). apply in_map. exact Hin.
      * rewrite (IH Hnd'). split.
        -- intros [marker [Hin Hm]]. exists marker. auto.
        -- intros [marker [[Heq|Hin] Hm]]; [inversion Heq; congruence|].
           exists marker. auto.
    + rewrite (IH Hnd'). split.
      * intros [marker [Hin Hm]]. exists marker. auto.
      * intros [marker [[Heq|Hin] Hm]]; [inversion Heq; congruence|].
        exists marker. auto.
Qed.

End MarkerTable.

Lemma marker_entries_ext (P Q : string -> option string) tbl :
  (forall m, In m (map fst tbl) -> P m = Q m) ->
  flat_map (marker_entries P) tbl = flat_map (marker_entries Q) tbl.
Proof.
  induction tbl as [|e tbl IH]; intros H; simpl; [reflexivity|].
  unfold marker_entries at 1 3. rewrite (H (fst e)) by (left; reflexivity).
  rewrite IH by (intros; apply H; right; assumption). reflexivity.
Qed.

Lemma package_files_managers_distinct : NoDup (map snd package_files).
Proof.
  unfold package_files; simpl.
  repeat (constructor; [simpl; intuition discriminate|]). constructor.
Qed.

Lemma literal_rows_managers_distinct : NoDup (map snd literal_rows).
Proof.
  unfold literal_rows, package_files; simpl.
  repeat (constructor; [simpl; intuition discriminate|]). constructor.
Qed.

(** ** Detection in any world *)

Section AnyWorld.
Variables (w : World) (temp_dir : string).

(** One turn of the loop for a literal marker: it returns. *)
Lemma detect_entry_literal found entry :
  In entry literal_rows ->
  detect_entry w temp_dir found entry
  = ([probe temp_dir entry],
     Return (record_marker (world_marker_path w temp_dir) found entry)).
Proof.
  intros Hin. unfold literal_rows, package_files in Hin. simpl in Hin.
  repeat (destruct Hin as [<-|Hin]);
    try contradiction;
    unfold detect_entry, probe, record_marker, world_marker_path; cbn [fst snd];
    match goal with
    | |- context [PyStr.contains "*" ?m] =>
        let b := eval vm_compute in (PyStr.contains "*" m) in
        change (PyStr.contains "*" m) with b; cbv iota
    end;
    rewrite bind_emit;
    match goal with
    | |- context [path_exists ?v ?p] => destruct (path_exists v p)
    end; reflexivity.
Qed.

(** The last turn, for the pattern: the exception of the search leaves
    the loop. *)
Lemma detect_entry_pattern found :
  detect_entry w temp_dir found ("*.csproj", "dotnet")
  = ([ERglob temp_dir "*.csproj"],
     match rglob w temp_dir "*.csproj" with
     | inl _ =>
         Return (record_marker (world_marker_path w temp_dir) found
                   ("*.csproj", "dotnet"))
     | inr e => Raise e
     end).
Proof.
  unfold detect_entry, record_marker, world_marker_path, rglob_matches.
  cbn [fst snd].
  change (PyStr.contains "*" "*.csproj") with true. cbv iota.
  change (replace_char "*" "*" "*.csproj") with "*.csproj".
  rewrite bind_emit.
  destruct (rglob w temp_dir "*.csproj") as [[|first rest]|e]; reflexivity.
Qed.

(** Detection makes its ten probes; it returns the map of the markers
    found unless the search, which comes last, raises. *)
Lemma detect_package_managers_steps :
  detect_package_managers w temp_dir
  = (detection_probes temp_dir,
     match rglob w temp_dir "*.csproj" with
     | inl _ => Return (world_manager_map w temp_dir)
     | inr e => Raise e
     end).
Proof.
  unfold detect_package_managers.
  rewrite package_files_rows at 1.
  rewrite (@for_fold_last _ _ literal_rows ("*.csproj", "dotnet")
             (detect_entry w temp_dir) (probe temp_dir)
             (record_marker (world_marker_path w temp_dir)))
    by (intros s y Hy; apply detect_entry_literal; exact Hy).
  rewrite detect_entry_pattern. cbn [trace result fst snd].
  f_equal.
  destruct (rglob w temp_dir "*.csproj") as [matches|e]; [|reflexivity].
  f_equal. unfold world_manager_map.
  rewrite <- (app_nil_l (flat_map _ package_files)).
  rewrite <- (@fold_markers (world_marker_path w temp_dir) package_files
                package_files_managers_distinct [])
    by reflexivity.
  reflexivity.
Qed.

Lemma detect_trace :
  trace (detect_package_managers w temp_dir) = detection_probes temp_dir.
Proof. rewrite detect_package_managers_steps. reflexivity. Qed.

Lemma never_exits_detect : never_exits (detect_package_managers w temp_dir).
Proof.
  rewrite detect_package_managers_steps. intros c. cbn [result snd].
  destruct (rglob w temp_dir "*.csproj"); discriminate.
Qed.

End AnyWorld.

(** ** Paths of a tree *)

Section TreeLookup.
Import PyStr.
Variables (root : string) (es : Fs.entries).

(** A plain name directly under the root resolves to the entry of that
    name, whatever the root is called. *)
Lemma resolve_join name :
  startswith "/" name = false ->
  Fs.components name = [name] ->
  Fs.components ("/" ++ name) = [name] ->
  Fs.resolve root (FsDir es) (OsPath.join root name) = Fs.lookup es name.
Proof.
  intros Hs Hc Hc'. unfold OsPath.join, Fs.resolve. rewrite Hs.
  destruct (is_empty root || endswith_char "/" root) eqn:E.
  - rewrite PyStrFacts.strip_prefix_app.
    replace (is_empty root || endswith_char "/" root || is_empty name
             || startswith "/" name) with true
      by (rewrite E; reflexivity).
    rewrite Hc. simpl. destruct (Fs.lookup es name); reflexivity.
  - rewrite PyStrFacts.strip_prefix_app.
    replace (is_empty root || endswith_char "/" root
             || is_empty ("/" ++ name) || startswith "/" ("/" ++ name))
      with true by (rewrite E; reflexivity).
    rewrite Hc'. simpl. destruct (Fs.lookup es name); reflexivity.
Qed.

Lemma exists_join name :
  startswith "/" name = false ->
  Fs.components name = [name] ->
  Fs.components ("/" ++ name) = [name] ->
  Fs.exists_at root (FsDir es) (OsPath.join root name) = Fs.present es name.
Proof.
  intros Hs Hc Hc'. unfold Fs.exists_at, Fs.present.
  rewrite resolve_join by assumption. reflexivity.
Qed.

Lemma resolve_root t : Fs.resolve root t root = Some t.
Proof.
  unfold Fs.resolve.
  rewrite <- (PyStrFacts.append_nil_r root) at 2.
  rewrite PyStrFacts.strip_prefix_app. simpl is_empty.
  rewrite !orb_true_r. reflexivity.
Qed.

(** The search from the root: it fails when something stops it, and
    yields the matches of the tree otherwise. *)
Lemma rglob_at_root headroom refused unlistable pattern :
  Fs.rglob_at headroom refused unlistable root (FsDir es) root pattern
  = match refused (Pathlib.str (Pathlib.of_str root)) with
    | Some e => inr e
    | None =>
        match Fs.blocked headroom unlistable (Pathlib.of_str root) 0
                (FsDir es) with
        | Some e => inr e
        | None =>
            inl (Fs.rglob_node (fun q => Fs.fails (unlistable q)) pattern
                   (Pathlib.of_str root) (FsDir es))
        end
    end.
Proof. unfold Fs.rglob_at. rewrite resolve_root. reflexivity. Qed.

End TreeLookup.

(** ** Detection on a tree *)

Lemma marker_path_literal w root es marker :
  PyStr.contains "*" marker = false ->
  path_error w (OsPath.join root marker) = None ->
  marker_path w root es marker
  = if Fs.present es marker then Some (OsPath.join root marker) else None.
Proof. intros H Hok. unfold marker_path. rewrite H, Hok. reflexivity. Qed.

(** What the world of a tree answers for a marker of the table. *)
Lemma world_marker_path_on_tree w root es marker :
  In marker (map fst package_files) ->
  search_stopped w root es = None ->
  world_marker_path (on_tree w root (FsDir es)) root marker
  = marker_path w root es marker.
Proof.
  intros Hin Hgo. unfold package_files in Hin. simpl in Hin.
  repeat (destruct Hin as [<-|Hin]);
    try contradiction;
    unfold world_marker_path, marker_path, rglob_matches;
    match goal with
    | |- context [PyStr.contains "*" ?m] =>
        let b := eval vm_compute in (PyStr.contains "*" m) in
        change (PyStr.contains "*" m) with b; cbv iota
    end;
    cbn [path_exists rglob on_tree].
  1-9: match goal with
       | |- context [path_error ?v ?p] => destruct (path_error v p)
       end; [reflexivity|];
       rewrite exists_join by reflexivity; reflexivity.
  rewrite rglob_at_root. unfold search_stopped in Hgo.
  destruct (path_error w (Pathlib.str (Pathlib.of_str root)));
    [discriminate|].
  rewrite Hgo. reflexivity.
Qed.

(** Detection on a tree: one probe per table entry; the map of the markers
    present, or the exception that stops the search. *)
Lemma detect_package_managers_on_tree w root es :
  detect_package_managers (on_tree w root (FsDir es)) root
  = (detection_probes root,
     match search_stopped w root es with
     | Some e => Raise e
     | None => Return (manager_map w root es)
     end).
Proof.
  rewrite detect_package_managers_steps. cbn [rglob on_tree].
  rewrite rglob_at_root.
  destruct (search_stopped w root es) as [e|] eqn:E; unfold search_stopped in E;
    destruct (path_error w (Pathlib.str (Pathlib.of_str root))) as [e'|] eqn:Ep;
    try discriminate.
  - inversion E; subst. reflexivity.
  - rewrite E. reflexivity.
  - rewrite E. f_equal. f_equal. unfold world_manager_map, manager_map.
    apply marker_entries_ext. intros m Hm.
    apply world_marker_path_on_tree; [exact Hm|].
    unfold search_stopped. rewrite Ep. exact E.
Qed.

(** ** The recursive search *)

Section Rglob.
Variables (unlisted : string -> bool) (pattern : string).


Hypothesis listed : forall path, unlisted path = false.


End Rglob.

(** ** What stops the search *)

Section Blocked.
Variables (headroom : nat) (unlistable : string -> option exn).





Hypothesis accepted : forall path, unlistable path = None.


End Blocked.

(** A name matches [*.csproj] exactly when it ends with [.csproj]. *)
Lemma contains_char_cons a c p :
  PyStr.contains (String a "") (String c p) = false ->
  Ascii.eqb a c = false /\ PyStr.contains (String a "") p = false.
Proof.
  unfold PyStr.contains. simpl.
  destruct (Ascii.eqb a c); [discriminate|].
  destruct (PyStr.partition (String a "") p) as [[? ?]|];
    [discriminate|auto].
Qed.




(** The map of a tree, entry by entry. *)
Lemma manager_map_get w root es mgr path :
  sget (manager_map w root es) mgr = Some path
  <-> exists marker, In (marker, mgr) package_files
                     /\ marker_path w root es marker = Some path.
Proof.
  unfold manager_map.
  apply (@sget_flat_map (marker_path w root es) package_files mgr path).
  exact package_files_managers_distinct.
Qed.

Lemma package_files_one_marker marker mgr marker' :
  In (marker, mgr) package_files -> In (marker', mgr) package_files ->
  marker' = marker.
Proof.
  intros H H'. unfold package_files in *. simpl in *.
  repeat (destruct H as [H|H]; [inversion H; subst; clear H|]);
    try contradiction;
    repeat (destruct H' as [H'|H']; [inversion H'; subst; clear H'|]);
    try contradiction; try reflexivity.
Qed.

Lemma manager_map_literal w root es marker mgr :
  In (marker, mgr) package_files ->
  PyStr.contains "*" marker = false ->
  path_error w (OsPath.join root marker) = None ->
  sget (manager_map w root es) mgr
  = if Fs.present es marker then Some (OsPath.join root marker) else None.
Proof.
  intros Hin Hlit Hok.
  pose proof (@marker_path_literal w root es marker Hlit Hok) as Hmp.
  destruct (sget (manager_map w root es) mgr) as [path|] eqn:E.
  - apply manager_map_get in E. destruct E as [marker' [Hin' Hp]].
    rewrite (package_files_one_marker Hin Hin') in Hp. rewrite Hmp in Hp.
    destruct (Fs.present es marker); [congruence|discriminate].
  - destruct (Fs.present es marker) eqn:Ep; [|reflexivity].
    assert (Hsome : sget (manager_map w root es) mgr
                    = Some (OsPath.join root marker)).
    { apply manager_map_get. exists marker. split; [exact Hin|].
      rewrite Hmp. reflexivity. }
    congruence.
Qed.


(** The trees of the examples: the two manifests of the specification; a
    manifest and a project file one level down, of which only the project
    file is found; a root that [pathlib] prints in another way than it was
    given. *)
Example detect_package_managers_examples :
  result (detect_package_managers (on_tree quiet_world "/tmp/r" (FsDir two_manifests)) "/tmp/r")
  = Return [("npm", "/tmp/r/package.json"); ("pip", "/tmp/r/requirements.txt")]
  /\ result (detect_package_managers (on_tree quiet_world "/tmp/r" (FsDir nested_only)) "/tmp/r")
     = Return [("dotnet", "/tmp/r/src/App/App.csproj")]
  /\ result (detect_package_managers
               (on_tree quiet_world "./det_rel"
                  (FsDir [("go.mod", FsFile); ("App.csproj", FsFile)]))
               "./det_rel")
     = Return [("go", "./det_rel/go.mod"); ("dotnet", "det_rel/App.csproj")].
Proof. repeat split; reflexivity. Qed.

(** A directory that may not be listed is passed over by the search. *)
Example detect_skips_locked_directory :
  result (detect_package_managers
            (on_tree (with_locked quiet_world ["/tmp/r/vendor"]) "/tmp/r"
               (FsDir [("vendor", FsDir [("Lib.csproj", FsFile)]);
                       ("src", FsDir [("App.csproj", FsFile)])]))
            "/tmp/r")
  = Return [("dotnet", "/tmp/r/src/App.csproj")].
Proof. reflexivity. Qed.


(** A literal marker is recorded as soon as its row is reached: the loop
    over the literal rows of the table always returns, with the markers
    present in its map. *)
Lemma literal_rows_recorded w root es :
  for_fold literal_rows [] (detect_entry (on_tree w root (FsDir es)) root)
  = (map (probe root) literal_rows,
     Return (flat_map (marker_entries
                         (world_marker_path (on_tree w root (FsDir es)) root))
               literal_rows)).
Proof.
  rewrite (@for_fold_steps _ _ literal_rows _ (probe root)
             (record_marker (world_marker_path (on_tree w root (FsDir es)) root)))
    by (intros s x Hx; apply detect_entry_literal; exact Hx).
  rewrite (@fold_markers (world_marker_path (on_tree w root (FsDir es)) root)
             literal_rows literal_rows_managers_distinct [])
    by reflexivity.
  reflexivity.
Qed.

Lemma literal_marker_exists w root es marker mgr :
  In (marker, mgr) package_files ->
  PyStr.contains "*" marker = false ->
  path_error w (OsPath.join root marker) = None ->
  path_exists (on_tree w root (FsDir es)) (OsPath.join root marker)
  = Fs.present es marker.
Proof.
  intros Hin Hlit Hok. cbn [path_exists on_tree]. rewrite Hok.
  unfold package_files in Hin. simpl in Hin.
  repeat (destruct Hin as [Hin|Hin];
          [inversion Hin; subst;
           first [discriminate Hlit | apply exists_join; reflexivity]|]).
  contradiction.
Qed.

(** C10 (as the code has it).  For a literal marker of the table and an
    entry [node] of that name directly under the root, detection probes
    [os.path.exists] on the name joined to the root, and the answer is
    whether the entry leads somewhere once its links are followed: always
    for a regular file and for a directory, never for a symbolic link whose
    target is missing.  When it does, the manager is recorded with that
    path as soon as its row is reached, and the map detection returns has
    it, unless the recursive search that comes last is stopped, in which
    case its exception leaves the function.  When it does not, no map that
    detection returns has the manager. *)
Theorem detect_marker_of_any_kind (w : World) (root : string)
    (es : Fs.entries) (marker mgr : string) (node : fsnode) :
  In (marker, mgr) package_files ->
  PyStr.contains "*" marker = false ->
  Fs.lookup es marker = Some node ->
  path_error w (OsPath.join root marker) = None ->
  let tree := on_tree w root (FsDir es) in
  In (EExists (OsPath.join root marker))
     (trace (detect_package_managers tree root))
  /\ path_exists tree (OsPath.join root marker) = Fs.resolves node
  /\ (forall es', Fs.resolves (FsDir es') = true)
  /\ Fs.resolves FsFile = true
  /\ (forall target, Fs.resolves (FsLink target) = Fs.resolves target)
  /\ Fs.resolves FsBroken = false
  /\ (Fs.resolves node = true ->
      (exists recorded,
         for_fold literal_rows [] (detect_entry tree root)
         = (map (probe root) literal_rows, Return recorded)
         /\ sget recorded mgr = Some (OsPath.join root marker))
      /\ match search_stopped w root es with
         | None =>
             exists found,
               result (detect_package_managers tree root) = Return found
               /\ sget found mgr = Some (OsPath.join root marker)
         | Some e => result (detect_package_managers tree root) = Raise e
         end)
  /\ (Fs.resolves node = false ->
      forall found,
        result (detect_package_managers tree root) = Return found ->
        sget found mgr = None).
Proof.
  intros Hin Hlit Hnode Hok tree.
  assert (Hpresent : Fs.present es marker = Fs.resolves node)
    by (unfold Fs.present; rewrite Hnode; reflexivity).
  assert (Hexists : path_exists tree (OsPath.join root marker)
                    = Fs.resolves node)
    by (unfold tree; rewrite (literal_marker_exists w root es Hin Hlit Hok);
        exact Hpresent).
  split.
  { unfold tree. rewrite detect_trace. unfold detection_probes.
    apply in_map_iff. exists (marker, mgr). unfold probe. cbn [fst].
    rewrite Hlit. split; [reflexivity|exact Hin]. }
  split; [exact Hexists|].
  split; [reflexivity|]. split; [reflexivity|].
  split; [reflexivity|]. split; [reflexivity|].
  split.
  - intros Hyes. split.
    + eexists. split; [apply literal_rows_recorded|].
      apply (@sget_flat_map (world_marker_path tree root) literal_rows mgr).
      * exact literal_rows_managers_distinct.
      * exists marker. split; [apply literal_rows_literal; auto|].
        unfold world_marker_path. rewrite Hlit, Hexists, Hyes. reflexivity.
    + unfold tree. rewrite detect_package_managers_on_tree. cbn [result snd].
      destruct (search_stopped w root es) as [e|]; [reflexivity|].
      eexists. split; [reflexivity|].
      rewrite (@manager_map_literal w root es marker mgr Hin Hlit Hok).
      rewrite Hpresent, Hyes. reflexivity.
  - intros Hno found Hres. unfold tree in Hres.
    rewrite detect_package_managers_on_tree in Hres. cbn [result snd] in Hres.
    destruct (search_stopped w root es) as [e|]; [discriminate|].
    inversion Hres; subst found.
    rewrite (@manager_map_literal w root es marker mgr Hin Hlit Hok).
    rewrite Hpresent, Hno. reflexivity.
Qed.

(** The theorem at a tree whose only entry is a directory called
    [package.json]. *)
Lemma detect_marker_of_any_kind_witness :
  path_exists (on_tree quiet_world "/tmp/r" (FsDir directory_marker))
    "/tmp/r/package.json" = true
  /\ exists found,
       result (detect_package_managers
                 (on_tree quiet_world "/tmp/r" (FsDir directory_marker))
                 "/tmp/r")
       = Return found
       /\ sget found "npm" = Some "/tmp/r/package.json".
Proof.
  destruct (@detect_marker_of_any_kind quiet_world "/tmp/r" directory_marker
              "package.json" "npm" (FsDir [("index.js", FsFile)])
              (or_introl eq_refl) eq_refl eq_refl eq_refl)
    as (_ & Hexists & _ & _ & _ & _ & Hyes & _).
  split; [exact Hexists|]. exact (proj2 (Hyes eq_refl)).
Defined.

(** C10 as stated fails on a symbolic link called [package.json] whose
    target is missing: it is an entry of that name directly under the root,
    [os.path.exists] says no, and detection returns the empty map.  A link
    that leads to a file is detected. *)
Lemma broken_link_is_not_detected :
  Fs.lookup broken_marker "package.json" = Some FsBroken
  /\ path_exists (on_tree quiet_world "/tmp/r" (FsDir broken_marker))
       "/tmp/r/package.json" = false
  /\ detect_package_managers (on_tree quiet_world "/tmp/r" (FsDir broken_marker))
       "/tmp/r"
     = (detection_probes "/tmp/r", Return [])
  /\ detect_package_managers (on_tree quiet_world "/tmp/r" (FsDir linked_marker))
       "/tmp/r"
     = (detection_probes "/tmp/r", Return [("npm", "/tmp/r/package.json")]).
Proof. repeat split; reflexivity. Qed.

(* ===================================================================== *)
(** * The outdated checker *)
(* ===================================================================== *)

Lemma never_exits_check_npm w temp_dir : never_exits (check_npm w temp_dir).
Proof. unfold check_npm. no_exit. Qed.

Lemma never_exits_check_pip w file_path : never_exits (check_pip w file_path).
Proof. unfold check_pip. no_exit. Qed.

Lemma never_exits_check_composer w temp_dir :
  never_exits (check_composer w temp_dir).
Proof. unfold check_composer. no_exit. Qed.

#[local] Hint Resolve never_exits_check_npm never_exits_check_pip
  never_exits_check_composer : noexit.

Lemma never_exits_check_body w temp_dir entry :
  never_exits (check_body w temp_dir entry).
Proof. unfold check_body. destruct entry as [manager file_path]. no_exit. Qed.

(** What one turn of the loop does, by the way its [try] block ends. *)
Lemma check_manager_cases w temp_dir entry :
  match check_body w temp_dir entry with
  | (t, Return _) => check_manager w temp_dir entry = (t, Return tt)
  | (t, Raise e) =>
      check_manager w temp_dir entry
      = ((t ++ [EPrint (check_error_message w (fst entry) e)])%list, Return tt)
  | (_, Exit _) => False
  end.
Proof.
  unfold check_manager.
  pose proof (@never_exits_check_body w temp_dir entry) as Hne.
  destruct (check_body w temp_dir entry) as [t [[]|e|c]];
    [reflexivity|reflexivity|exact (Hne c eq_refl)].
Qed.

Lemma check_manager_returns w temp_dir entry :
  result (check_manager w temp_dir entry) = Return tt.
Proof.
  pose proof (check_manager_cases w temp_dir entry) as H.
  destruct (check_body w temp_dir entry) as [t [[]|e|c]];
    [rewrite H; reflexivity|rewrite H; reflexivity|contradiction].
Qed.

Lemma check_body_header w temp_dir manager file_path :
  exists t, trace (check_body w temp_dir (manager, file_path))
            = EPrint (section_header manager) :: t.
Proof.
  unfold check_body, print. rewrite bind_emit. eexists. reflexivity.
Qed.

Lemma check_manager_header w temp_dir manager file_path :
  exists t, trace (check_manager w temp_dir (manager, file_path))
            = EPrint (section_header manager) :: t.
Proof.
  destruct (check_body_header w temp_dir manager file_path) as [t Ht].
  pose proof (check_manager_cases w temp_dir (manager, file_path)) as H.
  destruct (check_body w temp_dir (manager, file_path)) as [t0 [[]|e|c]];
    simpl in Ht; subst t0; [| |contradiction]; rewrite H; simpl; eauto.
Qed.

(** A loop whose turns all return runs them all. *)
Lemma for_each_all {A} (xs : list A) (body : A -> M unit) :
  (forall x, result (body x) = Return tt) ->
  for_each xs body = (flat_map (fun x => trace (body x)) xs, Return tt).
Proof.
  intros Hb. induction xs as [|x xs IH]; simpl; [reflexivity|].
  rewrite (@bind_return _ _ (body x) _ (trace (body x)) tt)
    by (rewrite <- (Hb x); apply surjective_M).
  rewrite IH. reflexivity.
Qed.

Lemma check_outdated_packages_runs_all w temp_dir package_managers :
  check_outdated_packages w temp_dir package_managers
  = (flat_map (fun entry => trace (check_manager w temp_dir entry))
              package_managers,
     Return tt).
Proof.
  unfold check_outdated_packages. apply for_each_all.
  intros x. apply check_manager_returns.
Qed.

Lemma print_package_header_events :
  print_package_header
  = ([EPrint (nl ++ table_header); EPrint table_rule], Return tt).
Proof. reflexivity. Qed.

(** A check, from what its handler does after the two header prints. *)
Lemma check_manager_of_handler w temp_dir manager file_path t o :
  (if String.eqb manager "npm" then check_npm w temp_dir
   else if String.eqb manager "pip" then check_pip w file_path
   else if String.eqb manager "composer" then check_composer w temp_dir
   else ret tt) = (t, o) ->
  never_exits (@pair (list event) (outcome unit) t o) ->
  check_manager w temp_dir (manager, file_path)
  = match o with
    | Raise e =>
        ((header_events manager ++ t
          ++ [EPrint (check_error_message w manager e)])%list, Return tt)
    | _ => ((header_events manager ++ t)%list, Return tt)
    end.
Proof.
  intros H Hne. unfold check_manager, check_body.
  rewrite bind_print, print_package_header_events.
  rewrite (@bind_return _ _ _ _ [EPrint (nl ++ table_header); EPrint table_rule]
             tt eq_refl).
  rewrite H. cbn [trace result fst snd].
  destruct o as [[]|e|c].
  - reflexivity.
  - reflexivity.
  - exfalso. exact (Hne c eq_refl).
Qed.

Lemma subprocess_run_completed w argv cwd rc out err :
  run_process w argv cwd = Completed rc out err ->
  subprocess_run w argv cwd false
  = ([ERun argv cwd],
     Return {| returncode := rc; stdout := out; stderr := err |}).
Proof. intros H. unfold subprocess_run. rewrite H. reflexivity. Qed.






(** With [npm] missing, its check fails and the check of [pip] still
    runs and prints its row. *)
Example check_outdated_packages_without_npm :
  printed (trace (check_outdated_packages no_npm_world "/tmp/r"
                    [("npm", "/tmp/r/package.json");
                     ("pip", "/tmp/r/requirements.txt")]))
  = [ nl ++ "=== NPM Dependencies ===";
      nl ++ "Package Name                             Current Version      Latest Version       Status              ";
      "----------------------------------------------------------------------------------------------------";
      nl ++ "Unexpected error checking npm packages: [Errno 2] No such file or directory: 'npm'";
      nl ++ "=== PIP Dependencies ===";
      nl ++ "Package Name                             Current Version      Latest Version       Status              ";
      "----------------------------------------------------------------------------------------------------";
      "flask                                    2.0                  3.0                  Update Available    " ].
Proof. reflexivity. Qed.

(* ===================================================================== *)
(** * The orchestrator *)
(* ===================================================================== *)

Section Orchestrator.
Variable w : World.

Lemma validate_github_url_cases url :
  (exists pair, validate_github_url w url = ([], Return pair))
  \/ (exists line, validate_github_url w url = ([EPrint line], Exit 1)).
Proof.
  unfold validate_github_url.
  destruct (urlparse_path w url) as [path|e]; simpl lift.
  - rewrite bind_ret_l.
    destruct (PyStr.split "/" (PyStr.strip (PyStr.is_char "/") path))
      as [|a [|b l]]; [right|right|left]; eexists; reflexivity.
  - right. eexists. reflexivity.
Qed.

(** Detection by the way it ends. *)
Lemma detect_returns temp_dir found :
  result (detect_package_managers w temp_dir) = Return found ->
  detect_package_managers w temp_dir = (detection_probes temp_dir, Return found).
Proof.
  intros H. rewrite (surjective_M (detect_package_managers w temp_dir)).
  rewrite detect_trace, H. reflexivity.
Qed.


(** The four ways [clone_repo] ends. *)
Lemma clone_repo_cases repo_url temp_dir :
  let argv := git_clone_argv repo_url temp_dir in
  let started :=
    [EWhich "git"; EPrint (analyzing_message repo_url); ERun argv None] in
  if which w "git" then
    match run_process w argv None with
    | Completed rc out err =>
        if Z.eqb rc 0 then
          clone_repo w repo_url temp_dir = (started, Return tt)
        else
          clone_repo w repo_url temp_dir
          = ((started
              ++ [EPrint ("Error cloning repository: "
                          ++ exn_str w (CalledProcessError rc argv out err))])%list,
             Exit 1)
    | Failed e =>
        if is_CalledProcessError e then
          clone_repo w repo_url temp_dir
          = ((started ++ [EPrint ("Error cloning repository: " ++ exn_str w e)])%list,
             Exit 1)
        else clone_repo w repo_url temp_dir = (started, Raise e)
    end
  else
    clone_repo w repo_url temp_dir
    = ([EWhich "git";
        EPrint "Error: Git is not installed or not found in system PATH.";
        EPrint "Please install Git from https://git-scm.com/downloads and ensure it's added to your system PATH."],
       Exit 1).
Proof.
  intros argv started. subst argv started.
  unfold clone_repo, is_git_available, analyzing_message, try_except_cpe,
    subprocess_run.
  destruct (which w "git"); [|reflexivity].
  destruct (run_process w (git_clone_argv repo_url temp_dir) None)
    as [rc out err|e].
  - destruct (Z.eqb rc 0); reflexivity.
  - destruct e; reflexivity.
Qed.


Lemma clone_repo_return_trace repo_url temp_dir :
  result (clone_repo w repo_url temp_dir) = Return tt ->
  clone_repo w repo_url temp_dir
  = ([EWhich "git"; EPrint (analyzing_message repo_url);
      ERun (git_clone_argv repo_url temp_dir) None], Return tt).
Proof.
  pose proof (clone_repo_cases repo_url temp_dir) as H. cbv zeta in H.
  destruct (which w "git");
    [destruct (run_process w (git_clone_argv repo_url temp_dir) None)
       as [rc out err|e];
     [destruct (Z.eqb rc 0)|destruct (is_CalledProcessError e)]|];
    rewrite H; simpl; try congruence.
Qed.

(** [analyze] by the way the clone ends and by what detection finds. *)
Lemma analyze_stops_with_clone repo_url temp_dir t :
  (forall e, clone_repo w repo_url temp_dir = (t, Raise e) ->
             analyze w repo_url temp_dir = (t, Raise e))
  /\ (forall c, clone_repo w repo_url temp_dir = (t, Exit c) ->
                analyze w repo_url temp_dir = (t, Exit c)).
Proof.
  split; intros x H; unfold analyze; rewrite H; reflexivity.
Qed.




End Orchestrator.

Section Main.
Variable w : World.

Lemma main_wrong_argument_count argv :
  List.length argv <> 2 ->
  main w argv
  = ([EPrint "Usage: python check_outdated.py <GitHub-repo-url>";
      EPrint "Example: python check_outdated.py https://github.com/username/repo"],
     Exit 1).
Proof.
  intros H. unfold main.
  destruct (Nat.eqb_spec (List.length argv) 2) as [Heq|_]; [congruence|].
  reflexivity.
Qed.

Lemma main_runs prog url dir names :
  validate_github_url w url = ([], Return names) ->
  mkdtemp w = inl dir ->
  main w [prog; url]
  = (EMkdtemp :: (trace (analyze_or_exit w url dir) ++ [ECleanup dir])%list,
     result (analyze_or_exit w url dir)).
Proof.
  intros Hv Hd. unfold main. cbn [List.length Nat.eqb negb].
  rewrite bind_ret_l. unfold py_index. cbn [nth_error].
  rewrite bind_ret_l, Hv. change (@Datatypes.pair (list event) _ [] (Return names)) with (ret names).
  rewrite bind_ret_l, bind_emit, Hd. simpl lift.
  rewrite bind_ret_l. unfold finally.
  destruct (analyze_or_exit w url dir); reflexivity.
Qed.

Lemma main_without_directory prog url names e :
  validate_github_url w url = ([], Return names) ->
  mkdtemp w = inr e ->
  main w [prog; url] = ([EMkdtemp], Raise e).
Proof.
  intros Hv Hd. unfold main. cbn [List.length Nat.eqb negb].
  rewrite bind_ret_l. unfold py_index. cbn [nth_error].
  rewrite bind_ret_l, Hv. change (@Datatypes.pair (list event) _ [] (Return names)) with (ret names).
  rewrite bind_ret_l, bind_emit, Hd. reflexivity.
Qed.

Lemma validate_returns_quietly url :
  returns (validate_github_url w url) ->
  exists names, validate_github_url w url = ([], Return names).
Proof.
  intros [names H].
  destruct (validate_github_url_cases w url) as [[p Hp]|[l Hl]].
  - eauto.
  - rewrite Hl in H. discriminate.
Qed.

Lemma analyze_or_exit_cases url dir :
  match analyze w url dir with
  | (t, Return _) => analyze_or_exit w url dir = (t, Return tt)
  | (t, Raise e) =>
      analyze_or_exit w url dir
      = ((t ++ [EPrint (nl ++ cross_mark ++ " Error analyzing repository: "
                        ++ exn_str w e)])%list, Exit 1)
  | (t, Exit c) => analyze_or_exit w url dir = (t, Exit c)
  end.
Proof.
  unfold analyze_or_exit.
  destruct (analyze w url dir) as [t [[]|e|c]]; reflexivity.
Qed.




End Main.


(** The run of the quiet world, whose clone has no marker file. *)
Example main_nothing_to_do :
  main quiet_world ["app.py"; "https://github.com/owner/repo"]
  = (([EMkdtemp; EWhich "git";
       EPrint (analyzing_message "https://github.com/owner/repo");
       ERun (git_clone_argv "https://github.com/owner/repo" "/tmp/tmpq1w2e3r4") None]
      ++ detection_probes "/tmp/tmpq1w2e3r4"
      ++ [EPrint no_dependency_files_message; ECleanup "/tmp/tmpq1w2e3r4"])%list,
     Exit 0).
Proof. reflexivity. Qed.

(** C9 (as the code has it).  When [git] is there and the clone ends with
    a status other than 0, [main] does exactly this: it makes the temporary
    directory, looks [git] up, prints the analyzing line, runs the clone,
    prints "Error cloning repository: " followed by the text of the
    [CalledProcessError], removes the directory and exits with 1.  No probe
    of detection and no other subprocess is made.  The text of the error is
    built from the command and its status alone, whatever the clone wrote to
    its output and error streams; for a positive status it is "Command
    '[...]' returned non-zero exit status N.". *)
Theorem clone_failure_is_fatal (w : World) (prog url dir : string) (rc : Z)
    (out err : string) :
  returns (validate_github_url w url) ->
  mkdtemp w = inl dir ->
  which w "git" = true ->
  run_process w (git_clone_argv url dir) None = Completed rc out err ->
  rc <> 0%Z ->
  main w [prog; url]
  = ([EMkdtemp; EWhich "git"; EPrint (analyzing_message url);
      ERun (git_clone_argv url dir) None;
      EPrint ("Error cloning repository: "
              ++ exn_str w (CalledProcessError rc (git_clone_argv url dir) "" ""));
      ECleanup dir],
     Exit 1)
  /\ ((0 < rc)%Z ->
      exn_str w (CalledProcessError rc (git_clone_argv url dir) "" "")
      = "Command '" ++ PyRepr.of_list (git_clone_argv url dir)
        ++ "' returned non-zero exit status " ++ PyStr.of_Z rc ++ ".").
Proof.
  intros Hv Hd Hgit Hrun Hrc. split.
  - destruct (@validate_returns_quietly w url Hv) as [names Hnames].
    rewrite (@main_runs w prog url dir names Hnames Hd).
    pose proof (@clone_repo_cases w url dir) as Hclone. cbv zeta in Hclone.
    rewrite Hgit, Hrun in Hclone.
    destruct (Z.eqb_spec rc 0) as [|_]; [contradiction|].
    pose proof (@analyze_or_exit_cases w url dir) as Hcases.
    rewrite (proj2 (@analyze_stops_with_clone w url dir _) 1%Z Hclone)
      in Hcases.
    rewrite Hcases. reflexivity.
  - intros Hpos. unfold exn_str.
    destruct (Z.ltb_spec rc 0) as [Hneg|_]; [lia|reflexivity].
Qed.

(** The theorem at a clone that fails with status 128. *)
Lemma clone_failure_is_fatal_witness :
  main failing_clone_world ["app.py"; "https://github.com/owner/missing"]
  = ([EMkdtemp; EWhich "git";
      EPrint (analyzing_message "https://github.com/owner/missing");
      ERun (git_clone_argv "https://github.com/owner/missing" "/tmp/tmpq1w2e3r4") None;
      EPrint "Error cloning repository: Command '['git', 'clone', '--depth', '1', 'https://github.com/owner/missing', '/tmp/tmpq1w2e3r4']' returned non-zero exit status 128.";
      ECleanup "/tmp/tmpq1w2e3r4"],
     Exit 1).
Proof.
  apply (proj1 (@clone_failure_is_fatal failing_clone_world "app.py"
                  "https://github.com/owner/missing" "/tmp/tmpq1w2e3r4"
                  128 "" clone_stderr
                  (ex_intro _ ("owner", "missing") eq_refl)
                  eq_refl eq_refl eq_refl ltac:(discriminate))).
Defined.

(** C9 as stated fails at that clone: it wrote "fatal: repository ... not
    found" to its error stream, and no line the program prints has that
    text, or even its first word. *)
Lemma clone_failure_hides_stderr :
  run_process failing_clone_world
    (git_clone_argv "https://github.com/owner/missing" "/tmp/tmpq1w2e3r4") None
  = Completed 128 "" "fatal: repository 'https://github.com/owner/missing/' not found"
  /\ printed (trace (main failing_clone_world
                       ["app.py"; "https://github.com/owner/missing"]))
     = [ analyzing_message "https://github.com/owner/missing";
         "Error cloning repository: Command '['git', 'clone', '--depth', '1', 'https://github.com/owner/missing', '/tmp/tmpq1w2e3r4']' returned non-zero exit status 128." ]
  /\ existsb (PyStr.contains "fatal")
       (printed (trace (main failing_clone_world
                          ["app.py"; "https://github.com/owner/missing"])))
     = false.
Proof. repeat split; reflexivity. Qed.

(* ===================================================================== *)
(** * Further properties of the script *)
(* ===================================================================== *)

(** ** The ways [main] ends early *)

(** [validate_github_url] never raises and prints at most one line: when
    [urlparse] raises, it prints "Error parsing GitHub URL: " with the text
    of the exception and exits with 1; when the path has fewer than two
    pieces, it prints the same with "Invalid GitHub repository URL format"
    and exits with 1; otherwise it returns a pair and prints nothing. *)
Theorem validate_github_url_outcomes (w : World) (url : string) :
  match urlparse_path w url with
  | inr e =>
      validate_github_url w url
      = ([EPrint ("Error parsing GitHub URL: " ++ exn_str w e)], Exit 1)
  | inl path =>
      match PyStr.split "/" (PyStr.strip (PyStr.is_char "/"%char) path) with
      | owner :: repo :: _ =>
          validate_github_url w url = ([], Return (owner, repo))
      | _ =>
          validate_github_url w url
          = ([EPrint "Error parsing GitHub URL: Invalid GitHub repository URL format"],
             Exit 1)
      end
  end.
Proof.
  unfold validate_github_url.
  destruct (urlparse_path w url) as [path|e]; simpl lift; [|reflexivity].
  rewrite bind_ret_l.
  destruct (PyStr.split "/" (PyStr.strip (PyStr.is_char "/") path))
    as [|a [|b l]]; reflexivity.
Qed.

(** When [git] is not on the search path, [main] makes the temporary
    directory, looks [git] up, prints the two lines of advice, removes the
    directory and exits with 1: no subprocess is started and the
    "Analyzing" line is not printed. *)
Theorem main_without_git (w : World) (prog url dir : string) :
  returns (validate_github_url w url) ->
  mkdtemp w = inl dir ->
  which w "git" = false ->
  main w [prog; url]
  = ([EMkdtemp; EWhich "git";
      EPrint "Error: Git is not installed or not found in system PATH.";
      EPrint "Please install Git from https://git-scm.com/downloads and ensure it's added to your system PATH.";
      ECleanup dir],
     Exit 1).
Proof.
  intros Hv Hd Hgit.
  destruct (@validate_returns_quietly w url Hv) as [names Hnames].
  rewrite (@main_runs w prog url dir names Hnames Hd).
  pose proof (@clone_repo_cases w url dir) as Hclone. cbv zeta in Hclone.
  rewrite Hgit in Hclone.
  pose proof (@analyze_or_exit_cases w url dir) as Hcases.
  rewrite (proj2 (@analyze_stops_with_clone w url dir _) 1%Z Hclone) in Hcases.
  rewrite Hcases. reflexivity.
Qed.

Lemma main_without_git_witness :
  main (with_git quiet_world false) ["app.py"; "https://github.com/owner/repo"]
  = ([EMkdtemp; EWhich "git";
      EPrint "Error: Git is not installed or not found in system PATH.";
      EPrint "Please install Git from https://git-scm.com/downloads and ensure it's added to your system PATH.";
      ECleanup "/tmp/tmpq1w2e3r4"],
     Exit 1).
Proof.
  apply (@main_without_git (with_git quiet_world false) "app.py"
           "https://github.com/owner/repo" "/tmp/tmpq1w2e3r4"
           (ex_intro _ ("owner", "repo") eq_refl) eq_refl eq_refl).
Defined.

(** When starting the clone raises an exception other than
    [CalledProcessError] (the executable cannot be run, say), [clone_repo]
    does not handle it; the handler of [main] prints it after "Error
    analyzing repository: ", the directory is removed and the exit status
    is 1.  Nothing is probed or checked. *)
Theorem main_when_clone_cannot_start (w : World) (prog url dir : string)
    (e : exn) :
  returns (validate_github_url w url) ->
  mkdtemp w = inl dir ->
  which w "git" = true ->
  run_process w (git_clone_argv url dir) None = Failed e ->
  is_CalledProcessError e = false ->
  main w [prog; url]
  = ([EMkdtemp; EWhich "git"; EPrint (analyzing_message url);
      ERun (git_clone_argv url dir) None;
      EPrint (nl ++ cross_mark ++ " Error analyzing repository: "
              ++ exn_str w e);
      ECleanup dir],
     Exit 1).
Proof.
  intros Hv Hd Hgit Hrun He.
  destruct (@validate_returns_quietly w url Hv) as [names Hnames].
  rewrite (@main_runs w prog url dir names Hnames Hd).
  pose proof (@clone_repo_cases w url dir) as Hclone. cbv zeta in Hclone.
  rewrite Hgit, Hrun, He in Hclone.
  pose proof (@analyze_or_exit_cases w url dir) as Hcases.
  rewrite (proj1 (@analyze_stops_with_clone w url dir _) e Hclone) in Hcases.
  rewrite Hcases. reflexivity.
Qed.

Lemma main_when_clone_cannot_start_witness :
  main broken_git_world ["app.py"; "https://github.com/owner/repo"]
  = ([EMkdtemp; EWhich "git";
      EPrint (analyzing_message "https://github.com/owner/repo");
      ERun (git_clone_argv "https://github.com/owner/repo" "/tmp/tmpq1w2e3r4") None;
      EPrint (nl ++ cross_mark
              ++ " Error analyzing repository: [Errno 13] Permission denied: 'git'");
      ECleanup "/tmp/tmpq1w2e3r4"],
     Exit 1).
Proof.
  apply (@main_when_clone_cannot_start broken_git_world "app.py"
           "https://github.com/owner/repo" "/tmp/tmpq1w2e3r4" permission_denied
           (ex_intro _ ("owner", "repo") eq_refl) eq_refl eq_refl eq_refl
           eq_refl).
Defined.

(** An exception leaves [main] only when the temporary directory cannot
    be made: it is the exception of that call, the arguments and the URL
    were accepted, and nothing else has happened.  Every exception raised
    once the directory exists ends in an exit with status 1 instead. *)
Theorem main_raises_only_without_directory (w : World) (argv : list string)
    (e : exn) :
  result (main w argv) = Raise e ->
  exists prog url,
    argv = [prog; url]
    /\ returns (validate_github_url w url)
    /\ mkdtemp w = inr e
    /\ main w argv = ([EMkdtemp], Raise e).
Proof.
  intros H.
  destruct (Nat.eq_dec (List.length argv) 2) as [Hlen|Hlen].
  - destruct argv as [|prog [|url [|x rest]]]; try discriminate.
    exists prog, url. split; [reflexivity|].
    destruct (@validate_github_url_cases w url) as [[names Hv]|[line Hv]].
    + split; [exists names; rewrite Hv; reflexivity|].
      destruct (mkdtemp w) as [dir|e'] eqn:Hd.
      * rewrite (@main_runs w prog url dir names Hv Hd) in H.
        cbn [result snd] in H.
        pose proof (@analyze_or_exit_cases w url dir) as Hcases.
        destruct (analyze w url dir) as [t [[]|e''|c]];
          rewrite Hcases in H; discriminate.
      * rewrite (@main_without_directory w prog url names e' Hv Hd) in H.
        cbn [result snd] in H. inversion H; subst e'.
        split; [reflexivity|].
        apply (@main_without_directory w prog url names e Hv Hd).
    + rewrite (@main_stops_at_url w prog url _ _ Hv) in H. discriminate.
  - rewrite (@main_wrong_argument_count w argv Hlen) in H. discriminate.
Qed.

Lemma main_raises_only_without_directory_witness :
  exists prog url,
    ["app.py"; "https://github.com/owner/repo"] = [prog; url]
    /\ returns (validate_github_url (with_mkdtemp quiet_world (inr no_space_left)) url)
    /\ mkdtemp (with_mkdtemp quiet_world (inr no_space_left)) = inr no_space_left
    /\ main (with_mkdtemp quiet_world (inr no_space_left))
         ["app.py"; "https://github.com/owner/repo"]
       = ([EMkdtemp], Raise no_space_left).
Proof.
  apply (@main_raises_only_without_directory
           (with_mkdtemp quiet_world (inr no_space_left))
           ["app.py"; "https://github.com/owner/repo"] no_space_left eq_refl).
Defined.

(** ** The handlers of the outdated checker *)

Lemma print_package_info_strings name current latest :
  print_package_info (VStr name) (VStr current) (VStr latest)
  = ([EPrint (package_row name current latest)], Return tt).
Proof.
  unfold print_package_info, package_status, display_version, package_row,
    shown_version.
  cbn [py_eq].
  destruct (String.eqb current latest), (String.eqb current "N/A"),
    (String.eqb latest "N/A"); reflexivity.
Qed.

Lemma for_each_map {A B} (f : A -> option B) (body : A -> M unit)
    (ev : B -> event) :
  (forall x y, f x = Some y -> body x = ([ev y], Return tt)) ->
  forall xs ys, map f xs = map Some ys ->
  for_each xs body = (map ev ys, Return tt).
Proof.
  intros Hb. induction xs as [|x xs IH]; intros [|y ys] H; simpl in H;
    try discriminate; [reflexivity|].
  inversion H as [[Hx Hxs]]. simpl.
  rewrite (Hb x y Hx), (IH ys Hxs). reflexivity.
Qed.

Lemma for_each_stops {A B} (f : A -> option B) (body : A -> M unit)
    (ev : B -> event) :
  (forall x y, f x = Some y -> body x = ([ev y], Return tt)) ->
  forall good ys bad rest t e,
    map f good = map Some ys ->
    body bad = (t, Raise e) ->
    for_each (good ++ bad :: rest)%list body = ((map ev ys ++ t)%list, Raise e).
Proof.
  intros Hb. induction good as [|x good IH]; intros [|y ys] bad rest t e H Hbad;
    simpl in H; try discriminate.
  - simpl. rewrite Hbad. reflexivity.
  - inversion H as [[Hx Hxs]]. simpl.
    rewrite (Hb x y Hx), (IH ys bad rest t e Hxs Hbad). reflexivity.
Qed.

Lemma py_get_string_field d k default s :
  string_field d k default = Some s ->
  py_get (VDict d) k (VStr default) = ret (VStr s).
Proof.
  unfold string_field, py_get.
  destruct (kget d (KStr k)) as [[| | |x| | |]|]; intros H; inversion H;
    reflexivity.
Qed.

Lemma py_getitem_string_item d k s :
  string_item d k = Some s -> py_getitem (VDict d) k = ret (VStr s).
Proof.
  unfold string_item, py_getitem.
  destruct (kget d (KStr k)) as [[| | |x| | |]|]; intros H; inversion H;
    reflexivity.
Qed.

Lemma npm_item_row (item : pykey * pyval) row :
  npm_entry item = Some row ->
  (let (pkg, info) := item in
   current <- py_get info "current" (VStr "N/A") ;;
   latest <- py_get info "latest" (VStr "N/A") ;;
   print_package_info (val_of_key pkg) current latest)
  = ([row_event row], Return tt).
Proof.
  destruct item as [pkg info]. unfold npm_entry.
  destruct pkg as [| | |name|]; try discriminate.
  destruct info as [| | | | |d|]; try discriminate.
  destruct (string_field d "current" "N/A") as [current|] eqn:Hc;
    [|discriminate].
  destruct (string_field d "latest" "N/A") as [latest|] eqn:Hl;
    [|discriminate].
  intros H; inversion H; subst row.
  rewrite (py_get_string_field _ _ _ Hc), bind_ret_l.
  rewrite (py_get_string_field _ _ _ Hl), bind_ret_l.
  apply print_package_info_strings.
Qed.

Lemma composer_item_row (pkg : pyval) row :
  composer_entry pkg = Some row ->
  (name <- py_get pkg "name" (VStr "") ;;
   current <- py_get pkg "version" (VStr "") ;;
   latest <- py_get pkg "latest" (VStr "") ;;
   print_package_info name current latest)
  = ([row_event row], Return tt).
Proof.
  unfold composer_entry. destruct pkg as [| | | | |d|]; try discriminate.
  destruct (string_field d "name" "") as [name|] eqn:Hn; [|discriminate].
  destruct (string_field d "version" "") as [current|] eqn:Hc; [|discriminate].
  destruct (string_field d "latest" "") as [latest|] eqn:Hl; [|discriminate].
  intros H; inversion H; subst row.
  rewrite (py_get_string_field _ _ _ Hn), bind_ret_l.
  rewrite (py_get_string_field _ _ _ Hc), bind_ret_l.
  rewrite (py_get_string_field _ _ _ Hl), bind_ret_l.
  apply print_package_info_strings.
Qed.

Lemma pip_item_row (pkg : pyval) row :
  pip_entry pkg = Some row ->
  (name <- py_getitem pkg "name" ;;
   current <- py_getitem pkg "version" ;;
   latest <- py_getitem pkg "latest_version" ;;
   print_package_info name current latest)
  = ([row_event row], Return tt).
Proof.
  unfold pip_entry. destruct pkg as [| | | | |d|]; try discriminate.
  destruct (string_item d "name") as [name|] eqn:Hn; [|discriminate].
  destruct (string_item d "version") as [current|] eqn:Hc; [|discriminate].
  destruct (string_item d "latest_version") as [latest|] eqn:Hl;
    [|discriminate].
  intros H; inversion H; subst row.
  rewrite (py_getitem_string_item _ _ Hn), bind_ret_l.
  rewrite (py_getitem_string_item _ _ Hc), bind_ret_l.
  rewrite (py_getitem_string_item _ _ Hl), bind_ret_l.
  apply print_package_info_strings.
Qed.

Lemma pip_item_missing d key :
  pip_missing_key d = Some key ->
  (name <- py_getitem (VDict d) "name" ;;
   current <- py_getitem (VDict d) "version" ;;
   latest <- py_getitem (VDict d) "latest_version" ;;
   print_package_info name current latest)
  = ([], Raise (PyException "KeyError" (PyRepr.of_str key))).
Proof.
  unfold pip_missing_key, py_getitem.
  destruct (kget d (KStr "name")) as [name|];
    [|intros H; inversion H; reflexivity].
  rewrite bind_ret_l.
  destruct (kget d (KStr "version")) as [current|];
    [|intros H; inversion H; reflexivity].
  rewrite bind_ret_l.
  destruct (kget d (KStr "latest_version")) as [latest|];
    [discriminate|intros H; inversion H; reflexivity].
Qed.

(** A detected manager other than [npm], [pip] and [composer] gets its
    section header and the table header, and nothing else: no subprocess is
    started and no error is reported. *)
Theorem check_manager_without_handler (w : World)
    (temp_dir manager file_path : string) :
  manager <> "npm" -> manager <> "pip" -> manager <> "composer" ->
  check_manager w temp_dir (manager, file_path)
  = (header_events manager, Return tt).
Proof.
  intros Hn Hp Hc.
  rewrite (@check_manager_of_handler w temp_dir manager file_path [] (Return tt)).
  - rewrite app_nil_r. reflexivity.
  - destruct (String.eqb_spec manager "npm"); [contradiction|].
    destruct (String.eqb_spec manager "pip"); [contradiction|].
    destruct (String.eqb_spec manager "composer"); [contradiction|].
    reflexivity.
  - intros c; discriminate.
Qed.

Lemma check_manager_without_handler_witness :
  check_manager quiet_world "/tmp/r" ("maven", "/tmp/r/pom.xml")
  = (header_events "maven", Return tt).
Proof.
  apply (@check_manager_without_handler quiet_world "/tmp/r" "maven"
           "/tmp/r/pom.xml");
    discriminate.
Defined.

(** The [npm] handler looks at the standard output of [npm outdated] only:
    with the same output, any exit status and any error text give the same
    run as status 0 and no error text. *)
Theorem check_npm_ignores_status (w : World) (temp_dir : string) (rc : Z)
    (out err : string) :
  run_process w ["npm"; "outdated"; "--json"] (Some temp_dir)
  = Completed rc out err ->
  check_npm w temp_dir
  = check_npm (with_process w (fun _ _ => Completed 0 out "")) temp_dir.
Proof.
  intros H. unfold check_npm, subprocess_run.
  cbn [run_process with_process json_loads]. rewrite H. reflexivity.
Qed.

Lemma check_npm_ignores_status_witness :
  check_npm lodash_world "/tmp/r"
  = check_npm (with_process lodash_world (fun _ _ => Completed 0 lodash_text ""))
      "/tmp/r".
Proof.
  apply (@check_npm_ignores_status lodash_world "/tmp/r" 1 lodash_text ""
           eq_refl).
Defined.

Lemma check_npm_rows w temp_dir rc out err items rows :
  run_process w ["npm"; "outdated"; "--json"] (Some temp_dir)
  = Completed rc out err ->
  PyStr.is_empty (PyStr.strip_ws out) = false ->
  json_loads w out = inl (VDict items) ->
  map npm_entry items = map Some rows ->
  check_npm w temp_dir
  = (ERun ["npm"; "outdated"; "--json"] (Some temp_dir) :: map row_event rows,
     Return tt).
Proof.
  intros Hrun Hout Hjson Hrows. unfold check_npm.
  rewrite (bind_return _ (subprocess_run_completed _ _ _ Hrun)).
  cbn [stdout]. rewrite Hout, Hjson. cbn [negb lift].
  rewrite bind_ret_l. cbn [py_items]. rewrite bind_ret_l.
  rewrite (@for_each_map _ _ npm_entry _ row_event
             (fun x y H => npm_item_row x H) items rows Hrows).
  reflexivity.
Qed.

(** When [npm outdated] prints a JSON object whose entries are objects
    with string versions, the check prints the headers, runs the command in
    the clone, prints one row per package in the order of the object, and
    returns; the exit status of the command does not matter.  A missing
    [current] or [latest] is taken as "N/A" and displayed as "-". *)
Theorem check_manager_npm_rows (w : World) (temp_dir file_path : string)
    (rc : Z) (out err : string) (items : list (pykey * pyval))
    (rows : list (string * string * string)) :
  run_process w ["npm"; "outdated"; "--json"] (Some temp_dir)
  = Completed rc out err ->
  PyStr.is_empty (PyStr.strip_ws out) = false ->
  json_loads w out = inl (VDict items) ->
  map npm_entry items = map Some rows ->
  check_manager w temp_dir ("npm", file_path)
  = ((header_events "npm"
      ++ ERun ["npm"; "outdated"; "--json"] (Some temp_dir)
         :: map row_event rows)%list,
     Return tt).
Proof.
  intros Hrun Hout Hjson Hrows.
  apply (@check_manager_of_handler w temp_dir "npm" file_path _ (Return tt)).
  - cbn [String.eqb Ascii.eqb Bool.eqb].
    apply (@check_npm_rows w temp_dir rc out err items rows Hrun Hout Hjson Hrows).
  - intros c; discriminate.
Qed.

Lemma check_manager_npm_rows_witness :
  printed (trace (check_manager lodash_world "/tmp/r" ("npm", "/tmp/r/package.json")))
  = [ nl ++ "=== NPM Dependencies ===";
      nl ++ table_header;
      table_rule;
      "lodash                                   4.17.15              4.17.21              Update Available    ";
      "left-pad                                 -                    1.3.0                Update Available    " ].
Proof.
  rewrite (@check_manager_npm_rows lodash_world "/tmp/r" "/tmp/r/package.json"
             1 lodash_text "" lodash_answer
             [("lodash", "4.17.15", "4.17.21"); ("left-pad", "N/A", "1.3.0")]
             eq_refl eq_refl eq_refl eq_refl).
  reflexivity.
Defined.

(** When what [npm outdated] prints is not JSON, the check prints the
    headers, runs the command, prints the error of the decoder after
    "Unexpected error checking npm packages: " (or "Error checking", for a
    [CalledProcessError]) and returns. *)
Theorem check_manager_npm_not_json (w : World) (temp_dir file_path : string)
    (rc : Z) (out err : string) (e : exn) :
  run_process w ["npm"; "outdated"; "--json"] (Some temp_dir)
  = Completed rc out err ->
  PyStr.is_empty (PyStr.strip_ws out) = false ->
  json_loads w out = inr e ->
  check_manager w temp_dir ("npm", file_path)
  = ((header_events "npm"
      ++ [ERun ["npm"; "outdated"; "--json"] (Some temp_dir);
          EPrint (check_error_message w "npm" e)])%list,
     Return tt).
Proof.
  intros Hrun Hout Hjson.
  apply (@check_manager_of_handler w temp_dir "npm" file_path
           [ERun ["npm"; "outdated"; "--json"] (Some temp_dir)] (Raise e)).
  - cbn [String.eqb Ascii.eqb Bool.eqb]. unfold check_npm.
    rewrite (bind_return _ (subprocess_run_completed _ _ _ Hrun)).
    cbn [stdout]. rewrite Hout, Hjson. reflexivity.
  - intros c; discriminate.
Qed.

Lemma check_manager_npm_not_json_witness :
  printed (trace (check_manager npm_garbage_world "/tmp/r"
                    ("npm", "/tmp/r/package.json")))
  = [ nl ++ "=== NPM Dependencies ===";
      nl ++ table_header;
      table_rule;
      nl ++ "Unexpected error checking npm packages: Expecting value: line 1 column 1 (char 0)" ].
Proof.
  rewrite (@check_manager_npm_not_json npm_garbage_world "/tmp/r"
             "/tmp/r/package.json" 1 "npm ERR! code ENOLOCK" ""
             (PyException "JSONDecodeError"
                "Expecting value: line 1 column 1 (char 0)")
             eq_refl eq_refl eq_refl).
  reflexivity.
Defined.

(** The [pip] handler runs [pip install -r] on the manifest and then
    [pip list --outdated], both where the program itself runs, and ignores
    the status of both.  When an element of the list lacks one of the keys
    [name], [version] and [latest_version], the rows of the elements before
    it are printed, then "Unexpected error checking pip packages: " with the
    quoted key; the elements after it are dropped. *)
Theorem check_manager_pip_missing_key (w : World) (temp_dir file_path : string)
    (rc1 rc2 : Z) (out1 err1 out err : string) (good rest : list pyval)
    (bad : PyDict.t pykey pyval) (rows : list (string * string * string))
    (key : string) :
  run_process w ["pip"; "install"; "-r"; file_path] None
  = Completed rc1 out1 err1 ->
  run_process w ["pip"; "list"; "--outdated"; "--format=json"] None
  = Completed rc2 out err ->
  PyStr.is_empty (PyStr.strip_ws out) = false ->
  json_loads w out = inl (VList (good ++ VDict bad :: rest)) ->
  map pip_entry good = map Some rows ->
  pip_missing_key bad = Some key ->
  check_manager w temp_dir ("pip", file_path)
  = ((header_events "pip"
      ++ [ERun ["pip"; "install"; "-r"; file_path] None;
          ERun ["pip"; "list"; "--outdated"; "--format=json"] None]
      ++ map row_event rows
      ++ [EPrint (nl ++ "Unexpected error checking pip packages: "
                  ++ PyRepr.of_str key)])%list,
     Return tt).
Proof.
  intros Hrun1 Hrun2 Hout Hjson Hrows Hkey.
  rewrite (@check_manager_of_handler w temp_dir "pip" file_path
             ([ERun ["pip"; "install"; "-r"; file_path] None;
               ERun ["pip"; "list"; "--outdated"; "--format=json"] None]
              ++ map row_event rows)%list
             (Raise (PyException "KeyError" (PyRepr.of_str key)))).
  - rewrite <- !app_assoc. reflexivity.
  - cbn [String.eqb Ascii.eqb Bool.eqb]. unfold check_pip.
    rewrite (bind_return _ (subprocess_run_completed _ _ _ Hrun1)).
    rewrite (bind_return _ (subprocess_run_completed _ _ _ Hrun2)).
    cbn [trace result fst snd stdout]. rewrite Hout, Hjson. cbn [negb lift].
    rewrite bind_ret_l. cbn [py_iter]. rewrite bind_ret_l.
    rewrite (@for_each_stops _ _ pip_entry _ row_event
               (fun x y H => pip_item_row x H) good rows (VDict bad) rest
               [] _ Hrows (pip_item_missing _ Hkey)).
    rewrite app_nil_r. reflexivity.
  - intros c; discriminate.
Qed.

Lemma check_manager_pip_missing_key_witness :
  printed (trace (check_manager pip_gap_world "/tmp/r"
                    ("pip", "/tmp/r/requirements.txt")))
  = [ nl ++ "=== PIP Dependencies ===";
      nl ++ table_header;
      table_rule;
      "flask                                    2.0                  3.0                  Update Available    ";
      nl ++ "Unexpected error checking pip packages: 'latest_version'" ].
Proof.
  rewrite (@check_manager_pip_missing_key pip_gap_world "/tmp/r"
             "/tmp/r/requirements.txt" 1 0 "" "ERROR: No matching distribution"
             pip_gap_text "" [pip_complete "flask" "2.0" "3.0"]
             [pip_complete "idna" "2.8" "3.7"] pip_gap_entry
             [("flask", "2.0", "3.0")] "latest_version"
             eq_refl eq_refl eq_refl eq_refl eq_refl eq_refl).
  reflexivity.
Defined.

(** When [composer outdated] prints a JSON object, the check prints one
    row per element of its [installed] list and returns; an object without
    [installed] gives no row and no error, and a missing [name], [version]
    or [latest] of an element is taken as the empty string. *)
Theorem check_manager_composer_rows (w : World) (temp_dir file_path : string)
    (rc : Z) (out err : string) (d : PyDict.t pykey pyval)
    (pkgs : list pyval) (rows : list (string * string * string)) :
  run_process w ["composer"; "outdated"; "--direct"; "--format=json"]
    (Some temp_dir) = Completed rc out err ->
  PyStr.is_empty (PyStr.strip_ws out) = false ->
  json_loads w out = inl (VDict d) ->
  installed_list d = Some pkgs ->
  map composer_entry pkgs = map Some rows ->
  check_manager w temp_dir ("composer", file_path)
  = ((header_events "composer"
      ++ ERun ["composer"; "outdated"; "--direct"; "--format=json"]
           (Some temp_dir)
         :: map row_event rows)%list,
     Return tt).
Proof.
  intros Hrun Hout Hjson Hinst Hrows.
  apply (@check_manager_of_handler w temp_dir "composer" file_path _ (Return tt)).
  - cbn [String.eqb Ascii.eqb Bool.eqb]. unfold check_composer.
    rewrite (bind_return _ (subprocess_run_completed _ _ _ Hrun)).
    cbn [stdout]. rewrite Hout, Hjson. cbn [negb lift].
    rewrite bind_ret_l.
    assert (Hget : py_get (VDict d) "installed" (VList []) = ret (VList pkgs)).
    { unfold installed_list in Hinst. unfold py_get.
      destruct (kget d (KStr "installed")) as [[| | | |l| |]|];
        inversion Hinst; reflexivity. }
    rewrite Hget, bind_ret_l. cbn [py_iter]. rewrite bind_ret_l.
    rewrite (@for_each_map _ _ composer_entry _ row_event
               (fun x y H => composer_item_row x H) pkgs rows Hrows).
    reflexivity.
  - intros c; discriminate.
Qed.

Lemma check_manager_composer_rows_witness :
  printed (trace (check_manager composer_world "/tmp/r"
                    ("composer", "/tmp/r/composer.json")))
  = [ nl ++ "=== COMPOSER Dependencies ===";
      nl ++ table_header;
      table_rule;
      "monolog/monolog                                                                    Up to date          " ].
Proof.
  rewrite (@check_manager_composer_rows composer_world "/tmp/r"
             "/tmp/r/composer.json" 0 composer_text ""
             [ (KStr "installed",
                VList [VDict [(KStr "name", VStr "monolog/monolog")]]) ]
             [VDict [(KStr "name", VStr "monolog/monolog")]]
             [("monolog/monolog", "", "")]
             eq_refl eq_refl eq_refl eq_refl eq_refl).
  reflexivity.
Defined.

(** ** The rows of the table *)


(** A version that [json.loads] read as the number 1.5. *)
Example print_package_info_float :
  print_package_info (VStr "left-pad") (VFloat one_and_a_half) (VStr "1.5")
  = ([EPrint "left-pad                                 1.5                  1.5                  Update Available    "],
     Return tt).
Proof. reflexivity. Qed.

Lemma repeat_char_length c n : String.length (PyStr.repeat_char c n) = n.
Proof. induction n; simpl; congruence. Qed.

Lemma ljust_length w s :
  String.length (PyStr.ljust w s) = Nat.max w (String.length s).
Proof.
  unfold PyStr.ljust.
  rewrite PyStrFacts.append_length, repeat_char_length. lia.
Qed.

Lemma shown_version_length v :
  String.length (shown_version v) <= String.length v.
Proof.
  unfold shown_version. destruct (String.eqb_spec v "N/A") as [->|_];
    simpl; lia.
Qed.

(** The width of a row.  The name column is always 40 wide and the status
    column 20; a version column is 20 wide unless the version displayed is
    longer, in which case it is printed whole and the row gets wider.  So a
    row whose versions have at most 20 characters is as wide as the header
    line, 103 characters, three more than the rule of dashes under it. *)
Theorem package_row_width (name current latest : string) :
  String.length (package_row name current latest)
  = 63 + Nat.max 20 (String.length (shown_version current))
    + Nat.max 20 (String.length (shown_version latest))
  /\ (String.length current <= 20 -> String.length latest <= 20 ->
      String.length (package_row name current latest)
      = String.length table_header)
  /\ String.length table_header = 103
  /\ String.length table_rule = 100
  /\ print_package_info (VStr name) (VStr current) (VStr latest)
     = ([EPrint (package_row name current latest)], Return tt).
Proof.
  assert (Hlen : String.length (package_row name current latest)
                 = 63 + Nat.max 20 (String.length (shown_version current))
                   + Nat.max 20 (String.length (shown_version latest))).
  { unfold package_row.
    rewrite !PyStrFacts.append_length, !ljust_length.
    pose proof (take_length 39 name).
    assert (Hs : String.length (if String.eqb current latest
                                then "Up to date" else "Update Available")
                 <= 20)
      by (destruct (String.eqb current latest); simpl; lia).
    simpl String.length at 2 4 6. lia. }
  split; [exact Hlen|]. split; [|split; [reflexivity|split; [reflexivity|]]].
  - intros Hc Hl. rewrite Hlen.
    pose proof (shown_version_length current).
    pose proof (shown_version_length latest).
    change (String.length table_header) with 103. lia.
  - apply print_package_info_strings.
Qed.

(** ** A run that finds managers *)

Lemma for_each_listing (found : sdict string) :
  for_each found (fun entry =>
    let (manager, file_path) := entry : string * string in
    print ("  - " ++ PyStr.upper manager ++ ": " ++ OsPath.basename file_path))
  = (map listing_event found, Return tt).
Proof.
  apply (@for_each_map _ _ (@Some (string * string)) _ listing_event);
    [|reflexivity].
  intros [manager file_path] y H. inversion H. reflexivity.
Qed.

Lemma analyze_with_managers_trace w repo_url temp_dir t found :
  clone_repo w repo_url temp_dir = (t, Return tt) ->
  result (detect_package_managers w temp_dir) = Return found ->
  found <> [] ->
  analyze w repo_url temp_dir
  = ((t ++ detection_probes temp_dir
        ++ EPrint found_message
           :: map listing_event found
        ++ flat_map (fun entry => trace (check_manager w temp_dir entry))
             found)%list,
     Return tt).
Proof.
  intros Hc Hd Hne. unfold analyze.
  rewrite (bind_return _ Hc), (@detect_returns w temp_dir found Hd).
  destruct found as [|entry found]; [congruence|].
  rewrite (@bind_return _ _ _ _ (detection_probes temp_dir) (entry :: found)
             eq_refl).
  cbv beta iota. rewrite bind_ret_l, bind_print.
  rewrite for_each_listing.
  match goal with
  | |- context [bind (?tr, Return tt) ?k] =>
      rewrite (@bind_return _ _ (tr, Return tt) k tr tt eq_refl)
  end.
  rewrite check_outdated_packages_runs_all. reflexivity.
Qed.

(** When the clone succeeds and detection finds managers, [main] prints
    "Found the following package managers:", then one line per manager with
    its name in upper case and the base name of its manifest, then runs the
    check of each manager in the same order, removes the directory and ends
    normally: the exit status is 0. *)
Theorem main_with_managers (w : World) (prog url dir : string)
    (found : sdict string) :
  returns (validate_github_url w url) ->
  mkdtemp w = inl dir ->
  result (clone_repo w url dir) = Return tt ->
  result (detect_package_managers w dir) = Return found ->
  found <> [] ->
  main w [prog; url]
  = ((EMkdtemp :: clone_events url dir
      ++ detection_probes dir
      ++ EPrint found_message :: map listing_event found
      ++ flat_map (fun entry => trace (check_manager w dir entry)) found
      ++ [ECleanup dir])%list,
     Return tt)
  /\ exit_code (result (main w [prog; url])) = 0%Z.
Proof.
  intros Hv Hd Hc Hdet Hne.
  destruct (@validate_returns_quietly w url Hv) as [names Hnames].
  rewrite (@main_runs w prog url dir names Hnames Hd).
  apply clone_repo_return_trace in Hc.
  pose proof (@analyze_or_exit_cases w url dir) as Hcases.
  rewrite (@analyze_with_managers_trace w url dir _ found Hc Hdet Hne)
    in Hcases.
  rewrite Hcases. cbn [trace result fst snd exit_code].
  split; [|reflexivity]. unfold clone_events.
  repeat (rewrite <- app_assoc; cbn [app]). reflexivity.
Qed.

Lemma main_with_managers_witness :
  printed (trace (main maven_world ["app.py"; "https://github.com/owner/repo"]))
  = [ analyzing_message "https://github.com/owner/repo";
      found_message;
      "  - MAVEN: pom.xml";
      nl ++ "=== MAVEN Dependencies ===";
      nl ++ table_header;
      table_rule ]
  /\ exit_code (result (main maven_world
                          ["app.py"; "https://github.com/owner/repo"])) = 0%Z.
Proof.
  destruct (@main_with_managers maven_world "app.py"
              "https://github.com/owner/repo" "/tmp/tmpq1w2e3r4"
              [("maven", "/tmp/tmpq1w2e3r4/pom.xml")]
              (ex_intro _ ("owner", "repo") eq_refl) eq_refl eq_refl eq_refl
              ltac:(discriminate)) as [Hmain Hcode].
  split; [rewrite Hmain; reflexivity|exact Hcode].
Defined.

(** ** What a run does to the outside *)

Section Inside.
Variables (w : World) (repo_url temp_dir : string).

Local Abbreviation inside m :=
  (Forall (fun ev => inside_event repo_url temp_dir ev = true) (trace m)).

Lemma inside_bind {A B} (m : M A) (f : A -> M B) :
  inside m -> (forall a, inside (f a)) -> inside (bind m f).
Proof.
  intros Hm Hf. destruct m as [t [a|e|c]]; simpl in *; try exact Hm.
  specialize (Hf a). destruct (f a) as [t' o]; simpl in *.
  apply Forall_app. split; assumption.
Qed.

Lemma inside_try {A} (m : M A) (h : exn -> M A) :
  inside m -> (forall e, inside (h e)) -> inside (try_except m h).
Proof.
  intros Hm Hh. destruct m as [t [a|e|c]]; simpl in *; try exact Hm.
  specialize (Hh e). destruct (h e) as [t' o]; simpl in *.
  apply Forall_app. split; assumption.
Qed.

Lemma inside_for_each {A} (xs : list A) (body : A -> M unit) :
  (forall x, inside (body x)) -> inside (for_each xs body).
Proof.
  intros Hb. induction xs as [|x xs IH]; simpl; [constructor|].
  apply inside_bind; auto.
Qed.

Lemma inside_print l : inside (print l).
Proof. repeat constructor. Qed.

Lemma inside_ret {A} (a : A) : inside (ret a).
Proof. constructor. Qed.

Lemma inside_lift {A} (r : A + exn) : inside (lift r).
Proof. destruct r; constructor. Qed.

Lemma inside_subprocess_run argv cwd check :
  inside_event repo_url temp_dir (ERun argv cwd) = true ->
  inside (subprocess_run w argv cwd check).
Proof.
  intros H. unfold subprocess_run.
  destruct (run_process w argv cwd) as [rc out err|e]; simpl;
    [destruct (check && negb (Z.eqb rc 0))|]; repeat constructor; exact H.
Qed.

Lemma inside_py_get v k default : inside (py_get v k default).
Proof. destruct v; constructor. Qed.

Lemma inside_py_items v : inside (py_items v).
Proof. destruct v; constructor. Qed.

Lemma inside_py_iter v : inside (py_iter v).
Proof. destruct v; constructor. Qed.

Lemma inside_py_getitem v k : inside (py_getitem v k).
Proof.
  destruct v as [| | | | |d|]; try constructor.
  simpl. destruct (kget d (KStr k)); constructor.
Qed.

Lemma inside_print_package_info name current latest :
  inside (print_package_info name current latest).
Proof.
  unfold print_package_info.
  repeat (apply inside_bind; [|intros]);
    try apply inside_print;
    match goal with
    | |- Forall _ (trace (py_slice_to _ ?v)) => destruct v; constructor
    | |- Forall _ (trace (py_format_left _ ?v)) => destruct v; constructor
    end.
Qed.

Lemma inside_check_manager entry : inside (check_manager w temp_dir entry).
Proof.
  destruct entry as [manager file_path].
  unfold check_manager, check_body, print_package_header.
  apply inside_try; [|intros; apply inside_print].
  apply inside_bind; [apply inside_print|intros _].
  apply inside_bind;
    [apply inside_bind; [apply inside_print|intros; apply inside_print]
    |intros _].
  destruct (String.eqb manager "npm");
    [|destruct (String.eqb manager "pip");
      [|destruct (String.eqb manager "composer"); [|apply inside_ret]]].
  - unfold check_npm.
    apply inside_bind;
      [apply inside_subprocess_run; cbn; apply String.eqb_refl|intros r].
    destruct (negb (PyStr.is_empty (PyStr.strip_ws (stdout r))));
      [|apply inside_ret].
    apply inside_bind; [apply inside_lift|intros packages].
    apply inside_bind; [apply inside_py_items|intros items].
    apply inside_for_each. intros [pkg info].
    apply inside_bind; [apply inside_py_get|intros current].
    apply inside_bind; [apply inside_py_get|intros latest].
    apply inside_print_package_info.
  - unfold check_pip.
    apply inside_bind; [apply inside_subprocess_run; reflexivity|intros _].
    apply inside_bind; [apply inside_subprocess_run; reflexivity|intros r].
    destruct (negb (PyStr.is_empty (PyStr.strip_ws (stdout r))));
      [|apply inside_ret].
    apply inside_bind; [apply inside_lift|intros packages].
    apply inside_bind; [apply inside_py_iter|intros pkgs].
    apply inside_for_each. intros pkg.
    apply inside_bind; [apply inside_py_getitem|intros name].
    apply inside_bind; [apply inside_py_getitem|intros current].
    apply inside_bind; [apply inside_py_getitem|intros latest].
    apply inside_print_package_info.
  - unfold check_composer.
    apply inside_bind;
      [apply inside_subprocess_run; cbn; apply String.eqb_refl|intros r].
    destruct (negb (PyStr.is_empty (PyStr.strip_ws (stdout r))));
      [|apply inside_ret].
    apply inside_bind; [apply inside_lift|intros data].
    apply inside_bind; [apply inside_py_get|intros installed].
    apply inside_bind; [apply inside_py_iter|intros pkgs].
    apply inside_for_each. intros pkg.
    apply inside_bind; [apply inside_py_get|intros name].
    apply inside_bind; [apply inside_py_get|intros current].
    apply inside_bind; [apply inside_py_get|intros latest].
    apply inside_print_package_info.
Qed.

Lemma inside_clone_repo : inside (clone_repo w repo_url temp_dir).
Proof.
  assert (Hclone : inside_event repo_url temp_dir
                     (ERun (git_clone_argv repo_url temp_dir) None) = true).
  { cbn. rewrite !String.eqb_refl. reflexivity. }
  pose proof (@clone_repo_cases w repo_url temp_dir) as H. cbv zeta in H.
  destruct (which w "git");
    [destruct (run_process w (git_clone_argv repo_url temp_dir) None)
       as [rc out err|e];
     [destruct (Z.eqb rc 0)|destruct (is_CalledProcessError e)]|];
    rewrite H; cbn [trace fst app];
    repeat (constructor; [first [reflexivity|exact Hclone]|]); constructor.
Qed.

Lemma inside_detect :
  inside (detect_package_managers w temp_dir).
Proof.
  rewrite detect_package_managers_steps. cbn [trace fst].
  unfold detection_probes. apply Forall_forall. intros ev Hin.
  apply in_map_iff in Hin. destruct Hin as [row [<- _]].
  unfold probe. destruct (PyStr.contains "*" (fst row)); reflexivity.
Qed.

Lemma inside_analyze_or_exit : inside (analyze_or_exit w repo_url temp_dir).
Proof.
  unfold analyze_or_exit, analyze.
  apply inside_try;
    [|intros; apply inside_bind; [apply inside_print|intros; constructor]].
  apply inside_bind; [apply inside_clone_repo|intros _].
  apply inside_bind; [apply inside_detect|intros found].
  apply inside_bind.
  - destruct found; [|apply inside_ret].
    apply inside_bind; [apply inside_print|intros; constructor].
  - intros _. apply inside_bind; [apply inside_print|intros _].
    apply inside_bind.
    + apply inside_for_each. intros [manager file_path]. apply inside_print.
    + intros _. unfold check_outdated_packages.
      apply inside_for_each. apply inside_check_manager.
Qed.

End Inside.

(** Once the URL is accepted and the temporary directory made, whatever
    happens next, the trace of [main] is: the making of the directory,
    events that are all prints, the lookup of [git], probes of detection or
    one of five commands (the clone; [npm outdated] and [composer outdated]
    run in the clone; [pip install -r] and [pip list] run where the program
    runs), and last the removal of that directory.  In particular the script
    opens no file (its two parsers are never called), starts no other
    program, and removes the directory on every path. *)
Theorem main_stays_inside (w : World) (prog url dir : string) :
  returns (validate_github_url w url) ->
  mkdtemp w = inl dir ->
  exists t,
    trace (main w [prog; url]) = (EMkdtemp :: t ++ [ECleanup dir])%list
    /\ forallb (inside_event url dir) t = true.
Proof.
  intros Hv Hd.
  destruct (@validate_returns_quietly w url Hv) as [names Hnames].
  exists (trace (analyze_or_exit w url dir)).
  rewrite (@main_runs w prog url dir names Hnames Hd).
  split; [reflexivity|].
  apply forallb_forall. apply Forall_forall.
  apply inside_analyze_or_exit.
Qed.

Lemma main_stays_inside_witness :
  exists t,
    trace (main lodash_world ["app.py"; "https://github.com/owner/repo"])
    = (EMkdtemp :: t ++ [ECleanup "/tmp/tmpq1w2e3r4"])%list
    /\ forallb (inside_event "https://github.com/owner/repo" "/tmp/tmpq1w2e3r4") t
       = true.
Proof.
  apply (@main_stays_inside lodash_world "app.py"
           "https://github.com/owner/repo" "/tmp/tmpq1w2e3r4"
           (ex_intro _ ("owner", "repo") eq_refl) eq_refl).
Defined.

(** ** The parsers at their edges *)

(** When the manifest is a JSON object in which [dependencies] is [null],
    a number or a boolean, or in which [dependencies] is fine and
    [devDependencies] is one of those, [parse_npm_dependencies] prints
    "Error parsing package.json: '...' object is not iterable" and returns
    the empty mapping: the entries of the other group are lost with it. *)
Theorem parse_npm_dependencies_group_not_iterable (w : World) (path : string)
    (f : file) (d : PyDict.t pykey pyval) (v : pyval) :
  open_file w path = inl f ->
  read_error f = None ->
  json_loads w (String.concat "" (lines f)) = inl (VDict d) ->
  not_iterable v = true ->
  kget d (KStr "dependencies") = Some v
  \/ (exists deps, dependency_group d "dependencies" = Some deps
                   /\ kget d (KStr "devDependencies") = Some v) ->
  parse_npm_dependencies w path
  = ([EOpen path;
      EPrint ("Error parsing package.json: '" ++ type_name v
              ++ "' object is not iterable")],
     Return []).
Proof.
  intros Hopen Hread Hjson Hv Hgroup.
  unfold parse_npm_dependencies, load_npm_dependencies.
  rewrite Hopen. simpl lift. rewrite bind_emit, !bind_ret_l.
  unfold read_all. rewrite Hread, !bind_ret_l, Hjson. simpl lift.
  rewrite bind_ret_l.
  destruct Hgroup as [Hdeps|[deps [Hdeps Hdev]]].
  - unfold py_get. rewrite Hdeps, bind_ret_l.
    destruct v; try discriminate; reflexivity.
  - rewrite (py_get_group _ _ Hdeps), bind_ret_l. simpl py_update.
    rewrite bind_ret_l. unfold py_get. rewrite Hdev, bind_ret_l.
    destruct v; try discriminate; reflexivity.
Qed.

Lemma parse_npm_dependencies_group_not_iterable_witness :
  parse_npm_dependencies null_group_world "/repo/package.json"
  = ([EOpen "/repo/package.json";
      EPrint "Error parsing package.json: 'NoneType' object is not iterable"],
     Return []).
Proof.
  apply (@parse_npm_dependencies_group_not_iterable null_group_world
           "/repo/package.json"
           {| lines := [null_group_text]; read_error := None |}
           null_group_manifest VNone eq_refl eq_refl eq_refl eq_refl
           (or_introl eq_refl)).
Defined.

Lemma rstrip_idempotent f s :
  PyStr.rstrip f (PyStr.rstrip f s) = PyStr.rstrip f s.
Proof.
  induction s as [|c s IH]; [reflexivity|].
  simpl. destruct (PyStr.rstrip f s) as [|b r] eqn:E.
  - destruct (f c) eqn:Ec; [reflexivity|]. simpl. rewrite Ec. reflexivity.
  - change (PyStr.rstrip f (String c (String b r)))
      with (match PyStr.rstrip f (String b r) with
            | EmptyString => if f c then EmptyString else String c EmptyString
            | r' => String c r'
            end).
    rewrite IH. reflexivity.
Qed.

Lemma strip_idempotent f s :
  PyStr.strip f (PyStr.strip f s) = PyStr.strip f s.
Proof.
  destruct (PyStr.strip f s) as [|a r] eqn:E; [reflexivity|].
  destruct (@PyStrFacts.strip_ends f s a r E) as [Ha _].
  unfold PyStr.strip at 1. simpl PyStr.lstrip. rewrite Ha.
  rewrite <- E. unfold PyStr.strip. apply rstrip_idempotent.
Qed.

(** The layout of a requirements file does not matter: the whitespace
    around a line changes nothing, and the loop gives the same mapping, and
    stops on the same error, when the blank lines and the comment lines are
    taken out, wherever they are. *)
Theorem requirements_layout_irrelevant (deps : sdict string) :
  (forall raw,
     parse_requirement_line deps (PyStr.strip_ws raw)
     = parse_requirement_line deps raw)
  /\ (forall raw,
        significant raw = false -> parse_requirement_line deps raw = inl deps)
  /\ (forall ls,
        parse_requirement_lines deps (filter significant ls)
        = parse_requirement_lines deps ls).
Proof.
  assert (Hskip : forall (d : sdict string) raw,
             significant raw = false -> parse_requirement_line d raw = inl d).
  { intros d raw H. unfold significant in H. unfold parse_requirement_line.
    rewrite H. reflexivity. }
  split; [|split].
  - intros raw. unfold parse_requirement_line, PyStr.strip_ws.
    rewrite strip_idempotent. reflexivity.
  - apply Hskip.
  - intros ls. revert deps. induction ls as [|raw ls IH]; intros deps;
      [reflexivity|].
    simpl filter. destruct (significant raw) eqn:E.
    + simpl. destruct (parse_requirement_line deps raw); [apply IH|reflexivity].
    + simpl. rewrite (Hskip deps raw E). apply IH.
Qed.

(** ** The paths of the detector *)

Lemma contains_app sep x y : PyStr.contains sep (x ++ sep ++ y) = true.
Proof.
  unfold PyStr.contains. induction x as [|c x IH].
  - simpl append.
    destruct (sep ++ y) eqn:E; simpl;
      rewrite <- ?E, PyStrFacts.strip_prefix_app; reflexivity.
  - simpl append.
    change (PyStr.partition sep (String c (x ++ sep ++ y)))
      with (match PyStr.strip_prefix sep (String c (x ++ sep ++ y)) with
            | Some rest => Some (EmptyString, rest)
            | None =>
                match PyStr.partition sep (x ++ sep ++ y) with
                | Some (a, b) => Some (String c a, b)
                | None => None
                end
            end).
    destruct (PyStr.strip_prefix sep (String c (x ++ sep ++ y)));
      [reflexivity|].
    destruct (PyStr.partition sep (x ++ sep ++ y)) as [[a b]|];
      [reflexivity|discriminate].
Qed.

Lemma basename_cons c p :
  OsPath.basename (String c p)
  = if PyStr.contains "/" (String c p) then OsPath.basename p else String c p.
Proof. reflexivity. Qed.

Lemma basename_after_slash x y :
  OsPath.basename (x ++ "/" ++ y) = OsPath.basename y.
Proof.
  induction x as [|c x IH].
  - reflexivity.
  - change (String c x ++ "/" ++ y) with (String c (x ++ "/" ++ y)).
    rewrite basename_cons.
    change (String c (x ++ "/" ++ y)) with (String c x ++ "/" ++ y) at 1.
    rewrite contains_app. exact IH.
Qed.

Lemma basename_plain name :
  PyStr.contains "/" name = false -> OsPath.basename name = name.
Proof.
  intros H. destruct name as [|c name]; [reflexivity|].
  rewrite basename_cons, H. reflexivity.
Qed.

Lemma endswith_char_split c s :
  PyStr.endswith_char c s = true -> exists s', s = s' ++ String c "".
Proof.
  unfold PyStr.endswith_char. induction s as [|a s IH]; [discriminate|].
  destruct s as [|b s'].
  - simpl. destruct (Ascii.eqb_spec c a); [|discriminate].
    subst. exists "". reflexivity.
  - intros H. destruct (IH H) as [s0 Hs0]. exists (String a s0).
    simpl. rewrite <- Hs0. reflexivity.
Qed.

(** Joining a directory and a plain file name, and taking the base name
    back, gives the name: whatever the temporary directory is called, the
    path recorded for a literal marker is listed by [main] under the name of
    the marker. *)
Theorem basename_of_joined (dir name : string) :
  PyStr.contains "/" name = false ->
  OsPath.basename (OsPath.join dir name) = name.
Proof.
  intros Hname.
  assert (Hstart : PyStr.startswith "/" name = false).
  { destruct name as [|c name]; [reflexivity|].
    destruct (@contains_char_cons "/"%char c name Hname) as [Hc _].
    cbn [PyStr.startswith]. rewrite Hc. reflexivity. }
  unfold OsPath.join. rewrite Hstart.
  destruct (PyStr.is_empty dir) eqn:Hempty.
  - destruct dir; [|discriminate]. simpl. apply basename_plain. exact Hname.
  - simpl orb. destruct (PyStr.endswith_char "/" dir) eqn:Hend.
    + destruct (endswith_char_split _ _ Hend) as [d' ->].
      rewrite PyStrFacts.append_assoc.
      rewrite basename_after_slash. apply basename_plain. exact Hname.
    + rewrite basename_after_slash. apply basename_plain. exact Hname.
Qed.

Lemma basename_of_joined_witness :
  OsPath.basename (OsPath.join "/tmp/tmpq1w2e3r4" "requirements.txt")
  = "requirements.txt".
Proof.
  apply (@basename_of_joined "/tmp/tmpq1w2e3r4" "requirements.txt" eq_refl).
Defined.

Lemma pattern_marker marker mgr :
  In (marker, mgr) package_files -> PyStr.contains "*" marker = true ->
  marker = "*.csproj".
Proof.
  intros H Hc. unfold package_files in H. simpl in H.
  repeat (destruct H as [H|H];
          [inversion H; subst; first [discriminate Hc | reflexivity]|]).
  contradiction.
Qed.

(** In any world, detection makes its ten probes, in the order of the
    table, prints nothing and never calls [sys.exit].  The one call of it
    that can raise is the recursive search, which comes last: its exception
    leaves the function, and the map built so far is lost.  Otherwise the
    map returned has distinct keys, and a manager is mapped to a path
    exactly when the probe for its marker succeeded with that path:
    [os.path.exists] on the marker joined to the directory, or the first
    match of the recursive search for [*.csproj]. *)
Theorem detect_package_managers_any_world (w : World) (temp_dir : string) :
  trace (detect_package_managers w temp_dir) = detection_probes temp_dir
  /\ List.length (detection_probes temp_dir) = 10
  /\ existsb is_print (detection_probes temp_dir) = false
  /\ never_exits (detect_package_managers w temp_dir)
  /\ match rglob w temp_dir "*.csproj" with
     | inr e => result (detect_package_managers w temp_dir) = Raise e
     | inl matches =>
         exists found,
           result (detect_package_managers w temp_dir) = Return found
           /\ NoDup (PyDict.keys found)
           /\ List.length found <= 10
           /\ forall mgr path,
                sget found mgr = Some path
                <-> exists marker,
                      In (marker, mgr) package_files
                      /\ (if PyStr.contains "*" marker
                          then hd_error matches = Some path
                          else path_exists w (OsPath.join temp_dir marker)
                               = true
                               /\ path = OsPath.join temp_dir marker)
     end.
Proof.
  split; [apply detect_trace|]. split; [reflexivity|].
  split; [reflexivity|]. split; [apply never_exits_detect|].
  rewrite detect_package_managers_steps. cbn [result snd].
  destruct (rglob w temp_dir "*.csproj") as [matches|e] eqn:E; [|reflexivity].
  exists (world_manager_map w temp_dir).
  split; [reflexivity|].
  split; [apply keys_flat_map_nodup; exact package_files_managers_distinct|].
  split.
  - unfold world_manager_map, package_files. cbn [flat_map].
    rewrite !length_app. unfold marker_entries.
    repeat match goal with
           | |- context [world_marker_path ?a ?b ?c] =>
               destruct (world_marker_path a b c)
           end; simpl; lia.
  - intros mgr path. unfold world_manager_map.
    rewrite (@sget_flat_map (world_marker_path w temp_dir) package_files mgr
               path package_files_managers_distinct).
    split; intros [marker [Hin H]]; exists marker; (split; [exact Hin|]);
      unfold world_marker_path, rglob_matches in *;
      destruct (PyStr.contains "*" marker) eqn:Hc.
    + rewrite (pattern_marker Hin Hc), E in H. exact H.
    + destruct (path_exists w (OsPath.join temp_dir marker));
        [inversion H; auto|discriminate].
    + rewrite (pattern_marker Hin Hc), E. exact H.
    + destruct H as [-> ->]. reflexivity.
Qed.

(** A search that fails: the run of [main] on a clone with a manifest
    and directories nested a thousand deep ends with the message of the
    recursion limit and the exit status 1; nothing is checked. *)
Example main_on_deep_tree :
  printed (trace (main (on_tree quiet_world "/tmp/tmpq1w2e3r4" (FsDir deep_marker))
                    ["app.py"; "https://github.com/owner/repo"]))
  = [ analyzing_message "https://github.com/owner/repo";
      nl ++ cross_mark
      ++ " Error analyzing repository: maximum recursion depth exceeded" ]
  /\ result (main (on_tree quiet_world "/tmp/tmpq1w2e3r4" (FsDir deep_marker))
               ["app.py"; "https://github.com/owner/repo"])
     = Exit 1.
Proof. split; vm_compute; reflexivity. Qed.

(** ** A requirements file that parses *)

Lemma requirement_entry_line (deps : sdict string) raw name version :
  significant raw = true ->
  requirement_entry raw = Some (name, version) ->
  parse_requirement_line deps raw = inl (sset deps name version).
Proof.
  unfold significant, requirement_entry, parse_requirement_line.
  intros Hs. rewrite Hs.
  destruct (PyStr.contains "==" (PyStr.strip_ws raw)).
  - destruct (PyStr.partition "==" (PyStr.strip_ws raw)) as [[n v]|] eqn:Hp;
      [|discriminate].
    destruct (PyStr.contains "==" v) eqn:Hv; [discriminate|].
    intros H; inversion H; subst.
    rewrite (@split_once "==" _ name version ltac:(discriminate) Hp Hv).
    reflexivity.
  - destruct (PyStr.contains ">=" (PyStr.strip_ws raw)).
    + destruct (PyStr.partition ">=" (PyStr.strip_ws raw)) as [[n v]|] eqn:Hp;
        [|discriminate].
      destruct (PyStr.contains ">=" v) eqn:Hv; [discriminate|].
      intros H; inversion H; subst.
      rewrite (@split_once ">=" _ name version ltac:(discriminate) Hp Hv).
      reflexivity.
    + intros H; inversion H; subst. reflexivity.
Qed.

Lemma requirement_lines_entries ls : forall (deps : sdict string) entries,
  map requirement_entry (filter significant ls) = map Some entries ->
  parse_requirement_lines deps ls
  = (PyDict.update String.eqb deps entries, None).
Proof.
  induction ls as [|raw ls IH]; intros deps entries H.
  - destruct entries; [reflexivity|discriminate].
  - simpl filter in H. simpl parse_requirement_lines.
    destruct (significant raw) eqn:Hs.
    + destruct entries as [|[name version] entries]; [discriminate|].
      simpl in H. inversion H as [[He Hrest]].
      rewrite (@requirement_entry_line deps raw name version Hs He).
      rewrite (IH _ _ Hrest). reflexivity.
    + unfold significant in Hs. unfold parse_requirement_line at 1.
      rewrite Hs. apply IH. exact H.
Qed.

Lemma sget_update_rev (entries : sdict string) : forall d k,
  sget (PyDict.update String.eqb d entries) k
  = match sget (rev entries) k with
    | Some v => Some v
    | None => sget d k
    end.
Proof.
  induction entries as [|[k0 v0] entries IH]; intros d k; [reflexivity|].
  unfold PyDict.update in *. simpl fold_left. rewrite IH.
  simpl rev. rewrite sget_app. simpl.
  rewrite (@PyDictFacts.get_set string string String.eqb String.eqb_sym
             (fun a b c H1 H2 =>
                proj2 (String.eqb_eq a c)
                  (eq_trans (proj1 (String.eqb_eq a b) H1)
                            (proj1 (String.eqb_eq b c) H2)))).
  destruct (sget (rev entries) k); [reflexivity|].
  destruct (String.eqb k0 k); reflexivity.
Qed.

(** When the file can be read to its end and no line that counts has its
    operator twice, [parse_python_requirements] prints nothing and returns
    the entries of the lines in order, a name that comes again keeping its
    place and taking the new version: looking a name up in the result gives
    the version of the last line that has it. *)
Theorem parse_python_requirements_entries (w : World) (path : string)
    (f : file) (entries : list (string * string)) :
  open_file w path = inl f ->
  read_error f = None ->
  map requirement_entry (filter significant (lines f)) = map Some entries ->
  parse_python_requirements w path
  = ([EOpen path], Return (PyDict.update String.eqb [] entries))
  /\ forall name,
       sget (PyDict.update String.eqb [] entries) name
       = sget (rev entries) name.
Proof.
  intros Hopen Hread Hentries. split.
  - unfold parse_python_requirements. rewrite Hopen.
    rewrite (@requirement_lines_entries (lines f) [] entries Hentries), Hread.
    reflexivity.
  - intros name. rewrite sget_update_rev.
    destruct (sget (rev entries) name); reflexivity.
Qed.

Lemma parse_python_requirements_entries_witness :
  parse_python_requirements
    (requirements_world {| lines := tidy_requirements; read_error := None |})
    "/repo/requirements.txt"
  = ([EOpen "/repo/requirements.txt"],
     Return [("flask", "3.0"); ("requests", "2.31.0");
             ("six", "Not specified")]).
Proof.
  exact (proj1 (@parse_python_requirements_entries
                  (requirements_world
                     {| lines := tidy_requirements; read_error := None |})
                  "/repo/requirements.txt"
                  {| lines := tidy_requirements; read_error := None |}
                  [("flask", "2.0"); ("requests", "2.31.0"); ("flask", "3.0");
                   ("six", "Not specified")]
                  eq_refl eq_refl eq_refl)).
Defined.

(** ** Commands that print nothing, and runs that are refused *)

(** A command of a handler that prints nothing, or white space only,
    gives no row and no error: the check is the headers and the command
    (for [pip], the two commands), and the JSON decoder is not asked. *)
Theorem check_manager_silent_command (w : World) (temp_dir file_path : string) :
  (forall rc out err,
     run_process w ["npm"; "outdated"; "--json"] (Some temp_dir)
     = Completed rc out err ->
     PyStr.is_empty (PyStr.strip_ws out) = true ->
     check_manager w temp_dir ("npm", file_path)
     = ((header_events "npm"
         ++ [ERun ["npm"; "outdated"; "--json"] (Some temp_dir)])%list,
        Return tt))
  /\ (forall rc1 out1 err1 rc out err,
        run_process w ["pip"; "install"; "-r"; file_path] None
        = Completed rc1 out1 err1 ->
        run_process w ["pip"; "list"; "--outdated"; "--format=json"] None
        = Completed rc out err ->
        PyStr.is_empty (PyStr.strip_ws out) = true ->
        check_manager w temp_dir ("pip", file_path)
        = ((header_events "pip"
            ++ [ERun ["pip"; "install"; "-r"; file_path] None;
                ERun ["pip"; "list"; "--outdated"; "--format=json"] None])%list,
           Return tt))
  /\ (forall rc out err,
        run_process w ["composer"; "outdated"; "--direct"; "--format=json"]
          (Some temp_dir) = Completed rc out err ->
        PyStr.is_empty (PyStr.strip_ws out) = true ->
        check_manager w temp_dir ("composer", file_path)
        = ((header_events "composer"
            ++ [ERun ["composer"; "outdated"; "--direct"; "--format=json"]
                  (Some temp_dir)])%list,
           Return tt)).
Proof.
  split; [|split].
  - intros rc out err Hrun Hout.
    apply (@check_manager_of_handler w temp_dir "npm" file_path _ (Return tt));
      [|intros c; discriminate].
    cbn [String.eqb Ascii.eqb Bool.eqb]. unfold check_npm.
    rewrite (bind_return _ (subprocess_run_completed _ _ _ Hrun)).
    cbn [stdout]. rewrite Hout. reflexivity.
  - intros rc1 out1 err1 rc out err Hrun1 Hrun Hout.
    apply (@check_manager_of_handler w temp_dir "pip" file_path _ (Return tt));
      [|intros c; discriminate].
    cbn [String.eqb Ascii.eqb Bool.eqb]. unfold check_pip.
    rewrite (bind_return _ (subprocess_run_completed _ _ _ Hrun1)).
    rewrite (bind_return _ (subprocess_run_completed _ _ _ Hrun)).
    cbn [trace result fst snd stdout]. rewrite Hout. reflexivity.
  - intros rc out err Hrun Hout.
    apply (@check_manager_of_handler w temp_dir "composer" file_path _
             (Return tt));
      [|intros c; discriminate].
    cbn [String.eqb Ascii.eqb Bool.eqb]. unfold check_composer.
    rewrite (bind_return _ (subprocess_run_completed _ _ _ Hrun)).
    cbn [stdout]. rewrite Hout. reflexivity.
Qed.

(** [main] makes the temporary directory exactly when it has two
    arguments and the URL is accepted.  Otherwise all it does is print, and
    it exits with 1: a refused run touches nothing. *)
Theorem main_refuses_before_any_effect (w : World) (argv : list string) :
  (In EMkdtemp (trace (main w argv))
   <-> exists prog url,
         argv = [prog; url] /\ returns (validate_github_url w url))
  /\ (~ In EMkdtemp (trace (main w argv)) ->
      result (main w argv) = Exit 1
      /\ forallb is_print (trace (main w argv)) = true).
Proof.
  destruct (Nat.eq_dec (List.length argv) 2) as [Hlen|Hlen].
  - destruct argv as [|prog [|url [|x rest]]]; try discriminate.
    destruct (@validate_github_url_cases w url) as [[names Hv]|[line Hv]].
    + assert (Hin : In EMkdtemp (trace (main w [prog; url]))).
      { destruct (mkdtemp w) as [dir|e] eqn:Hd.
        - rewrite (@main_runs w prog url dir names Hv Hd). left. reflexivity.
        - rewrite (@main_without_directory w prog url names e Hv Hd).
          left. reflexivity. }
      split; [|intros Hn; contradiction].
      split; [|intros _; exact Hin].
      intros _. exists prog, url. split; [reflexivity|].
      exists names. rewrite Hv. reflexivity.
    + rewrite (@main_stops_at_url w prog url _ _ Hv). cbn [trace result fst snd].
      split; [|intros _; split; reflexivity].
      split; [intros [H|[]]; discriminate|].
      intros [p [u [Heq [nm Hr]]]]. inversion Heq; subst.
      rewrite Hv in Hr. discriminate.
  - rewrite (@main_wrong_argument_count w argv Hlen).
    cbn [trace result fst snd].
    split; [|intros _; split; reflexivity].
    split; [intros [H|[H|[]]]; discriminate|].
    intros [p [u [Heq _]]]. subst argv. simpl in Hlen. congruence.
Qed.

(** In the quiet world every command prints nothing: a run on a clone
    with a [package.json] shows the headers of [npm] and no row. *)
Example check_manager_silent_npm :
  check_manager quiet_world "/tmp/r" ("npm", "/tmp/r/package.json")
  = ((header_events "npm"
      ++ [ERun ["npm"; "outdated"; "--json"] (Some "/tmp/r")])%list,
     Return tt).
Proof. reflexivity. Qed.
